(** * CEQA Site Check 2.0: statewide requirements and exemptions

    A shallow embedding of [Calculate_CEQA_Requirements_and_Exemptions_Statewide.py].
    The script walks county parcel feature classes, fills one nullable SHORT
    attribute per legal requirement (through ArcGIS geoprocessing or toolbox
    models), derives the exemptions from them with a three-valued AND/OR, and
    appends the results to two shared tables for the development team.

    Python values are embedded as [value]; a geodatabase is a finite map from
    paths to [table]s; module globals and the console are fields of [world];
    exceptions are the left summand of the monad [Py]. *)

From Stdlib Require Import ZArith List Ascii String Lia.
From stdpp Require Import base option list strings gmap pretty sorting.

Open Scope string_scope.
Open Scope list_scope.
Open Scope Z_scope.

(** ** Python values held by attribute cells *)

(** A cell of an attribute table: [None] (a geodatabase <null>), an integer
    (SHORT fields) or a text. *)
Inductive value : Type :=
  | VNone
  | VInt (n : Z)
  | VStr (s : string).

#[global] Instance value_eq_dec : EqDecision value.
Proof. solve_decision. Defined.

(** Python truth value of a cell: [None], [0] and the empty text are false. *)
Definition truthy (v : value) : bool :=
  match v with
  | VNone => false
  | VInt n => negb (n =? 0)
  | VStr s => negb (String.eqb s "")
  end.

(** [any(l)], [all(l)] and [x in l] on lists of cells. *)
Definition py_any (l : list value) : bool := existsb truthy l.
Definition py_all (l : list value) : bool := forallb truthy l.
Definition py_in (x : value) (l : list value) : bool :=
  existsb (fun y => bool_decide (x = y)) l.

(** The three results a requirement or an exemption is meant to take. *)
Definition tri_state (v : value) : Prop :=
  v = VInt 0 \/ v = VInt 1 \/ v = VNone.

(** ** Three-valued combination (calculate_exemptions, inner branches) *)

(** Lines 1059-1067: the value appended to [check_requirements] for an
    OR group once its members' values have been collected in [or_values]. *)
Definition or_group_value (or_values : list value) : value :=
  if py_any or_values then VInt 1
  else if py_in VNone or_values then VNone
  else VInt 0.

(** Python exceptions the script can meet; [SystemExit] is raised by [exit()],
    [ExecuteError] by a failing geoprocessing tool. *)
Inductive exn : Type :=
  | KeyError (key : string)
  | ValueError
  | IndexError
  | TypeError
  | NameError (name : string)
  | ExecuteError (tool : string)
  | SystemExit.

#[global] Instance exn_eq_dec : EqDecision exn.
Proof. solve_decision. Defined.

(** [exemptions_count += 1] on the value read from the row. *)
Definition py_incr (v : value) : exn + value :=
  match v with
  | VInt n => inr (VInt (n + 1))
  | _ => inl TypeError
  end.

(** Lines 1080-1091: from the clause values to the exemption status and the
    running count. *)
Definition exemption_status (check_requirements : list value)
    (exemptions_count : value) : exn + (value * value) :=
  if py_all check_requirements then
    match py_incr exemptions_count with
    | inl e => inl e
    | inr c => inr (VInt 1, c)
    end
  else if py_in (VInt 0) check_requirements then inr (VInt 0, exemptions_count)
  else inr (VNone, exemptions_count).


(** ** Strings *)

(** [s.replace(a, b)] for one-character [a] and [b]. *)
Fixpoint replace_char (a b : ascii) (s : string) : string :=
  match s with
  | EmptyString => EmptyString
  | String c s' => String (if Ascii.eqb c a then b else c) (replace_char a b s')
  end.

(** [s.lower()] on the ASCII range: the letters A to Z are mapped to a to z
    and every other character is kept.  The paths, field names and county
    keys of the script are ASCII; on a name with other letters Python's
    [lower] may differ, and the properties on names assume ASCII where it
    matters. *)
Definition lower_ascii (c : ascii) : ascii :=
  let n := N_of_ascii c in
  if ((65 <=? n) && (n <=? 90))%N then ascii_of_N (n + 32) else c.

Fixpoint lower (s : string) : string :=
  match s with
  | EmptyString => EmptyString
  | String c s' => String (lower_ascii c) (lower s')
  end.

(** [s.split(sep)[0]]: the text before the first [sep] (all of [s] if there
    is none). *)
Fixpoint first_token (sep : ascii) (s : string) : string :=
  match s with
  | EmptyString => EmptyString
  | String c s' => if Ascii.eqb c sep then EmptyString else String c (first_token sep s')
  end.

(** [os.path.basename] of the Windows path module: the text after the last
    backslash or slash.  [ntpath] first splits a drive or UNC prefix off;
    this is used on the paths the script builds, a geodatabase path
    followed by a backslash and a name, where the prefix ends before the
    last separator and the two agree. *)
Definition is_sep (c : ascii) : bool := Ascii.eqb c "\" || Ascii.eqb c "/".

Fixpoint has_sep (p : string) : bool :=
  match p with
  | EmptyString => false
  | String c p' => is_sep c || has_sep p'
  end.

Fixpoint basename (p : string) : string :=
  match p with
  | EmptyString => EmptyString
  | String c p' => if has_sep p' then basename p' else if is_sep c then p' else p
  end.

(** [s[len(prefix):]] when [s.startswith(prefix)]. *)
Fixpoint strip_prefix (prefix s : string) : option string :=
  match prefix, s with
  | EmptyString, _ => Some s
  | String a prefix', String b s' =>
      if Ascii.eqb a b then strip_prefix prefix' s' else None
  | String _ _, EmptyString => None
  end.

(** [str(v)], as used by the [%s] conversion. *)
Definition py_str (v : value) : string :=
  match v with
  | VNone => "None"
  | VInt n => pretty n
  | VStr s => s
  end.

(** Python's ordering of [str]: lexicographic on code points. *)
Definition str_le (a b : string) : Prop := String.leb a b = true.

#[global] Instance str_le_dec a b : Decision (str_le a b).
Proof. unfold str_le. apply _. Defined.

(** [l.sort()] on a list of names. *)
Definition py_sort (l : list string) : list string := merge_sort str_le l.

(** [l.index(x)]: the first position of [x]; [None] stands for [ValueError]. *)
Fixpoint index (x : string) (l : list string) : option nat :=
  match l with
  | [] => None
  | y :: l' => if decide (x = y) then Some 0%nat else S <$> index x l'
  end.

(** A dictionary with text keys, in insertion order. *)
Definition dict (V : Type) : Type := list (string * V).

Fixpoint dict_lookup {V} (d : dict V) (k : string) : option V :=
  match d with
  | [] => None
  | (k', v) :: d' => if decide (k = k') then Some v else dict_lookup d' k
  end.

Definition keys {V} (d : dict V) : list string := fst <$> d.
Definition values {V} (d : dict V) : list V := snd <$> d.

(** ** The state and exception monad *)

(** A computation over a state [S] returns the new state together with an
    exception or a result; the state reached when an exception is raised is
    kept (what was written or printed stays written or printed). *)
Definition Py (S A : Type) : Type := S -> S * (exn + A).

Definition ret {S A} (a : A) : Py S A := fun s => (s, inr a).
Definition raise {S A} (e : exn) : Py S A := fun s => (s, inl e).
Definition bind {S A B} (m : Py S A) (k : A -> Py S B) : Py S B :=
  fun s =>
    match m s with
    | (s1, inl e) => (s1, inl e)
    | (s1, inr a) => k a s1
    end.
Definition get {S} : Py S S := fun s => (s, inr s).
Definition modify {S} (f : S -> S) : Py S unit := fun s => (f s, inr tt).
Definition lift {S A} (r : exn + A) : Py S A := fun s => (s, r).

Notation "x <- m ;; k" := (bind m (fun x => k))
  (at level 100, m at next level, right associativity,
   format "'[v' x  <-  m  ;; '/' k ']'").
Notation "m ;;; k" := (bind m (fun _ => k))
  (at level 100, right associativity, format "'[v' m  ;;; '/' k ']'").

(** [try: body / except: handler] with a bare [except]. *)
Definition try_except {S A} (body handler : Py S A) : Py S A :=
  fun s =>
    match body s with
    | (s1, inl _) => handler s1
    | (s1, inr a) => (s1, inr a)
    end.

(** [d[k]], raising [KeyError]. *)
Definition dict_get {S V} (d : dict V) (k : string) : Py S V :=
  match dict_lookup d k with
  | Some v => ret v
  | None => raise (KeyError k)
  end.

(** [for x in l: body x]. *)
Fixpoint for_each {S A} (l : list A) (body : A -> Py S unit) : Py S unit :=
  match l with
  | [] => ret tt
  | x :: l' => body x ;;; for_each l' body
  end.

(** A [for] loop that rebinds one local variable. *)
Fixpoint for_fold {S A B} (l : list A) (acc : B) (body : B -> A -> Py S B) : Py S B :=
  match l with
  | [] => ret acc
  | x :: l' => acc' <- body acc x ;; for_fold l' acc' body
  end.

(** A [for] loop that appends one result per element to a fresh list. *)
Fixpoint collect {S A B} (l : list A) (body : A -> Py S B) : Py S (list B) :=
  match l with
  | [] => ret []
  | x :: l' => y <- body x ;; ys <- collect l' body ;; ret (y :: ys)
  end.

(** ** Geodatabase tables *)

(** An [arcpy] Field object: its name and its type keyword. *)
Record Field : Type := mkField { field_name : string; field_type : string }.

#[global] Instance Field_eq_dec : EqDecision Field.
Proof. solve_decision. Defined.

(** A table or feature class: its schema and its rows, every row holding one
    cell per field, in schema order (what a cursor opened on ["*"] yields).
    The geometry column is left out: the geoprocessing tools that read it are
    the external [collaborator] below. *)
Record table : Type := mkTable { fields : list Field; rows : list (list value) }.

Definition field_names (t : table) : list string := field_name <$> fields t.

(** A row is well formed when it has one cell per field. *)
Definition table_wf (t : table) : Prop :=
  Forall (fun r => length r = length (fields t)) (rows t).

(** The cell of row [r] under the name [f]: [r[names.index(f)]]. *)
Definition cell (names : list string) (r : list value) (f : string) : option value :=
  i ← index f names; r !! i.

(** The interpreter state: the geodatabases (every item under its full path),
    the module globals the functions read and write, the console, and the
    calls made to the external geoprocessing collaborator, each as
    (method, feature class, target field). *)
Record world : Type := mkWorld {
  gdb : gmap string table;
  output_parcels_fc : string;
  existing_output_fields : list string;
  stdout : list string;
  calls : list (string * string * string)
}.

Definition set_gdb (f : gmap string table -> gmap string table) (w : world) : world :=
  mkWorld (f (gdb w)) (output_parcels_fc w) (existing_output_fields w) (stdout w) (calls w).
Definition set_output_parcels_fc (p : string) (w : world) : world :=
  mkWorld (gdb w) p (existing_output_fields w) (stdout w) (calls w).
Definition set_existing_output_fields (l : list string) (w : world) : world :=
  mkWorld (gdb w) (output_parcels_fc w) l (stdout w) (calls w).
Definition set_stdout (l : list string) (w : world) : world :=
  mkWorld (gdb w) (output_parcels_fc w) (existing_output_fields w) l (calls w).
Definition set_calls (l : list (string * string * string)) (w : world) : world :=
  mkWorld (gdb w) (output_parcels_fc w) (existing_output_fields w) (stdout w) l.

(** [print(s)]. *)
Definition print (s : string) : Py world unit :=
  modify (fun w => set_stdout (stdout w ++ [s]) w).

(** ** The [arcpy] calls the script makes *)

(** [arcpy.Exists(path)]. *)
Definition Exists (path : string) : Py world bool :=
  w <- get ;; ret (bool_decide (is_Some (gdb w !! path))).

(** Opening a dataset for a tool; a missing dataset makes the tool fail. *)
Definition open_table (tool path : string) : Py world table :=
  w <- get ;;
  match gdb w !! path with
  | Some t => ret t
  | None => raise (ExecuteError tool)
  end.

Definition store (path : string) (t : table) : Py world unit :=
  modify (set_gdb <[path := t]>).

(** [arcpy.ListFields(path)]: the Field objects of the dataset. *)
Definition ListFields (path : string) : Py world (list Field) :=
  t <- open_table "ListFields" path ;; ret (fields t).

(** [arcpy.AddField_management(in_table, field_name, field_type)]: a new
    nullable column, <null> in every row.  On a name the table already has the
    tool only warns (000012) and changes nothing. *)
Definition add_field (t : table) (name type : string) : table :=
  mkTable (fields t ++ [mkField name type]) ((fun r => r ++ [VNone]) <$> rows t).

Definition AddField_management (in_table name type : string) : Py world unit :=
  t <- open_table "AddField" in_table ;;
  if bool_decide (name ∈ field_names t) then ret tt
  else store in_table (add_field t name type).

(** [arcpy.CalculateField_management(in_table, field, expression, "PYTHON")]
    with a constant expression: every row gets the constant. *)
Definition fill_field (t : table) (i : nat) (v : value) : table :=
  mkTable (fields t) ((fun r => <[i := v]> r) <$> rows t).

Definition CalculateField_management (in_table field : string) (v : value)
    : Py world unit :=
  t <- open_table "CalculateField" in_table ;;
  match index field (field_names t) with
  | None => raise (ExecuteError "CalculateField")
  | Some i => store in_table (fill_field t i v)
  end.

(** [arcpy.DeleteField_management] is only used by functions the main loop
    does not call. *)

(** An update cursor: the local [row] being edited and the console.  The
    script calls [uc.updateRow(row)] right after its assignments, so the row
    of the table is the local row. *)
Record cursor : Type := mkCursor { row : list value; console : list string }.

Definition uc_print (s : string) : Py cursor unit :=
  modify (fun c => mkCursor (row c) (console c ++ [s])).

(** [row[uc.fields.index(name)]]. *)
Definition get_cell (uc_fields : list string) (name : string) : Py cursor value :=
  c <- get ;;
  match index name uc_fields with
  | None => raise ValueError
  | Some i =>
      match row c !! i with
      | Some v => ret v
      | None => raise IndexError
      end
  end.

(** [row[uc.fields.index(name)] = v]. *)
Definition set_cell (uc_fields : list string) (name : string) (v : value)
    : Py cursor unit :=
  c <- get ;;
  match index name uc_fields with
  | None => raise ValueError
  | Some i =>
      if bool_decide (i < length (row c))%nat
      then modify (fun c => mkCursor (<[i := v]> (row c)) (console c))
      else raise IndexError
  end.

(** [for row in uc: body]: the rows are visited in order; an exception leaves
    the rows already visited updated and the others untouched. *)
Fixpoint cursor_loop (body : Py cursor unit) (rs : list (list value))
    (out : list string) : list (list value) * list string * (exn + unit) :=
  match rs with
  | [] => ([], out, inr tt)
  | r :: rs' =>
      match body (mkCursor r out) with
      | (c, inl e) => (row c :: rs', console c, inl e)
      | (c, inr _) =>
          let '(rs'', out', res) := cursor_loop body rs' (console c) in
          (row c :: rs'', out', res)
      end
  end.

(** [with arcpy.da.UpdateCursor(path, "*") as uc: for row in uc: body]. *)
Definition UpdateCursor (path : string) (body : list string -> Py cursor unit)
    : Py world unit :=
  t <- open_table "UpdateCursor" path ;;
  w <- get ;;
  let '(rs, out, res) := cursor_loop (body (field_names t)) (rows t) (stdout w) in
  modify (fun w => set_stdout out (set_gdb <[path := mkTable (fields t) rs]> w)) ;;;
  lift res.

(** [arcpy.CopyRows_management(in_rows, out_table)]. *)
Definition CopyRows_management (in_rows out_table : string) : Py world unit :=
  t <- open_table "CopyRows" in_rows ;; store out_table t.

(** The [FieldMappings] object built from a list of names: every name goes
    through [map.addInputField(path, field)], which fails on a name the
    dataset does not have. *)
Definition FieldMappings (path : string) (fields_to_keep : list string)
    : Py world (list string) :=
  t <- open_table "FieldMap.addInputField" path ;;
  if forallb (fun f => bool_decide (f ∈ field_names t)) fields_to_keep
  then ret fields_to_keep
  else raise (ExecuteError "FieldMap.addInputField").

(** The Field object of [t] called [f]. *)
Definition field_of (t : table) (f : string) : Field :=
  default (mkField f "") (List.find (fun x => bool_decide (field_name x = f)) (fields t)).

(** A row of [t] cut down to the mapped names. *)
Definition project (names mapS : list string) (r : list value) : list value :=
  (fun f => default VNone (cell names r f)) <$> mapS.

(** [arcpy.TableToTable_conversion(in_rows, out_path, out_name, field_mapping)]
    and [arcpy.FeatureClassToFeatureClass_conversion]: a new dataset with the
    mapped fields and one row per input row. *)
Definition TableToTable_conversion (in_rows out : string) (mapS : list string)
    : Py world unit :=
  t <- open_table "TableToTable" in_rows ;;
  store out (mkTable (field_of t <$> mapS) (project (field_names t) mapS <$> rows t)).

(** [arcpy.Append_management(inputs, target, "NO_TEST", field_mapping)]: one
    new target row per input row; a target field takes the input value when
    the mapping has it and <null> otherwise. *)
Definition appended_row (src_names dst_names mapS : list string) (r : list value)
    : list value :=
  (fun f => if bool_decide (f ∈ mapS) then default VNone (cell src_names r f) else VNone)
    <$> dst_names.

Definition Append_management (inputs target : string) (mapS : list string)
    : Py world unit :=
  src <- open_table "Append" inputs ;;
  dst <- open_table "Append" target ;;
  store target
    (mkTable (fields dst)
       (rows dst ++ (appended_row (field_names src) (field_names dst) mapS <$> rows src))).

(** [arcpy.ListFeatureClasses()] in a workspace: the names of its items. *)
Definition os_sep : string := "\".

Definition ListFeatureClasses (workspace : string) : Py world (list string) :=
  w <- get ;;
  ret (omap (strip_prefix (workspace +:+ os_sep)) (map_to_list (gdb w)).*1).

(** ** Module constants of the script *)

Definition nl : string := String (ascii_of_nat 10) EmptyString.

Definition input_parcels_gdb : string :=
  "P:\Projects3\CEQA_Site_Check_Version_2_0_2023_mike_gough\Tasks\CEQA_Parcel_Exemptions\Data\Inputs\Parcels\Parcels_Prepared_By_County.gdb".
Definition output_gdb_data_basin : string :=
  "P:\Projects3\CEQA_Site_Check_Version_2_0_2023_mike_gough\Tasks\CEQA_Parcel_Exemptions\Data\Outputs\Outputs_for_DataBasin.gdb".
Definition output_gdb_dev_team : string :=
  "P:\Projects3\CEQA_Site_Check_Version_2_0_2023_mike_gough\Tasks\CEQA_Parcel_Exemptions\Data\Outputs\Outputs_for_DevTeam.gdb".
Definition scratch_ws : string :=
  "P:\Projects3\CEQA_Site_Check_Version_2_0_2023_mike_gough\Tasks\CEQA_Parcel_Exemptions\Data\Intermediate\Scratch\Scratch.gdb".

Definition output_requirements_table_name : string := "requirements".
Definition output_exemptions_table_name : string := "exemptions".

Definition output_requirements_table : string :=
  output_gdb_dev_team +:+ os_sep +:+ output_requirements_table_name.
Definition output_exemptions_table : string :=
  output_gdb_dev_team +:+ os_sep +:+ output_exemptions_table_name.

Definition original_fields_to_keep : list string :=
  [ "fips"; "county_name"; "fips_apn"; "apn"; "apn_d"; "s_city"; "s_addr_d";
    "cbi_parcel_id_fips_apn_oid"; "state_name"; "latitude"; "longitude";
    "zip_code" ].

Definition parcel_id_field : string := "cbi_parcel_id_fips_apn_oid".
Definition county_name_field : string := "county_name".

(** A clause of an exemption: a requirement id, or a list of ids (an OR
    group), told apart in the script by [type(requirement_id) == list]. *)
Inductive clause : Type :=
  | Req (requirement_id : string)
  | OrGroup (requirement_ids : list string).

(** The three dictionaries as the script defines them. *)
Module Statewide.

Definition requirements : dict string :=
  [ ("0.1", "urbanized_area_prc_21071_unincorporated_0_1");
    ("2.1", "urbanized_area_prc_21071_2_1");
    ("2.2", "urban_area_prc_21094_2_2");
    ("2.3", "within_city_limits_2_3");
    ("2.4", "unincorporated_2_4");
    ("2.5", "within_mpo_2_5");
    ("2.6", "covered_by_a_specific_plan_2_6");
    ("2.7", "urbanized_area_or_urban_cluster_2_7");
    ("3.1", "within_half_mile_major_transit_stop_3_1");
    ("3.2", "within_quarter_mile_transit_corridor_3_2");
    ("3.3", "transit_priority_area_3_3");
    ("3.4", "within_half_mile_transit_corridor_3_4");
    ("3.5", "within_half_mile_stop_transit_corridor_3_5");
    ("3.6", "low_vmt_15_percent_below_regional_3_6");
    ("3.8", "low_vehicle_travel_area_3_8");
    ("3.9", "planned_rtp_half_mile_major_transit_stop_3_9");
    ("3.10", "planned_rtip_half_mile_major_transit_stop_3_10");
    ("3.11", "planned_rtip_half_mile_stop_hqtc_3_11");
    ("3.12", "planned_rtp_half_mile_hqtc_3_12");
    ("3.13", "planned_rtp_quarter_mile_hqtc_3_13");
    ("3.14", "within_half_mile_rail_transit_station_or_ferry_terminal_3_14");
    ("8.1", "wetlands_8_1");
    ("8.2", "riparian_areas_8_2");
    ("8.3", "special_habitats_8_3");
    ("8.5", "rare_threatened_endangered_sp_8_5");
    ("8.6", "prime_farmlands_or_farmlands_of_statewide_importance_8_6");
    ("9.2", "earthquake_hazard_zone_9_2");
    ("9.3", "wildfire_hazard_9_3");
    ("9.4", "flood_plain_9_4");
    ("9.5", "landslide_hazard_9_5");
    ("9.6", "state_conservancy_9_6");
    ("9.7", "local_coastal_zone_9_7");
    ("9.8", "protected_area_mask_9_8") ].

Definition no_transit_no_landslide : list string :=
  ["3.9"; "3.10"; "3.11"; "3.12"; "3.13"; "3.14"; "9.5"].
Definition no_plan_no_transit_no_landslide : list string :=
  "2.6" :: no_transit_no_landslide.
Definition mtc : list string := ["3.10"; "3.11"; "3.12"; "3.13"; "3.14"].

Definition requirements_with_no_data : dict (list string) :=
  [ ("ALL_COUNTIES", []);
    ("monterey", no_plan_no_transit_no_landslide);
    ("sanbenito", no_plan_no_transit_no_landslide);
    ("santacruz", ["3.10"; "3.9"; "3.11"; "3.12"; "3.13"; "3.14"; "9.5"]);
    ("butte", ["3.10"; "3.14"; "9.5"]);
    ("fresno", no_transit_no_landslide);
    ("kings", no_plan_no_transit_no_landslide);
    ("kern", no_transit_no_landslide);
    ("merced", no_transit_no_landslide);
    ("madera", no_plan_no_transit_no_landslide);
    ("alameda", mtc);
    ("contracosta", mtc);
    ("marin", mtc ++ ["9.5"]);
    ("napa", mtc ++ ["9.5"]);
    ("sanfrancisco", "2.6" :: mtc);
    ("sanmateo", mtc);
    ("santaclara", mtc);
    ("solano", mtc ++ ["9.5"]);
    ("sonoma", mtc ++ ["9.5"]);
    ("eldorado", ["9.5"]);
    ("placer", ["9.5"]);
    ("sacramento", ["9.5"]);
    ("sutter", ["9.5"]);
    ("yolo", ["9.5"]);
    ("yuba", ["9.5"]);
    ("sandiego", no_transit_no_landslide);
    ("santabarbara", no_transit_no_landslide);
    ("imperial", ["3.10"; "3.14"; "9.5"]);
    ("losangeles", ["3.10"; "3.14"]);
    ("orange", ["3.10"; "3.14"]);
    ("riverside", ["3.10"; "3.14"]);
    ("sanbernardino", ["3.10"; "3.14"]);
    ("ventura", ["3.10"; "3.14"]);
    ("sanjoaquin", no_plan_no_transit_no_landslide);
    ("sanluisobispo", no_transit_no_landslide);
    ("shasta", no_transit_no_landslide);
    ("stanislaus", no_transit_no_landslide);
    ("tulare", no_plan_no_transit_no_landslide);
    ("alpine", no_plan_no_transit_no_landslide);
    ("amador", no_plan_no_transit_no_landslide);
    ("calaveras", no_plan_no_transit_no_landslide);
    ("colusa", no_plan_no_transit_no_landslide);
    ("delnorte", no_plan_no_transit_no_landslide);
    ("glenn", no_plan_no_transit_no_landslide);
    ("humboldt", no_plan_no_transit_no_landslide);
    ("inyo", no_plan_no_transit_no_landslide);
    ("lake", no_plan_no_transit_no_landslide);
    ("lassen", no_plan_no_transit_no_landslide);
    ("mariposa", no_plan_no_transit_no_landslide);
    ("mendocino", no_transit_no_landslide);
    ("modoc", no_plan_no_transit_no_landslide);
    ("mono", no_transit_no_landslide);
    ("nevada", no_plan_no_transit_no_landslide);
    ("plumas", no_plan_no_transit_no_landslide);
    ("sierra", no_plan_no_transit_no_landslide);
    ("siskiyou", no_plan_no_transit_no_landslide);
    ("tehama", no_plan_no_transit_no_landslide);
    ("trinity", no_plan_no_transit_no_landslide);
    ("tuolumne", no_plan_no_transit_no_landslide) ].

Definition exemptions : dict (list clause) :=
  [ ("21159.24", Req <$> ["2.1"; "3.1"; "8.1"; "8.2"; "8.3"; "8.5"; "9.2"; "9.3"; "9.4"; "9.5"; "9.6"]);
    ("21155.1", [Req "2.5"; OrGroup ["3.2"; "3.13"; "3.14"]; Req "8.1"; Req "8.2";
                 Req "8.3"; Req "8.5"; Req "9.2"; Req "9.3"; Req "9.4"; Req "9.5"]);
    ("21155.2", [Req "2.5"; OrGroup ["3.1"; "3.4"; "3.9"; "3.12"]]);
    ("21155.4", [Req "2.5"; Req "2.6"; Req "3.3"]);
    ("21094.5", [Req "2.2"; OrGroup ["3.1"; "3.5"; "3.8"; "3.10"; "3.11"]]);
    ("65457", [Req "2.6"]);
    ("15332", [Req "2.3"; Req "8.5"]);
    ("21159.25", [Req "2.4"; Req "2.7"; Req "8.5"]);
    ("21099", [Req "3.3"]);
    ("21159.28", [Req "2.5"]);
    ("15064.3", [OrGroup ["3.1"; "3.5"; "3.6"]]) ].

End Statewide.

(** The methods of class [RequirementFunctions] that [do_command] can reach:
    it looks up ["calc_requirement_" + id] and nothing else. *)
Definition RequirementFunctions : list string :=
  [ "calc_requirement_0_1"; "calc_requirement_2_1"; "calc_requirement_2_2";
    "calc_requirement_2_3"; "calc_requirement_2_4"; "calc_requirement_2_5";
    "calc_requirement_2_7"; "calc_requirement_8_5"; "calc_requirement_8_6";
    "calc_requirement_9_3"; "calc_requirement_9_4"; "calc_requirement_9_5";
    "calc_requirement_9_6"; "calc_requirement_9_7"; "calc_requirement_9_8";
    "calc_requirement_2_6"; "calc_requirement_3_1"; "calc_requirement_3_2";
    "calc_requirement_3_3"; "calc_requirement_3_4"; "calc_requirement_3_5";
    "calc_requirement_3_6"; "calc_requirement_3_7"; "calc_requirement_3_8";
    "calc_requirement_3_9"; "calc_requirement_3_10"; "calc_requirement_3_11";
    "calc_requirement_3_12"; "calc_requirement_3_13"; "calc_requirement_3_14";
    "calc_requirement_8_1"; "calc_requirement_8_2"; "calc_requirement_8_3";
    "calc_requirement_9_2" ].

(** ** The script's functions *)

(** The name of the column of an exemption: ["E_" + id.replace(".", "_")]. *)
Definition exemption_field_name (exemption : string) : string :=
  "E_" +:+ replace_char "." "_" exemption.

(** [os.path.basename(output_parcels_fc).split("_")[0].lower()]. *)
Definition county_name_of (output_parcels_fc : string) : string :=
  lower (first_token "_" (basename output_parcels_fc)).

(** The selector inputs: ["*"] or an explicit list. *)
Inductive selection : Type :=
  | Star
  | Names (l : list string).

Section Script.

(** The dictionaries are module globals read at call time; the functions are
    stated over any contents and used with those of [Statewide] below. *)
Variable requirements : dict string.
Variable requirements_with_no_data : dict (list string).
Variable exemptions : dict (list clause).

(** The external geoprocessing collaborator: what the ArcGIS selection and
    field calculation, or the toolbox model, behind a [calc_requirement_*]
    method writes in the target field of the parcel at a given position of a
    given feature class. *)
Variable collaborator : string -> string -> nat -> value.

(** Lines 435-458. *)
Definition delete_county_rows_from_dev_table (output_parcels_fc table : string)
    : Py world unit :=
  fc <- open_table "MakeFeatureLayer" output_parcels_fc ;;
  (* the layer narrowed to OBJECTID = 1 *)
  selected <-
    match index "OBJECTID" (field_names fc) with
    | None => raise (ExecuteError "SelectLayerByAttribute")
    | Some i => ret (filter (fun r => r !! i = Some (VInt 1)) (rows fc))
    end ;;
  (* for row in sc: county_name_in_att_table = row[0] *)
  found <-
    match index county_name_field (field_names fc) with
    | None => raise (ExecuteError "SearchCursor")
    | Some j => ret (omap (fun r => r !! j) selected)
    end ;;
  county_name_in_att_table <-
    match last found with
    | None => raise (NameError "county_name_in_att_table")
    | Some v => ret v
    end ;;
  print (nl +:+ "Checking to see if this county (" +:+ py_str county_name_in_att_table
         +:+ ") has rows in the dev table (" +:+ table +:+ ").") ;;;
  dev <- open_table "MakeTableView" table ;;
  (* county_name = '<name>' on the table view *)
  let literal := py_str county_name_in_att_table in
  matching <-
    match index county_name_field (field_names dev) with
    | None => raise (ExecuteError "SelectLayerByAttribute")
    | Some j =>
        if existsb (Ascii.eqb "'") (list_ascii_of_string literal)
        then raise (ExecuteError "SelectLayerByAttribute")
        else ret (filter (fun r => r !! j = Some (VStr literal)) (rows dev))
    end ;;
  if bool_decide (0 < length matching)%nat then
    print ("There were rows in the dev team table for this county ("
           +:+ py_str county_name_in_att_table
           +:+ ") from a previous run. Deleting...") ;;;
    match index county_name_field (field_names dev) with
    | None => raise (ExecuteError "UpdateCursor")
    | Some j =>
        store table
          (mkTable (fields dev)
             (filter (fun r => r !! j ≠ Some county_name_in_att_table) (rows dev)))
    end
  else ret tt.

(** The body every [calc_requirement_*] method shares in this embedding: the
    collaborator is called and fills the target field of every parcel.
    This is an abstraction of the methods (lines 511-910), which select and
    join on data of their own: the call is recorded in [calls], the value
    each parcel gets is left to [collaborator], and the only failure kept is
    that of a target field the table does not have.  A method may also add
    and delete a column of its own on the way (the COUNT join of
    [calc_requirement_9_5], lines 708 and 736) and may raise inside
    [arcpy]; neither is modelled, so the properties below speak of the
    dispatch, of the calls made and of the target fields, not of what a
    method does to the rest of the table nor of its termination. *)
Definition calc_requirement (method output_parcels_fc field_to_calc : string)
    : Py world unit :=
  modify (fun w => set_calls (calls w ++ [(method, output_parcels_fc, field_to_calc)]) w) ;;;
  t <- open_table method output_parcels_fc ;;
  match index field_to_calc (field_names t) with
  | None => raise (ExecuteError method)
  | Some i =>
      store output_parcels_fc
        (mkTable (fields t)
           (imap (fun k r => <[i := collaborator method output_parcels_fc k]> r) (rows t)))
  end.

(** Lines 912-913. *)
Definition default_function : Py world unit :=
  print "No function for this requirement. Values will not be calculated.".

(** Lines 915-916: the method named ["calc_requirement_" + id.replace(".", "_")]
    is looked up with [getattr], [default_function] being the fallback, and
    called on the remaining arguments. *)
Definition do_command (requirement_id output_parcels_fc field_to_calc : string)
    : Py world unit :=
  let method := "calc_requirement_" +:+ replace_char "." "_" requirement_id in
  if bool_decide (method ∈ RequirementFunctions)
  then calc_requirement method output_parcels_fc field_to_calc
  else default_function.

(** Lines 470-478: the body of the loop over the requirements this county
    has no data for. *)
Definition null_requirement (requirement_with_no_data_this_county : string)
    : Py world unit :=
  field_to_calc <- dict_get requirements requirement_with_no_data_this_county ;;
  w <- get ;;
  if bool_decide (field_to_calc ∈ existing_output_fields w) then
    CalculateField_management (output_parcels_fc w) field_to_calc VNone
  else
    AddField_management (output_parcels_fc w) field_to_calc "SHORT" ;;;
    modify (fun w =>
              set_existing_output_fields (existing_output_fields w ++ [field_to_calc]) w).

(** Lines 487-499: the body of the loop over the requirements to process;
    the result is the next value of [count]. *)
Definition process_requirement (requirements_with_no_data_this_county : list string)
    (requirement_count : string) (count : nat) (requirement : string)
    : Py world nat :=
  print (nl +:+ "Processing requirement (" +:+ pretty count +:+ "/"
         +:+ requirement_count +:+ "): " +:+ requirement +:+ nl) ;;;
  field_to_calc <- dict_get requirements requirement ;;
  w <- get ;;
  (if bool_decide (field_to_calc ∉ existing_output_fields w) then
     print ("Adding field: " +:+ field_to_calc) ;;;
     AddField_management (output_parcels_fc w) field_to_calc "SHORT"
   else ret tt) ;;;
  (if bool_decide (requirement ∉ requirements_with_no_data_this_county) then
     print "Calling function to calculate values for this requirement..." ;;;
     do_command requirement (output_parcels_fc w) field_to_calc
   else
     print "No data for this requirement. A field has been added with <null> values.") ;;;
  ret (S count).

(** Lines 461-504. *)
Definition calculate_requirements (requirements_to_process : list string)
    : Py world unit :=
  w0 <- get ;;
  let county_name := county_name_of (output_parcels_fc w0) in
  this_county <- dict_get requirements_with_no_data county_name ;;
  all_counties <- dict_get requirements_with_no_data "ALL_COUNTIES" ;;
  let requirements_with_no_data_this_county := this_county ++ all_counties in
  for_each requirements_with_no_data_this_county null_requirement ;;;
  let requirement_count := pretty (length requirements_to_process) in
  for_fold requirements_to_process 1%nat
    (process_requirement requirements_with_no_data_this_county requirement_count) ;;;
  let output_requirements_table_dev_team :=
    output_gdb_dev_team +:+ os_sep +:+ output_requirements_table_name in
  e <- Exists output_requirements_table_dev_team ;;
  w <- get ;;
  if e then delete_county_rows_from_dev_table (output_parcels_fc w)
              output_requirements_table_dev_team
  else ret tt.

(** Lines 1050-1057 and 1071-1078: the value of one requirement on the row,
    or the two messages and [exit()]. *)
Definition requirement_value (uc_fields : list string) (requirement_id : string)
    : Py cursor value :=
  requirement_field_name <- dict_get requirements requirement_id ;;
  try_except (get_cell uc_fields requirement_field_name)
    (uc_print ("Missing field for requirement " +:+ requirement_field_name) ;;;
     uc_print "Either add it to the requirements_with_no_data dictionary (if this county is missing data for this requirement), or run the calculate_requirements function on it." ;;;
     raise SystemExit).

(** Lines 1045-1078: the value one clause appends to [check_requirements]. *)
Definition clause_value (uc_fields : list string) (c : clause) : Py cursor value :=
  match c with
  | OrGroup requirement_id =>
      or_values <- collect requirement_id (requirement_value uc_fields) ;;
      ret (or_group_value or_values)
  | Req requirement_id => requirement_value uc_fields requirement_id
  end.

(** Lines 1034-1096: one exemption on the current row; the result is the
    new value of the local [exemptions_count]. *)
Definition calculate_exemption (uc_fields : list string) (exemptions_count : value)
    (exemption_to_calculate : string) : Py cursor value :=
  let exemption_field_name := exemption_field_name exemption_to_calculate in
  requirement_ids <- dict_get exemptions exemption_to_calculate ;;
  check_requirements <- collect requirement_ids (clause_value uc_fields) ;;
  status_count <- lift (exemption_status check_requirements exemptions_count) ;;
  set_cell uc_fields exemption_field_name (fst status_count) ;;;
  set_cell uc_fields "exemptions_count" (snd status_count) ;;;
  ret (snd status_count).

(** Lines 1030-1096: the body of the cursor loop. *)
Definition calculate_exemptions_row (exemptions_to_calculate : list string)
    (uc_fields : list string) : Py cursor unit :=
  exemptions_count <- get_cell uc_fields "exemptions_count" ;;
  for_fold exemptions_to_calculate exemptions_count (calculate_exemption uc_fields) ;;;
  ret tt.

(** Lines 1006-1096: the columns are ensured, the count is reset, and every
    row is evaluated under one update cursor. *)
Definition update_exemption_fields (exemptions_to_calculate : list string)
    : Py world unit :=
  print (nl +:+ "Calculating Exemptions...") ;;;
  w <- get ;;
  let output_parcels_fc := output_parcels_fc w in
  listed <- ListFields output_parcels_fc ;;
  let existing_output_fields := field_name <$> listed in
  (if bool_decide ("exemptions_count" ∉ existing_output_fields) then
     print (nl +:+ "Adding exemptions_count field") ;;;
     AddField_management output_parcels_fc "exemptions_count" "SHORT"
   else ret tt) ;;;
  print "Calculating 0's in the 'exemptions_count' field." ;;;
  CalculateField_management output_parcels_fc "exemptions_count" (VInt 0) ;;;
  for_each exemptions_to_calculate
    (fun exemption_to_calculate =>
       let exemption_field_name := exemption_field_name exemption_to_calculate in
       if bool_decide (exemption_field_name ∉ existing_output_fields) then
         print (nl +:+ "Adding exemption field " +:+ exemption_field_name) ;;;
         AddField_management output_parcels_fc exemption_field_name "SHORT"
       else ret tt) ;;;
  print (nl +:+ "Starting update cursor loop to calculate exemptions...") ;;;
  UpdateCursor output_parcels_fc (calculate_exemptions_row exemptions_to_calculate).

(** Lines 1004-1101: the evaluation, then the purge of this county's rows
    from the exemptions table when that table exists. *)
Definition calculate_exemptions (exemptions_to_calculate : list string)
    : Py world unit :=
  update_exemption_fields exemptions_to_calculate ;;;
  w <- get ;;
  let output_exemptions_table_dev_team :=
    output_gdb_dev_team +:+ os_sep +:+ output_exemptions_table_name in
  e <- Exists output_exemptions_table_dev_team ;;
  if e then delete_county_rows_from_dev_table (output_parcels_fc w)
              output_exemptions_table_dev_team
  else ret tt.

(** [field in arcpy.ListFields(t)] with a [str] on the left: the list holds
    Field objects, and a [str] never compares equal to one. *)
Definition str_eq_Field (s : string) (f : Field) : bool := false.
Definition str_in_Fields (s : string) (l : list Field) : bool :=
  existsb (str_eq_Field s) l.

(** Lines 1110-1111 and 1157-1158: the local [existing_output_fields] is
    bound only when the feature class exists. *)
Definition local_existing_output_fields (output_parcels_fc : string)
    : Py world (list string) :=
  e <- Exists output_parcels_fc ;;
  if e then listed <- ListFields output_parcels_fc ;; ret (field_name <$> listed)
  else raise (NameError "existing_output_fields").

(** Lines 1114-1121 and 1168-1173: the fields kept, and the columns added to
    an existing target table on the way. *)
Definition fields_to_keep_for (target : string) (wanted : list string)
    (existing_output_fields : list string) : Py world (list string) :=
  for_fold existing_output_fields [parcel_id_field; county_name_field]
    (fun fields_to_keep field =>
       if bool_decide (field ∈ wanted) then
         e <- Exists target ;;
         (if e then
            listed <- ListFields target ;;
            if negb (str_in_Fields field listed)
            then AddField_management target field "SHORT"
            else ret tt
          else ret tt) ;;;
         ret (fields_to_keep ++ [field])
       else ret fields_to_keep).

(** Lines 1107-1151. *)
Definition create_requirements_table_dev_team : Py world unit :=
  w <- get ;;
  let output_parcels_fc := output_parcels_fc w in
  existing_output_fields <- local_existing_output_fields output_parcels_fc ;;
  fields_to_keep <-
    fields_to_keep_for output_requirements_table (values requirements)
      existing_output_fields ;;
  mapS <- FieldMappings output_parcels_fc fields_to_keep ;;
  e <- Exists output_requirements_table ;;
  if negb e then
    print (nl +:+ "Creating Requirements table...") ;;;
    TableToTable_conversion output_parcels_fc output_requirements_table mapS
  else
    print (nl +:+ "Appending rows to the Requirements table...") ;;;
    let tmp_table := scratch_ws +:+ os_sep +:+ "tmp_table_requirements" in
    CopyRows_management output_parcels_fc tmp_table ;;;
    Append_management tmp_table output_requirements_table mapS.

(** Lines 1154-1204. *)
Definition create_exemptions_table_dev_team : Py world unit :=
  w <- get ;;
  let output_parcels_fc := output_parcels_fc w in
  existing_output_fields <- local_existing_output_fields output_parcels_fc ;;
  let exemption_fields := exemption_field_name <$> keys exemptions in
  fields_to_keep <-
    fields_to_keep_for output_exemptions_table exemption_fields
      existing_output_fields ;;
  let fields_to_keep := fields_to_keep ++ ["exemptions_count"] in
  mapS <- FieldMappings output_parcels_fc fields_to_keep ;;
  e <- Exists output_exemptions_table ;;
  if negb e then
    print (nl +:+ "Creating Exemptions table...") ;;;
    TableToTable_conversion output_parcels_fc output_exemptions_table mapS
  else
    print (nl +:+ "Appending rows to the Exemptions table...") ;;;
    let tmp_table := scratch_ws +:+ os_sep +:+ "tmp_table_exemptions" in
    CopyRows_management output_parcels_fc tmp_table ;;;
    Append_management tmp_table output_exemptions_table mapS.

(** [arcpy.FeatureClassToFeatureClass_conversion] with a field mapping: the
    copy has a fresh OBJECTID column, numbered from 1, and the mapped fields.
    The geometry of a feature class and the fields [arcpy] keeps with it
    (Shape, SHAPE_Length, SHAPE_Area, the last one read by
    [calc_requirement_9_5], line 711) are not part of the tables of this
    embedding; only the methods behind [collaborator] read them. *)
Definition FeatureClassToFeatureClass_conversion (in_features out : string)
    (mapS : list string) : Py world unit :=
  t <- open_table "FeatureClassToFeatureClass" in_features ;;
  store out
    (mkTable (mkField "OBJECTID" "OID" :: (field_of t <$> mapS))
       (imap (fun k r => VInt (Z.of_nat k + 1) :: project (field_names t) mapS r)
             (rows t))).

(** Lines 406-432. *)
Definition copy_parcels_fc (input_parcels_fc output_parcels_fc : string)
    : Py world unit :=
  print "Copying the original parcels Feature Class with only the user specified fields to keep..." ;;;
  print ("From: " +:+ input_parcels_fc) ;;;
  print ("To: " +:+ output_parcels_fc) ;;;
  mapS <- FieldMappings input_parcels_fc original_fields_to_keep ;;
  FeatureClassToFeatureClass_conversion input_parcels_fc output_parcels_fc mapS.

(** Lines 1255-1271: the paths of one county feature class are set, the
    copies are made where they are missing, and the fields of the output
    feature class are listed. *)
Definition prepare_parcels (parcel_count : string) (count : nat)
    (input_parcels_fc_name : string) : Py world unit :=
  print (nl +:+ "Processing parcels (" +:+ pretty count +:+ "/" +:+ parcel_count
         +:+ "): " +:+ input_parcels_fc_name +:+ nl) ;;;
  let input_parcels_fc := input_parcels_gdb +:+ os_sep +:+ input_parcels_fc_name in
  let output_parcels_fc :=
    output_gdb_data_basin +:+ os_sep +:+ lower input_parcels_fc_name +:+ "_"
    +:+ "requirements_and_exemptions" in
  modify (set_output_parcels_fc output_parcels_fc) ;;;
  let output_parcels_fc_dev_team :=
    output_gdb_dev_team +:+ os_sep +:+ lower input_parcels_fc_name in
  e <- Exists output_parcels_fc ;;
  (if negb e then
     print "Copying to Data Basin GDB" ;;;
     copy_parcels_fc input_parcels_fc output_parcels_fc
   else ret tt) ;;;
  e <- Exists output_parcels_fc_dev_team ;;
  (if negb e then
     print "Copying to Dev Team GDB..." ;;;
     copy_parcels_fc input_parcels_fc output_parcels_fc_dev_team
   else ret tt) ;;;
  listed <- ListFields output_parcels_fc ;;
  modify (set_existing_output_fields (field_name <$> listed)).

(** Lines 1253-1293: the body of the main loop, for one county feature class;
    the result is the next value of [count]. *)
Definition process_parcels (requirements_to_process : list string)
    (parcel_count : string) (count : nat) (input_parcels_fc_name : string)
    : Py world nat :=
  prepare_parcels parcel_count count input_parcels_fc_name ;;;
  calculate_requirements requirements_to_process ;;;
  calculate_exemptions (keys exemptions) ;;;
  create_requirements_table_dev_team ;;;
  create_exemptions_table_dev_team ;;;
  ret (S count).

(** Lines 1232-1234: the feature classes to process, in processing order. *)
Definition resolve_input_parcels_fc_list (input_parcels_fc_list : selection)
    : Py world (list string) :=
  match input_parcels_fc_list with
  | Star =>
      listed <- ListFeatureClasses input_parcels_gdb ;;
      ret (py_sort listed)
  | Names l => ret l
  end.

(** Lines 1235-1236. *)
Definition resolve_requirements_to_process (requirements_to_process : selection)
    : list string :=
  match requirements_to_process with
  | Star => keys requirements
  | Names l => l
  end.

(** Lines 400-403 and 1227-1299: the module body.  The prompt of [input] is
    printed and the key press is not waited for; the clock is not modelled. *)
Definition main (input_parcels_fc_list requirements_to_process : selection)
    : Py world unit :=
  (match input_parcels_fc_list with
   | Star =>
       print ("All parcels will be processed. Deleting the requirements and exemptions tables will increase performance."
              +:+ " It is recommended that you do that now (after backing up metadata if needed). "
              +:+ " When you're ready, push any key to continue...")
   | Names _ => ret tt
   end) ;;;
  input_parcels_fc_list <- resolve_input_parcels_fc_list input_parcels_fc_list ;;
  let requirements_to_process := resolve_requirements_to_process requirements_to_process in
  let parcel_count := pretty (length input_parcels_fc_list) in
  for_fold input_parcels_fc_list 1%nat
    (process_parcels requirements_to_process parcel_count) ;;;
  ret tt.

End Script.

(** ** Notions used to state the properties *)

(** The entity identifier of a county feature class: the county name that
    [calculate_requirements] derives from the output path the main loop
    builds for it. *)
Definition entity_id (input_parcels_fc_name : string) : string :=
  county_name_of
    (output_gdb_data_basin +:+ os_sep +:+ lower input_parcels_fc_name +:+ "_"
     +:+ "requirements_and_exemptions").

(** [is_masked] as the specification words it (section 4.1): membership in
    the entity's set, an absent entity standing for the empty set, united
    with the set of all entities. *)
Definition is_masked_spec (mask : dict (list string)) (entity_id requirement_id : string)
    : Prop :=
  requirement_id ∈ default [] (dict_lookup mask entity_id)
                   ++ default [] (dict_lookup mask "ALL_COUNTIES").

(** The two lines printed before [exit()] when the field of a requirement
    is missing from the row. *)
Definition missing_messages (requirement_field_name : string) : list string :=
  [ "Missing field for requirement " +:+ requirement_field_name;
    "Either add it to the requirements_with_no_data dictionary (if this county is missing data for this requirement), or run the calculate_requirements function on it." ].

(** The cursor as [exit()] leaves it. *)
Definition exit_state (c : cursor) (requirement_field_name : string) : cursor :=
  mkCursor (row c) (console c ++ missing_messages requirement_field_name).

(** The requirement ids a clause refers to, and those of an exemption. *)
Definition clause_ids (c : clause) : list string :=
  match c with
  | Req requirement_id => [requirement_id]
  | OrGroup requirement_ids => requirement_ids
  end.

Definition referenced_ids (clauses : list clause) : list string :=
  concat (clause_ids <$> clauses).

(** The value of a requirement on a row, read through the registry. *)
Definition requirement_cell (requirements : dict string) (names : list string)
    (r : list value) (requirement_id : string) : option value :=
  f ← dict_lookup requirements requirement_id; cell names r f.

(** The value of a clause on a row whose requirement fields all exist. *)
Definition clause_cell (requirements : dict string) (names : list string)
    (r : list value) (c : clause) : option value :=
  match c with
  | Req requirement_id => requirement_cell requirements names r requirement_id
  | OrGroup requirement_ids =>
      or_group_value <$> mapM (requirement_cell requirements names r) requirement_ids
  end.

(** The number of exemptions whose column holds exactly 1 on a row. *)
Definition count_ones (names : list string) (r : list value) (exemption_ids : list string)
    : Z :=
  Z.of_nat (length (filter (fun e => cell names r (exemption_field_name e) = Some (VInt 1))
                      exemption_ids)).

(** A requirement id the registry knows. *)
Definition registered (requirements : dict string) (requirement_id : string) : Prop :=
  is_Some (dict_lookup requirements requirement_id).

(** The status lines 1080-1091 give to a list of clause values. *)
Definition status_of (check_requirements : list value) : value :=
  if py_all check_requirements then VInt 1
  else if py_in (VInt 0) check_requirements then VInt 0
  else VNone.

(** An exemption the cursor loop can evaluate without a lookup error: it is
    in the dictionary, the ids it refers to are registered, and its column
    exists. *)
Definition exemption_ready (requirements : dict string) (exemptions : dict (list clause))
    (uc_fields : list string) (exemption : string) : Prop :=
  exists clauses,
    dict_lookup exemptions exemption = Some clauses /\
    Forall (registered requirements) (referenced_ids clauses) /\
    exemption_field_name exemption ∈ uc_fields.

(** Every requirement an exemption refers to has its field in the schema. *)
Definition requirement_fields_present (requirements : dict string)
    (exemptions : dict (list clause)) (uc_fields : list string) (exemption : string)
    : Prop :=
  forall clauses,
    dict_lookup exemptions exemption = Some clauses ->
    Forall (fun id => exists f, dict_lookup requirements id = Some f /\ f ∈ uc_fields)
           (referenced_ids clauses).

(** A table with the column [f], added as a SHORT when it was not there. *)
Definition ensure_field (t : table) (f : string) : table :=
  if bool_decide (f ∈ field_names t) then t else add_field t f "SHORT".

(** The parcel table as the update cursor of [calculate_exemptions] finds
    it: the count column ensured and reset to 0, the exemption columns
    ensured. *)
Definition reset_count (t : table) : table :=
  let t1 := ensure_field t "exemptions_count" in
  match index "exemptions_count" (field_names t1) with
  | Some i => fill_field t1 i (VInt 0)
  | None => t1
  end.

Definition cursor_table (t : table) (exemption_ids : list string) : table :=
  foldl (fun t e => ensure_field t (exemption_field_name e)) (reset_count t)
        exemption_ids.

(** Two worlds with the same module globals and collaborator calls, the
    second having printed at least what the first had. *)
Definition same_globals (w w' : world) : Prop :=
  output_parcels_fc w' = output_parcels_fc w /\
  existing_output_fields w' = existing_output_fields w /\
  calls w' = calls w /\
  exists more, stdout w' = stdout w ++ more.

(** The column [f] exists in the table and holds <null> on every row. *)
Definition null_column (t : table) (f : string) : Prop :=
  f ∈ field_names t /\
  Forall (fun r => cell (field_names t) r f = Some VNone) (rows t).

(** The table after the collaborator has filled the column at position [i]. *)
Definition collaborator_fill (collaborator : string -> string -> nat -> value)
    (method output_parcels_fc : string) (t : table) (i : nat) : table :=
  mkTable (fields t)
    (imap (fun k r => <[i := collaborator method output_parcels_fc k]> r) (rows t)).

(** A row of a table after columns were added to it: the cells under the
    old names are kept and the new columns hold <null>. *)
Definition row_extends (names names' : list string) (r r' : list value) : Prop :=
  (forall g v, cell names r g = Some v -> cell names' r' g = Some v) /\
  (forall f, f ∈ names' -> f ∉ names -> cell names' r' f = Some VNone).

(** A target table [dst'] obtained from [dst] by materialising the parcel
    table [src]: every wanted field of [src] is a column of [dst'], the
    columns that [dst] did not have are SHORT, the rows of [dst] come first,
    extended, and one row per parcel follows with the values of the wanted
    fields. *)
Definition reconciled (wanted : list string) (src dst dst' : table) : Prop :=
  (forall f, f ∈ field_names src -> f ∈ wanted -> f ∈ field_names dst') /\
  (forall f, f ∈ field_names dst' -> f ∉ field_names dst ->
             mkField f "SHORT" ∈ fields dst') /\
  exists old new,
    rows dst' = old ++ new /\
    Forall2 (row_extends (field_names dst) (field_names dst')) (rows dst) old /\
    Forall2 (fun r r' => forall f v, f ∈ wanted -> cell (field_names src) r f = Some v ->
                                     cell (field_names dst') r' f = Some v)
            (rows src) new.

(** The fields [create_requirements_table_dev_team] and
    [create_exemptions_table_dev_team] keep from a parcel table, before
    [exemptions_count] is added for the second. *)
Definition kept_fields (wanted : list string) (src : table) : list string :=
  [parcel_id_field; county_name_field] ++ filter (fun f => f ∈ wanted) (field_names src).

(** A table without the rows of the county [c]. *)
Definition purged (dev : table) (c : string) : table :=
  mkTable (fields dev)
    (filter (fun r => cell (field_names dev) r county_name_field ≠ Some (VStr c))
            (rows dev)).

(** The table [dst] after the wanted fields of [src] were added to it and
    the rows of [src] appended under the mapping [keep]. *)
Definition appended (wanted keep : list string) (src dst : table) : table :=
  let dst1 := foldl ensure_field dst (filter (fun f => f ∈ wanted) (field_names src)) in
  mkTable (fields dst1)
    (rows dst1 ++ (appended_row (field_names src) (field_names dst1) keep <$> rows src)).

(** The collaborator call that the requirement pass makes for one
    requirement to process: none when the requirement is listed as without
    data or has no method. *)
Definition dispatched (requirements : dict string) (no_data : list string)
    (output_parcels_fc requirement : string) : option (string * string * string) :=
  field_to_calc ← dict_lookup requirements requirement;
  let method := "calc_requirement_" +:+ replace_char "." "_" requirement in
  if bool_decide ((requirement ∉ no_data) /\ method ∈ RequirementFunctions)
  then Some (method, output_parcels_fc, field_to_calc)
  else None.

(** A row after a step that leaves the columns [P] alone: the cells under
    these names are kept. *)
Definition keeps_cells (P : string -> Prop) (names names' : list string)
    (r r' : list value) : Prop :=
  forall g v, P g -> cell names r g = Some v -> cell names' r' g = Some v.



(** ** Sample worlds *)

Definition sample_collaborator (method output_parcels_fc : string) (k : nat) : value :=
  VInt 1.

(** A county the no-data dictionary does not know. *)
Definition atlantis_world : world :=
  mkWorld ∅
    (output_gdb_data_basin +:+ os_sep +:+ "atlantis_parcels_requirements_and_exemptions")
    [] [] [].

(** A county feature class with two parcels, as the main loop leaves it
    before the requirement pass. *)
Definition yolo_fc : string :=
  output_gdb_data_basin +:+ os_sep +:+ "yolo_parcels_requirements_and_exemptions".

Definition yolo_parcels : table :=
  mkTable [mkField "OBJECTID" "OID"; mkField "cbi_parcel_id_fips_apn_oid" "TEXT";
           mkField "county_name" "TEXT"]
          [[VInt 1; VStr "06113_1"; VStr "Yolo"]; [VInt 2; VStr "06113_2"; VStr "Yolo"]].



(** An entity with two parcels whose requirement fields "2.1", "3.1" and
    "8.1" are filled and whose count column holds a stale value; the
    exemption ["E1"] asks for "2.1", one of ("3.1") and "8.1". *)
Definition scenario_exemptions : dict (list clause) :=
  [ ("E1", [Req "2.1"; OrGroup ["3.1"]; Req "8.1"]);
    ("E2", [Req "2.1"]);
    ("E3", [OrGroup ["3.1"; "8.1"]]) ].

Definition scenario_fc : string :=
  output_gdb_data_basin +:+ os_sep +:+ "yolo_parcels_requirements_and_exemptions".

Definition scenario_parcels : table :=
  mkTable [mkField "OBJECTID" "OID"; mkField "cbi_parcel_id_fips_apn_oid" "TEXT";
           mkField "county_name" "TEXT";
           mkField "urbanized_area_prc_21071_2_1" "SHORT";
           mkField "within_half_mile_major_transit_stop_3_1" "SHORT";
           mkField "wetlands_8_1" "SHORT";
           mkField "exemptions_count" "SHORT"]
          [[VInt 1; VStr "06113_A"; VStr "Yolo"; VInt 1; VNone; VInt 0; VInt 7];
           [VInt 2; VStr "06113_B"; VStr "Yolo"; VInt 0; VInt 1; VInt 0; VInt 7]].

Definition scenario_world : world :=
  mkWorld {[ scenario_fc := scenario_parcels ]} scenario_fc
          (field_names scenario_parcels) [] [].

(** The state in which the main loop finds a county whose two copies exist
    already. *)
Definition yolo_start : world :=
  mkWorld {[ yolo_fc := yolo_parcels;
             output_gdb_dev_team +:+ os_sep +:+ "yolo_parcels" := yolo_parcels ]}
          "" [] [] [].

Definition yolo_prepared : world :=
  fst (prepare_parcels "2" 1 "Yolo_Parcels" yolo_start).

(** The same county after a requirement pass that processes no requirement:
    only the fields of the requirements without data are there. *)
Definition yolo_masked_only : world :=
  fst (calculate_requirements Statewide.requirements Statewide.requirements_with_no_data
         sample_collaborator [] yolo_prepared).

Definition yolo_masked_parcels : table :=
  add_field yolo_parcels "landslide_hazard_9_5" "SHORT".

(** The same county after the requirement pass over the whole registry, with
    a collaborator that answers 1 for every parcel. *)
Definition yolo_after_requirements : world :=
  fst (calculate_requirements Statewide.requirements Statewide.requirements_with_no_data
         sample_collaborator (keys Statewide.requirements) yolo_prepared).

(** The parcel table of the scenario after the exemption pass, the two
    tables of the development team as an earlier run left them (with a row
    of another county and a stale row of this one), and the worlds that
    hold them. *)
Definition scenario_evaluated : table :=
  mkTable [mkField "OBJECTID" "OID"; mkField "cbi_parcel_id_fips_apn_oid" "TEXT";
           mkField "county_name" "TEXT";
           mkField "urbanized_area_prc_21071_2_1" "SHORT";
           mkField "within_half_mile_major_transit_stop_3_1" "SHORT";
           mkField "wetlands_8_1" "SHORT";
           mkField "exemptions_count" "SHORT";
           mkField "E_E1" "SHORT"; mkField "E_E2" "SHORT"; mkField "E_E3" "SHORT"]
          [[VInt 1; VStr "06113_A"; VStr "Yolo"; VInt 1; VNone; VInt 0; VInt 1;
            VInt 0; VInt 1; VNone];
           [VInt 2; VStr "06113_B"; VStr "Yolo"; VInt 0; VInt 1; VInt 0; VInt 1;
            VInt 0; VInt 0; VInt 1]].

Definition earlier_requirements_table : table :=
  mkTable [mkField "cbi_parcel_id_fips_apn_oid" "TEXT"; mkField "county_name" "TEXT";
           mkField "urbanized_area_prc_21071_2_1" "SHORT"]
          [[VStr "06055_Z"; VStr "Napa"; VInt 1]; [VStr "06113_A"; VStr "Yolo"; VInt 0]].

Definition earlier_exemptions_table : table :=
  mkTable [mkField "cbi_parcel_id_fips_apn_oid" "TEXT"; mkField "county_name" "TEXT";
           mkField "E_E1" "SHORT"; mkField "exemptions_count" "SHORT"]
          [[VStr "06055_Z"; VStr "Napa"; VInt 1; VInt 1];
           [VStr "06113_A"; VStr "Yolo"; VInt 1; VInt 1]].

Definition first_run_world : world :=
  mkWorld {[ scenario_fc := scenario_evaluated ]} scenario_fc
          (field_names scenario_evaluated) [] [].

Definition later_run_world : world :=
  mkWorld {[ scenario_fc := scenario_evaluated;
             output_requirements_table := earlier_requirements_table;
             output_exemptions_table := earlier_exemptions_table ]}
          scenario_fc (field_names scenario_evaluated) [] [].

(** A county feature class without parcels. *)
Definition no_parcels : table := mkTable (fields yolo_parcels) [].

Definition no_parcels_world : world :=
  mkWorld {[ yolo_fc := no_parcels;
             output_requirements_table := earlier_requirements_table ]}
          yolo_fc (field_names no_parcels) [] [].

(** A prepared county feature class as the parcels geodatabase holds it,
    with one field the script does not keep. *)
Definition napa_input : table :=
  mkTable ((fun f => mkField f "TEXT") <$> (original_fields_to_keep ++ ["shape_area"]))
          [[VStr "06055"; VStr "Napa"; VStr "06055_001"; VStr "001"; VStr "001";
            VStr "Napa"; VStr "1 Main St"; VStr "06055_001_1"; VStr "California";
            VStr "38.3"; VStr "-122.3"; VStr "94559"; VStr "1200.5"]].

Definition napa_input_world : world :=
  mkWorld {[ input_parcels_gdb +:+ os_sep +:+ "Napa_Parcels" := napa_input ]} "" [] [] [].

(** The Yolo county after a requirement pass over three requirements. *)
Definition yolo_after_three : world :=
  fst (calculate_requirements Statewide.requirements Statewide.requirements_with_no_data
         sample_collaborator ["2.1"; "9.5"; "8.1"] yolo_prepared).



(** * Properties *)

(** Decidable side conditions on concrete data. *)
Ltac solve_elem := refine (bool_decide_unpack _ _); vm_compute; exact I.
Ltac solve_wf := repeat (apply List.Forall_cons; [reflexivity|]); apply List.Forall_nil.

(** ** The Python list predicates *)

Lemma py_in_spec x l : py_in x l = true <-> x ∈ l.
Proof.
  unfold py_in. rewrite existsb_exists. split.
  - intros (y & Hy & Heq). apply bool_decide_eq_true in Heq. subst.
    by apply list_elem_of_In.
  - intros Hx. exists x. split; [by apply list_elem_of_In|].
    by apply bool_decide_eq_true.
Qed.

Lemma py_in_false x l : py_in x l = false <-> x ∉ l.
Proof.
  rewrite <- py_in_spec. destruct (py_in x l); split; congruence.
Qed.

Lemma truthy_tri v : tri_state v -> truthy v = true <-> v = VInt 1.
Proof.
  intros [-> | [-> | ->]]; simpl; split; congruence.
Qed.

Lemma py_all_tri l :
  Forall tri_state l -> py_all l = true <-> Forall (fun v => v = VInt 1) l.
Proof.
  unfold py_all. induction 1 as [|v l Hv Hl IH]; simpl.
  - split; [constructor | done].
  - rewrite andb_true_iff, IH, (truthy_tri v Hv). split.
    + intros [-> ?]. by constructor.
    + intros H. inversion H; subst. done.
Qed.

Lemma py_any_tri l :
  Forall tri_state l -> py_any l = true <-> VInt 1 ∈ l.
Proof.
  unfold py_any. induction 1 as [|v l Hv Hl IH]; simpl.
  - split; [done | by intros ?%elem_of_nil].
  - rewrite orb_true_iff, IH, (truthy_tri v Hv), elem_of_cons.
    split; (intros [?|?]; [left | right]); done.
Qed.

Lemma all_one_no_zero l :
  Forall (fun v => v = VInt 1) l -> (VInt 0 ∉ l) /\ (VNone ∉ l).
Proof.
  intros H. split; intros Hin; rewrite Forall_forall in H;
    apply H in Hin; discriminate.
Qed.

Lemma tri_state_cases l :
  Forall tri_state l ->
  Forall (fun v => v = VInt 1) l \/ VInt 0 ∈ l \/ ((VInt 0 ∉ l) /\ VNone ∈ l).
Proof.
  induction 1 as [|v l Hv Hl IH]; [left; constructor|].
  destruct Hv as [-> | [-> | ->]].
  - right; left. by left.
  - destruct IH as [IH | [IH | [IH1 IH2]]].
    + left. by constructor.
    + right; left. by right.
    + right; right. split; [|by right].
      intros [?|?]%elem_of_cons; [discriminate | done].
  - destruct (decide (VInt 0 ∈ l)) as [H0|H0].
    + right; left. by right.
    + right; right. split; [|by left].
      intros [?|?]%elem_of_cons; [discriminate | done].
Qed.

(** The status alone, whatever the count. *)
Lemma exemption_status_all_one us n :
  Forall tri_state us -> Forall (fun v => v = VInt 1) us ->
  exemption_status us (VInt n) = inr (VInt 1, VInt (n + 1)).
Proof.
  intros Htri Hall. unfold exemption_status.
  by rewrite (proj2 (py_all_tri us Htri) Hall).
Qed.

Lemma exemption_status_not_all_one us c :
  Forall tri_state us -> ~ Forall (fun v => v = VInt 1) us ->
  exemption_status us c
  = inr (if bool_decide (VInt 0 ∈ us) then VInt 0 else VNone, c).
Proof.
  intros Htri Hall. unfold exemption_status.
  destruct (py_all us) eqn:E; [by apply py_all_tri in E|].
  case_bool_decide as H0.
  - by rewrite (proj2 (py_in_spec _ _) H0).
  - by rewrite (proj2 (py_in_false _ _) H0).
Qed.

(** The three-valued AND on its own: with clause values in {0, 1, unknown},
    [exemption_status] gives 1 exactly when every clause value is 1, and
    only then the running count grows, by exactly one; it gives 0 as soon as
    one clause value is 0, whatever the others, and unknown when no clause
    value is 0 and one is unknown. *)
Lemma exemption_status_tri (us : list value) (n : Z) :
  Forall tri_state us ->
  (Forall (fun v => v = VInt 1) us ->
     exemption_status us (VInt n) = inr (VInt 1, VInt (n + 1))) /\
  (VInt 0 ∈ us -> exemption_status us (VInt n) = inr (VInt 0, VInt n)) /\
  (VInt 0 ∉ us -> VNone ∈ us -> exemption_status us (VInt n) = inr (VNone, VInt n)) /\
  (exists status count,
     exemption_status us (VInt n) = inr (status, count) /\
     tri_state status /\
     (status = VInt 1 <-> Forall (fun v => v = VInt 1) us) /\
     count = VInt (if bool_decide (status = VInt 1) then n + 1 else n)).
Proof.
  intros Htri. split; [|split; [|split]].
  - by apply exemption_status_all_one.
  - intros H0. rewrite exemption_status_not_all_one; [|done|].
    + by rewrite bool_decide_eq_true_2.
    + intros Hall. by apply all_one_no_zero in Hall as [? _].
  - intros H0 HN. rewrite exemption_status_not_all_one; [|done|].
    + by rewrite bool_decide_eq_false_2.
    + intros Hall. by apply all_one_no_zero in Hall as [_ ?].
  - destruct (decide (Forall (fun v => v = VInt 1) us)) as [Hall|Hall].
    + exists (VInt 1), (VInt (n + 1)).
      rewrite exemption_status_all_one by done.
      repeat split; [right; by left | done..].
    + eexists _, _. rewrite exemption_status_not_all_one by done.
      split; [done|]. case_bool_decide; (split; [|split]).
      * by left.
      * split; [discriminate | done].
      * by rewrite bool_decide_eq_false_2.
      * right; by right.
      * split; [discriminate | done].
      * by rewrite bool_decide_eq_false_2.
Qed.

(** The three-valued OR on its own: with member values in {0, 1, unknown},
    [or_group_value] is 1 if a member is 1, otherwise unknown if a member is
    unknown, otherwise (every member is 0) it is 0. *)
Lemma or_group_value_tri (vs : list value) :
  Forall tri_state vs ->
  (VInt 1 ∈ vs -> or_group_value vs = VInt 1) /\
  (VInt 1 ∉ vs -> VNone ∈ vs -> or_group_value vs = VNone) /\
  (VInt 1 ∉ vs -> VNone ∉ vs ->
     Forall (fun v => v = VInt 0) vs /\ or_group_value vs = VInt 0).
Proof.
  intros Htri. unfold or_group_value. split; [|split].
  - intros H1. by rewrite (proj2 (py_any_tri vs Htri) H1).
  - intros H1 HN. destruct (py_any vs) eqn:E; [by apply py_any_tri in E|].
    by rewrite (proj2 (py_in_spec _ _) HN).
  - intros H1 HN. destruct (py_any vs) eqn:E; [by apply py_any_tri in E|].
    rewrite (proj2 (py_in_false _ _) HN). split; [|done].
    apply Forall_forall. intros v Hv.
    rewrite Forall_forall in Htri.
    destruct (Htri v Hv) as [-> | [-> | ->]]; done.
Qed.

(** ** The order of the entities *)

#[global] Instance str_le_total : Total str_le.
Proof. intros a b. unfold str_le. apply String.leb_total. Qed.

Lemma py_sort_sorted l : Sorted str_le (py_sort l).
Proof. apply (Sorted_merge_sort str_le). Qed.

Lemma py_sort_permutation l : py_sort l ≡ₚ l.
Proof. apply (merge_sort_Permutation str_le). Qed.

(** C9, as stated, fails: an explicit list is processed as given, so the
    entities of [["SANBERNARDINO_Parcels", "SANBENITO_Parcels"]] are not
    visited in sorted order of their identifiers. *)
Lemma entity_order_counterexample :
  ~ (forall (sel : selection) (w w' : world) (order : list string),
       resolve_input_parcels_fc_list sel w = (w', inr order) ->
       Sorted str_le (entity_id <$> order)).
Proof.
  intros H.
  specialize (H (Names ["SANBERNARDINO_Parcels"; "SANBENITO_Parcels"])
                (mkWorld ∅ "" [] [] []) _ _ eq_refl).
  apply Sorted_inv in H as [_ Hhd]. apply HdRel_inv in Hhd.
  vm_compute in Hhd. discriminate Hhd.
Qed.

(** C9, amended: under the wildcard the feature classes listed in the input
    geodatabase are processed in sorted order of their names (a permutation
    of the listing); an explicit list is processed in the order given.  In
    both cases the main loop visits the resolved list from left to right. *)
Theorem entity_order_amended (requirements : dict string)
    (requirements_with_no_data : dict (list string))
    (exemptions : dict (list clause))
    (collaborator : string -> string -> nat -> value)
    (requirements_to_process : selection) (w : world) :
  let run := main requirements requirements_with_no_data exemptions collaborator in
  let visit order :=
    for_fold order 1%nat
      (process_parcels requirements requirements_with_no_data exemptions collaborator
         (resolve_requirements_to_process requirements requirements_to_process)
         (pretty (length order))) ;;; ret tt in
  (exists listed prompt,
     ListFeatureClasses input_parcels_gdb w = (w, inr listed) /\
     resolve_input_parcels_fc_list Star w = (w, inr (py_sort listed)) /\
     Sorted str_le (py_sort listed) /\
     py_sort listed ≡ₚ listed /\
     run Star requirements_to_process w
     = visit (py_sort listed) (set_stdout (stdout w ++ [prompt]) w)) /\
  (forall l,
     resolve_input_parcels_fc_list (Names l) w = (w, inr l) /\
     run (Names l) requirements_to_process w = visit l w).
Proof.
  split; [|done].
  eexists _, _. split; [reflexivity|]. split; [reflexivity|].
  split; [apply py_sort_sorted|]. split; [apply py_sort_permutation|].
  reflexivity.
Qed.

(** ** Reasoning on the monad *)

Lemma bind_ok {S A B} (m : Py S A) (k : A -> Py S B) s s1 a :
  m s = (s1, inr a) -> bind m k s = k a s1.
Proof. unfold bind. by intros ->. Qed.

Lemma bind_err {S A B} (m : Py S A) (k : A -> Py S B) s s1 e :
  m s = (s1, inl e) -> bind m k s = (s1, inl e).
Proof. unfold bind. by intros ->. Qed.

Lemma bind_inv_ok {S A B} (m : Py S A) (k : A -> Py S B) s s2 b :
  bind m k s = (s2, inr b) ->
  exists s1 a, m s = (s1, inr a) /\ k a s1 = (s2, inr b).
Proof.
  unfold bind. destruct (m s) as [s1 [e|a]]; [discriminate|]. eauto.
Qed.

Lemma dict_get_Some {S V} (d : dict V) k v (s : S) :
  dict_lookup d k = Some v -> dict_get d k s = (s, inr v).
Proof. unfold dict_get. by intros ->. Qed.

Lemma dict_get_None {S V} (d : dict V) k (s : S) :
  dict_lookup d k = None -> dict_get d k s = (s, inl (KeyError k)).
Proof. unfold dict_get. by intros ->. Qed.

Lemma for_each_app {S A} (l1 l2 : list A) (body : A -> Py S unit) s :
  for_each (l1 ++ l2) body s = (for_each l1 body ;;; for_each l2 body) s.
Proof.
  revert s. induction l1 as [|x l1 IH]; intros s; simpl; [done|].
  unfold bind. destruct (body x s) as [s1 [e|u]]; [done|].
  rewrite IH. done.
Qed.

(** ** The lookup of the county in the no-data dictionary *)

(** C10: [calculate_requirements] indexes [requirements_with_no_data] with
    the county name.  For a county that is not a key, the call raises
    [KeyError] on that name before anything is evaluated, added or printed
    (the world is unchanged), although [is_masked] as the specification words
    it is defined there (it falls back on the universal set); with an empty
    list entered for the county, the same call goes through. *)
Theorem no_data_lookup_precondition (requirements : dict string)
    (requirements_with_no_data : dict (list string))
    (collaborator : string -> string -> nat -> value)
    (requirements_to_process : list string) (w : world) :
  let county_name := county_name_of (output_parcels_fc w) in
  dict_lookup requirements_with_no_data county_name = None ->
  calculate_requirements requirements requirements_with_no_data collaborator
    requirements_to_process w
  = (w, inl (KeyError county_name)) /\
  (forall requirement_id,
     is_masked_spec requirements_with_no_data county_name requirement_id
     <-> requirement_id ∈ default [] (dict_lookup requirements_with_no_data "ALL_COUNTIES")) /\
  (dict_lookup requirements_with_no_data "ALL_COUNTIES" = Some [] ->
   gdb w !! output_requirements_table = None ->
   calculate_requirements requirements
     ((county_name, []) :: requirements_with_no_data) collaborator [] w
   = (w, inr tt)).
Proof.
  intros county_name Hnone. split; [|split].
  - unfold calculate_requirements. rewrite (bind_ok get _ w w w) by done.
    fold county_name. by rewrite (bind_err _ _ w w _ (dict_get_None _ _ _ Hnone)).
  - intros r. unfold is_masked_spec. by rewrite Hnone.
  - intros Hall Habs. unfold calculate_requirements.
    rewrite (bind_ok get _ w w w) by done. fold county_name.
    rewrite (bind_ok _ _ w w []).
    2:{ apply dict_get_Some. simpl. by rewrite decide_True. }
    rewrite (bind_ok _ _ w w []).
    2:{ apply dict_get_Some. simpl. case_decide; [done|exact Hall]. }
    simpl. unfold bind, ret, Exists, get. simpl.
    fold output_requirements_table. rewrite Habs.
    rewrite bool_decide_eq_false_2; [done|]. by intros [? ?].
Qed.

Lemma no_data_lookup_precondition_witness :
  dict_lookup Statewide.requirements_with_no_data
    (county_name_of (output_parcels_fc atlantis_world)) = None /\
  calculate_requirements Statewide.requirements Statewide.requirements_with_no_data
    sample_collaborator ["2.6"] atlantis_world
  = (atlantis_world, inl (KeyError "atlantis")).
Proof.
  split; [vm_compute; reflexivity|].
  apply (proj1 (no_data_lookup_precondition Statewide.requirements
                  Statewide.requirements_with_no_data sample_collaborator
                  ["2.6"] atlantis_world eq_refl)).
Defined.

(** ** Positions of fields *)

Lemma index_None x l : index x l = None <-> x ∉ l.
Proof.
  induction l as [|y l IH]; simpl.
  - split; [intros _ ?%elem_of_nil; done | done].
  - case_decide as E.
    + subst. split; [done|]. intros H. exfalso. apply H. by left.
    + rewrite fmap_None, IH, not_elem_of_cons. tauto.
Qed.

Lemma index_Some_lookup x l i : index x l = Some i -> l !! i = Some x.
Proof.
  revert i. induction l as [|y l IH]; intros i; simpl; [done|].
  case_decide as E.
  - intros [= <-]. by subst.
  - destruct (index x l) as [j|]; [|done]. intros [= <-]. simpl. by apply IH.
Qed.

Lemma index_Some_lt x l i : index x l = Some i -> (i < length l)%nat.
Proof. intros H. apply index_Some_lookup in H. by apply lookup_lt_Some in H. Qed.

Lemma index_is_Some x l : x ∈ l -> exists i, index x l = Some i.
Proof.
  intros H. destruct (index x l) as [i|] eqn:E; [eauto|].
  by apply index_None in E.
Qed.

Lemma index_inj a b l i : index a l = Some i -> index b l = Some i -> a = b.
Proof.
  intros Ha Hb. apply index_Some_lookup in Ha, Hb. congruence.
Qed.

Lemma index_app_l x l l' : x ∈ l -> index x (l ++ l') = index x l.
Proof.
  induction l as [|y l IH]; simpl; [by intros ?%elem_of_nil|].
  intros Hin. case_decide; [done|].
  rewrite IH; [done|]. apply elem_of_cons in Hin as [?|?]; done.
Qed.

Lemma index_app_fresh x l : x ∉ l -> index x (l ++ [x]) = Some (length l).
Proof.
  induction l as [|y l IH]; simpl; intros Hnin.
  - by rewrite decide_True.
  - apply not_elem_of_cons in Hnin as [Hne Hnin].
    rewrite decide_False by done. by rewrite IH.
Qed.

Lemma index_app_r_ne x y l : x ≠ y -> index x (l ++ [y]) = index x l.
Proof.
  intros Hne. induction l as [|z l IH]; simpl.
  - by rewrite decide_False.
  - case_decide; [done|]. by rewrite IH.
Qed.

(** ** The tables after the [arcpy] calls *)

Lemma field_names_add_field t f ty :
  field_names (add_field t f ty) = field_names t ++ [f].
Proof. unfold field_names, add_field. simpl. by rewrite fmap_app. Qed.

Lemma add_field_wf t f ty : table_wf t -> table_wf (add_field t f ty).
Proof.
  unfold table_wf, add_field. simpl. intros H.
  apply Forall_fmap. eapply Forall_impl; [exact H|].
  intros r Hr. simpl in *. rewrite !length_app. simpl. lia.
Qed.

Lemma fill_field_wf t i v : table_wf t -> table_wf (fill_field t i v).
Proof.
  unfold table_wf, fill_field. simpl. intros H.
  apply Forall_fmap. eapply Forall_impl; [exact H|].
  intros r Hr. simpl in *. by rewrite length_insert.
Qed.

Lemma length_field_names t : length (field_names t) = length (fields t).
Proof. unfold field_names. by rewrite length_fmap. Qed.

(** The fresh column is <null> in every row. *)
Lemma add_field_cell_new t f ty r :
  table_wf t -> f ∉ field_names t -> r ∈ rows (add_field t f ty) ->
  cell (field_names (add_field t f ty)) r f = Some VNone.
Proof.
  intros Hwf Hnin Hr. unfold cell. rewrite field_names_add_field.
  rewrite index_app_fresh by done. simpl.
  unfold add_field in Hr. simpl in Hr.
  apply list_elem_of_fmap in Hr as (r0 & -> & Hr0).
  unfold table_wf in Hwf. rewrite Forall_forall in Hwf.
  specialize (Hwf r0 Hr0). rewrite length_field_names, <- Hwf.
  by rewrite lookup_app_r, Nat.sub_diag by lia.
Qed.

(** The other columns keep their cells. *)
Lemma add_field_cell_old t f ty g r :
  table_wf t -> g ∈ field_names t -> r ∈ rows t ->
  cell (field_names (add_field t f ty)) (r ++ [VNone]) g = cell (field_names t) r g.
Proof.
  intros Hwf Hin Hr. unfold cell. rewrite field_names_add_field.
  rewrite index_app_l by done.
  destruct (index g (field_names t)) as [i|] eqn:E; [|done]. simpl.
  apply index_Some_lt in E. rewrite length_field_names in E.
  unfold table_wf in Hwf. rewrite Forall_forall in Hwf.
  specialize (Hwf r Hr). by rewrite lookup_app_l by lia.
Qed.

Lemma open_table_Some tool p t w :
  gdb w !! p = Some t -> open_table tool p w = (w, inr t).
Proof. unfold open_table, bind, get, ret. by intros ->. Qed.

Lemma open_table_None tool p w :
  gdb w !! p = None -> open_table tool p w = (w, inl (ExecuteError tool)).
Proof. unfold open_table, bind, get, raise. by intros ->. Qed.

Lemma AddField_fresh p f ty t w :
  gdb w !! p = Some t -> f ∉ field_names t ->
  AddField_management p f ty w = (set_gdb <[p := add_field t f ty]> w, inr tt).
Proof.
  intros Ht Hnin. unfold AddField_management.
  rewrite (bind_ok _ _ _ _ _ (open_table_Some _ _ _ _ Ht)).
  by rewrite bool_decide_eq_false_2.
Qed.

Lemma AddField_present p f ty t w :
  gdb w !! p = Some t -> f ∈ field_names t ->
  AddField_management p f ty w = (w, inr tt).
Proof.
  intros Ht Hin. unfold AddField_management.
  rewrite (bind_ok _ _ _ _ _ (open_table_Some _ _ _ _ Ht)).
  by rewrite bool_decide_eq_true_2.
Qed.

Lemma CalculateField_present p f v t i w :
  gdb w !! p = Some t -> index f (field_names t) = Some i ->
  CalculateField_management p f v w = (set_gdb <[p := fill_field t i v]> w, inr tt).
Proof.
  intros Ht Hi. unfold CalculateField_management.
  rewrite (bind_ok _ _ _ _ _ (open_table_Some _ _ _ _ Ht)).
  by rewrite Hi.
Qed.

Lemma print_run s w : print s w = (set_stdout (stdout w ++ [s]) w, inr tt).
Proof. done. Qed.

(** ** Requirements without a function *)



(** ** One row under the update cursor *)

Lemma get_cell_run uc f c :
  get_cell uc f c
  = match index f uc with
    | None => (c, inl ValueError)
    | Some i =>
        match row c !! i with
        | Some v => (c, inr v)
        | None => (c, inl IndexError)
        end
    end.
Proof.
  unfold get_cell, bind, get. simpl.
  destruct (index f uc); [destruct (row c !! _)|]; done.
Qed.

Lemma set_cell_run uc f v c i :
  index f uc = Some i -> (i < length (row c))%nat ->
  set_cell uc f v c = (mkCursor (<[i := v]> (row c)) (console c), inr tt).
Proof.
  intros Hi Hlt. unfold set_cell, bind, get. simpl. rewrite Hi.
  by rewrite bool_decide_eq_true_2.
Qed.

Lemma requirement_value_run requirements uc id f c :
  dict_lookup requirements id = Some f ->
  requirement_value requirements uc id c
  = match cell uc (row c) f with
    | Some v => (c, inr v)
    | None => (exit_state c f, inl SystemExit)
    end.
Proof.
  intros Hf. unfold requirement_value.
  rewrite (bind_ok _ _ _ _ _ (dict_get_Some _ _ _ _ Hf)).
  unfold try_except. rewrite get_cell_run. unfold cell, exit_state, missing_messages.
  destruct (index f uc) as [i|]; simpl.
  - destruct (row c !! i); simpl; [done|].
    unfold bind, uc_print, modify, raise. simpl. by rewrite <- app_assoc.
  - unfold bind, uc_print, modify, raise. simpl. by rewrite <- app_assoc.
Qed.

Lemma collect_requirement_values requirements uc ids c :
  Forall (registered requirements) ids ->
  (exists vs,
     Forall2 (fun id v => requirement_cell requirements uc (row c) id = Some v) ids vs /\
     collect ids (requirement_value requirements uc) c = (c, inr vs)) \/
  (exists id f,
     id ∈ ids /\ dict_lookup requirements id = Some f /\
     cell uc (row c) f = None /\
     collect ids (requirement_value requirements uc) c
     = (exit_state c f, inl SystemExit)).
Proof.
  induction 1 as [|id ids [f Hf] Hids IH]; simpl.
  - left. exists []. by split; [constructor|].
  - destruct (cell uc (row c) f) as [v|] eqn:Hcell.
    + rewrite (bind_ok _ _ c c v).
      2:{ rewrite (requirement_value_run _ _ _ f) by done. by rewrite Hcell. }
      destruct IH as [(vs & Hvs & Hrun) | (id' & f' & Hin & Hf' & Hc' & Hrun)].
      * left. exists (v :: vs). split.
        -- constructor; [|done]. unfold requirement_cell. rewrite Hf. done.
        -- by rewrite (bind_ok _ _ _ _ _ Hrun).
      * right. exists id', f'. split; [by right|]. do 2 (split; [done|]).
        by rewrite (bind_err _ _ _ _ _ Hrun).
    + right. exists id, f. split; [by left|]. do 2 (split; [done|]).
      apply bind_err. rewrite (requirement_value_run _ _ _ f) by done.
      by rewrite Hcell.
Qed.

Lemma clause_value_run requirements uc cl c :
  Forall (registered requirements) (clause_ids cl) ->
  (exists v,
     clause_cell requirements uc (row c) cl = Some v /\
     clause_value requirements uc cl c = (c, inr v)) \/
  (exists id f,
     id ∈ clause_ids cl /\ dict_lookup requirements id = Some f /\
     cell uc (row c) f = None /\
     clause_value requirements uc cl c = (exit_state c f, inl SystemExit)).
Proof.
  intros Hreg. destruct cl as [id|ids]; simpl in *.
  - apply Forall_cons in Hreg as [[f Hf] _].
    rewrite (requirement_value_run _ _ _ f) by done.
    unfold requirement_cell. rewrite Hf. simpl.
    destruct (cell uc (row c) f) as [v|] eqn:Hcell.
    + left. by exists v.
    + right. exists id, f. split; [by left|]. done.
  - destruct (collect_requirement_values requirements uc ids c Hreg)
      as [(vs & Hvs & Hrun) | (id' & f' & Hin & Hf' & Hc' & Hrun)].
    + left. exists (or_group_value vs). split.
      * apply mapM_Some in Hvs. by rewrite Hvs.
      * by rewrite (bind_ok _ _ _ _ _ Hrun).
    + right. exists id', f'. do 3 (split; [done|]).
      by rewrite (bind_err _ _ _ _ _ Hrun).
Qed.

Lemma collect_clause_values requirements uc cls c :
  Forall (registered requirements) (referenced_ids cls) ->
  (exists us,
     Forall2 (fun cl u => clause_cell requirements uc (row c) cl = Some u) cls us /\
     collect cls (clause_value requirements uc) c = (c, inr us)) \/
  (exists id f,
     id ∈ referenced_ids cls /\ dict_lookup requirements id = Some f /\
     cell uc (row c) f = None /\
     collect cls (clause_value requirements uc) c = (exit_state c f, inl SystemExit)).
Proof.
  unfold referenced_ids. induction cls as [|cl cls IH]; simpl; intros Hreg.
  - left. exists []. by split; [constructor|].
  - apply Forall_app in Hreg as [Hcl Hcls].
    destruct (clause_value_run requirements uc cl c Hcl)
      as [(v & Hv & Hrun) | (id & f & Hin & Hf & Hc & Hrun)].
    + rewrite (bind_ok _ _ _ _ _ Hrun).
      destruct (IH Hcls) as [(us & Hus & Hrun') | (id' & f' & Hin & Hf' & Hc' & Hrun')].
      * left. exists (v :: us). split; [by constructor|].
        by rewrite (bind_ok _ _ _ _ _ Hrun').
      * right. exists id', f'. split; [apply elem_of_app; by right|].
        do 2 (split; [done|]). by rewrite (bind_err _ _ _ _ _ Hrun').
    + right. exists id, f. split; [apply elem_of_app; by left|].
      do 2 (split; [done|]). by rewrite (bind_err _ _ _ _ _ Hrun).
Qed.

Lemma exemption_status_int us n :
  exemption_status us (VInt n)
  = inr (status_of us, VInt (if bool_decide (status_of us = VInt 1) then n + 1 else n)).
Proof.
  unfold exemption_status, status_of. destruct (py_all us); simpl; [done|].
  destruct (py_in (VInt 0) us); by rewrite bool_decide_eq_false_2.
Qed.

Lemma cell_insert_eq uc r f i v :
  index f uc = Some i -> (i < length r)%nat -> cell uc (<[i := v]> r) f = Some v.
Proof.
  intros Hi Hlt. unfold cell. rewrite Hi. simpl. by apply list_lookup_insert_eq.
Qed.

Lemma cell_insert_ne uc r f g i v :
  index f uc = Some i -> g ≠ f -> cell uc (<[i := v]> r) g = cell uc r g.
Proof.
  intros Hi Hne. unfold cell. destruct (index g uc) as [j|] eqn:Hj; [|done].
  simpl. apply list_lookup_insert_ne. intros <-. apply Hne.
  by apply (index_inj g f uc i).
Qed.

Lemma cell_Some_elem_of uc r f v : cell uc r f = Some v -> f ∈ uc.
Proof.
  unfold cell. destruct (index f uc) as [i|] eqn:Hi; [|done]. intros _.
  destruct (decide (f ∈ uc)) as [|Hnin]; [done|].
  apply index_None in Hnin. congruence.
Qed.

Lemma cell_None_full uc r f : length r = length uc -> cell uc r f = None -> f ∉ uc.
Proof.
  intros Hlen. unfold cell. destruct (index f uc) as [i|] eqn:Hi; simpl.
  - intros Hnone. apply lookup_ge_None in Hnone.
    apply index_Some_lt in Hi. lia.
  - intros _. by apply index_None.
Qed.

Lemma clause_cell_present requirements uc r cl u :
  clause_cell requirements uc r cl = Some u ->
  Forall (fun id => exists f, dict_lookup requirements id = Some f /\ f ∈ uc)
         (clause_ids cl).
Proof.
  assert (Hone : forall id v, requirement_cell requirements uc r id = Some v ->
            exists f, dict_lookup requirements id = Some f /\ f ∈ uc).
  { intros id v. unfold requirement_cell.
    destruct (dict_lookup requirements id) as [f|]; [|done]. simpl.
    intros Hc. exists f. split; [done|]. by eapply cell_Some_elem_of. }
  destruct cl as [id|ids]; simpl.
  - intros Hc. constructor; [|constructor]. by eapply Hone.
  - intros Hc. apply fmap_Some in Hc as (vs & Hvs & _).
    apply mapM_Some in Hvs. induction Hvs; constructor; eauto.
Qed.

Lemma exemption_field_name_not_count e : exemption_field_name e ≠ "exemptions_count".
Proof. unfold exemption_field_name. simpl. discriminate. Qed.

Lemma calculate_exemption_run requirements exemptions uc n e cls c ie ic :
  dict_lookup exemptions e = Some cls ->
  Forall (registered requirements) (referenced_ids cls) ->
  index (exemption_field_name e) uc = Some ie ->
  index "exemptions_count" uc = Some ic ->
  length (row c) = length uc ->
  (exists us,
     Forall2 (fun cl u => clause_cell requirements uc (row c) cl = Some u) cls us /\
     let status := status_of us in
     let count := VInt (if bool_decide (status = VInt 1) then n + 1 else n) in
     calculate_exemption requirements exemptions uc (VInt n) e c
     = (mkCursor (<[ic := count]> (<[ie := status]> (row c))) (console c), inr count)) \/
  (exists id f,
     id ∈ referenced_ids cls /\ dict_lookup requirements id = Some f /\
     (f ∉ uc) /\
     calculate_exemption requirements exemptions uc (VInt n) e c
     = (exit_state c f, inl SystemExit)).
Proof.
  intros He Hreg Hie Hic Hlen. unfold calculate_exemption.
  rewrite (bind_ok _ _ _ _ _ (dict_get_Some _ _ _ _ He)).
  destruct (collect_clause_values requirements uc cls c Hreg)
    as [(us & Hus & Hrun) | (id & f & Hin & Hf & Hc & Hrun)].
  - left. exists us. split; [done|]. simpl.
    rewrite (bind_ok _ _ _ _ _ Hrun).
    unfold lift at 1. unfold bind at 1. rewrite exemption_status_int. simpl.
    erewrite bind_ok; cycle 1.
    { apply (set_cell_run _ _ _ _ ie); [done|].
      apply index_Some_lt in Hie. lia. }
    erewrite bind_ok; cycle 1.
    { apply (set_cell_run _ _ _ _ ic); [done|]. simpl.
      rewrite length_insert. apply index_Some_lt in Hic. lia. }
    done.
  - right. exists id, f. do 2 (split; [done|]).
    split; [by apply (cell_None_full uc (row c))|].
    by rewrite (bind_err _ _ _ _ _ Hrun).
Qed.

Lemma count_ones_ext uc r r' es :
  (forall e, e ∈ es ->
     cell uc r' (exemption_field_name e) = cell uc r (exemption_field_name e)) ->
  count_ones uc r' es = count_ones uc r es.
Proof.
  unfold count_ones. intros H. f_equal. f_equal.
  induction es as [|e es IH]; [done|].
  rewrite !filter_cons. rewrite (H e) by (by left).
  rewrite IH; [done|]. intros e' He'. apply H. by right.
Qed.

Lemma count_ones_snoc uc r es e :
  count_ones uc r (es ++ [e])
  = count_ones uc r es
    + (if bool_decide (cell uc r (exemption_field_name e) = Some (VInt 1)) then 1 else 0).
Proof.
  unfold count_ones. rewrite filter_app, length_app, filter_cons, filter_nil.
  case_bool_decide as H.
  - rewrite decide_True by done. simpl. lia.
  - rewrite decide_False by done. simpl. lia.
Qed.

Lemma clauses_present requirements uc r cls us :
  Forall2 (fun cl u => clause_cell requirements uc r cl = Some u) cls us ->
  Forall (fun id => exists f, dict_lookup requirements id = Some f /\ f ∈ uc)
         (referenced_ids cls).
Proof.
  unfold referenced_ids. induction 1 as [|cl u cls us Hcl _ IH]; simpl.
  - constructor.
  - apply Forall_app. split; [|done]. by eapply clause_cell_present.
Qed.

Lemma calculate_exemptions_fold requirements exemptions uc ic es :
  index "exemptions_count" uc = Some ic ->
  Forall (exemption_ready requirements exemptions uc) es ->
  forall done c n,
    length (row c) = length uc ->
    NoDup (exemption_field_name <$> (done ++ es)) ->
    n = count_ones uc (row c) done ->
    cell uc (row c) "exemptions_count" = Some (VInt n) ->
    (exists r',
       for_fold es (VInt n) (calculate_exemption requirements exemptions uc) c
       = (mkCursor r' (console c), inr (VInt (count_ones uc r' (done ++ es)))) /\
       length r' = length uc /\
       cell uc r' "exemptions_count" = Some (VInt (count_ones uc r' (done ++ es))) /\
       (forall g, g ∉ exemption_field_name <$> es -> g ≠ "exemptions_count" ->
                  cell uc r' g = cell uc (row c) g) /\
       Forall (requirement_fields_present requirements exemptions uc) es) \/
    (exists r' e cls id f,
       e ∈ es /\ dict_lookup exemptions e = Some cls /\
       id ∈ referenced_ids cls /\ dict_lookup requirements id = Some f /\
       (f ∉ uc) /\
       for_fold es (VInt n) (calculate_exemption requirements exemptions uc) c
       = (exit_state (mkCursor r' (console c)) f, inl SystemExit)).
Proof.
  intros Hic. induction 1 as [|e es (cls & He & Hreg & HE) Hes IH];
    intros done c n Hlen Hnd Hn Hcount.
  - left. exists (row c). rewrite app_nil_r. subst n. simpl.
    destruct c as [r out]. simpl in *. unfold ret. repeat split; try done.
  - destruct (index_is_Some _ _ HE) as [ie Hie].
    assert (HicE : ic ≠ ie).
    { intros <-. apply (exemption_field_name_not_count e).
      by apply (index_inj _ _ uc ic). }
    simpl for_fold.
    destruct (calculate_exemption_run requirements exemptions uc n e cls c ie ic
                He Hreg Hie Hic Hlen)
      as [(us & Hus & Hrun) | (id & f & Hin & Hf & Hnin & Hrun)].
    + set (status := status_of us) in *.
      set (n1 := if bool_decide (status = VInt 1) then n + 1 else n) in *.
      simpl in Hrun. rewrite (bind_ok _ _ _ _ _ Hrun).
      set (r1 := <[ic := VInt n1]> (<[ie := status]> (row c))).
      assert (Hlen1 : length r1 = length uc).
      { unfold r1. by rewrite !length_insert. }
      assert (Hie_lt : (ie < length (row c))%nat).
      { apply index_Some_lt in Hie. lia. }
      assert (Hic_lt : (ic < length (row c))%nat).
      { apply index_Some_lt in Hic. lia. }
      assert (HcellE : cell uc r1 (exemption_field_name e) = Some status).
      { unfold r1. rewrite (cell_insert_ne uc _ "exemptions_count") by
          (done || apply exemption_field_name_not_count).
        by apply cell_insert_eq. }
      assert (Hold : forall g, g ≠ exemption_field_name e -> g ≠ "exemptions_count" ->
                cell uc r1 g = cell uc (row c) g).
      { intros g Hg1 Hg2. unfold r1.
        rewrite (cell_insert_ne uc _ "exemptions_count") by done.
        by rewrite (cell_insert_ne uc _ (exemption_field_name e)). }
      assert (Hnd' : NoDup (exemption_field_name <$> ((done ++ [e]) ++ es))).
      { by rewrite <- app_assoc. }
      assert (Hfresh : forall e', e' ∈ done ->
                exemption_field_name e' ≠ exemption_field_name e).
      { intros e' He' Heq. rewrite fmap_app in Hnd. simpl in Hnd.
        apply NoDup_app in Hnd as (_ & Hdisj & _).
        apply (Hdisj (exemption_field_name e')).
        - apply list_elem_of_fmap. eauto.
        - rewrite Heq. by left. }
      destruct (IH (done ++ [e]) (mkCursor r1 (console c)) n1) as
        [(r' & Hrun' & Hlen' & Hcount' & Hkeep & Hpres)
        | (r' & e' & cls' & id & f & He' & Hcls' & Hid & Hf & Hnin & Hrun')];
        [done | done | | | |].
      * simpl row. rewrite count_ones_snoc, HcellE.
        rewrite (count_ones_ext uc (row c) r1).
        2:{ intros e' He'. apply Hold; [by apply Hfresh|].
            apply exemption_field_name_not_count. }
        rewrite <- Hn. unfold n1.
        destruct (decide (status = VInt 1)) as [E|E].
        -- rewrite !bool_decide_eq_true_2 by congruence. done.
        -- rewrite !bool_decide_eq_false_2 by congruence. lia.
      * unfold r1. simpl. apply cell_insert_eq; [done|].
        by rewrite length_insert.
      * left. exists r'. simpl in *. rewrite <- app_assoc in Hrun', Hcount'.
        simpl in *. split; [done|]. split; [done|]. split; [done|]. split.
        -- intros g Hg1 Hg2. apply not_elem_of_cons in Hg1 as [Hg1 Hg3].
           rewrite Hkeep by done. by apply Hold.
        -- constructor; [|done]. intros cls0 Hcls0.
           rewrite He in Hcls0. injection Hcls0 as <-.
           by eapply clauses_present.
      * right. exists r', e', cls', id, f. split; [by right|].
        by do 4 (split; [done|]).
    + right. exists (row c), e, cls, id, f. split; [by left|].
      do 4 (split; [done|]). rewrite (bind_err _ _ _ _ _ Hrun).
      by destruct c.
Qed.

(** ** The table the update cursor finds *)

Lemma ensure_field_elem_of t f : f ∈ field_names (ensure_field t f).
Proof.
  unfold ensure_field. case_bool_decide; [done|].
  rewrite field_names_add_field. apply elem_of_app. right. by left.
Qed.

Lemma ensure_field_mono t f g : g ∈ field_names t -> g ∈ field_names (ensure_field t f).
Proof.
  unfold ensure_field. case_bool_decide; [done|].
  rewrite field_names_add_field. intros ?. apply elem_of_app. by left.
Qed.

Lemma ensure_field_inv t f g :
  g ∈ field_names (ensure_field t f) -> g ∈ field_names t \/ g = f.
Proof.
  unfold ensure_field. case_bool_decide; [by left|].
  rewrite field_names_add_field.
  intros [?|Hg]%elem_of_app; [by left|]. right.
  by apply list_elem_of_singleton in Hg.
Qed.

Lemma ensure_field_wf t f : table_wf t -> table_wf (ensure_field t f).
Proof. unfold ensure_field. case_bool_decide; [done|]. apply add_field_wf. Qed.

Lemma ensure_field_cell t f g v :
  table_wf t -> g ∈ field_names t ->
  Forall (fun r => cell (field_names t) r g = Some v) (rows t) ->
  Forall (fun r => cell (field_names (ensure_field t f)) r g = Some v)
         (rows (ensure_field t f)).
Proof.
  intros Hwf Hg Hall. unfold ensure_field. case_bool_decide; [done|].
  simpl. apply Forall_fmap. rewrite Forall_forall in Hall |- *.
  intros r Hr. simpl. rewrite add_field_cell_old by done. by apply Hall.
Qed.

Lemma reset_count_wf t : table_wf t -> table_wf (reset_count t).
Proof.
  intros Hwf. unfold reset_count.
  destruct (index _ _); [apply fill_field_wf|]; by apply ensure_field_wf.
Qed.

Lemma field_names_reset_count t :
  field_names (reset_count t) = field_names (ensure_field t "exemptions_count").
Proof. unfold reset_count. by destruct (index _ _). Qed.

Lemma reset_count_cell t :
  table_wf t ->
  Forall (fun r => cell (field_names (reset_count t)) r "exemptions_count" = Some (VInt 0))
         (rows (reset_count t)).
Proof.
  intros Hwf. rewrite field_names_reset_count. unfold reset_count.
  destruct (index_is_Some _ _ (ensure_field_elem_of t "exemptions_count")) as [i Hi].
  rewrite Hi. simpl. apply Forall_fmap.
  pose proof (ensure_field_wf t "exemptions_count" Hwf) as Hwf'.
  unfold table_wf in Hwf'. eapply Forall_impl; [exact Hwf'|].
  intros r Hr. simpl in *. apply cell_insert_eq; [done|].
  apply index_Some_lt in Hi. rewrite length_field_names in Hi. lia.
Qed.

Lemma foldl_ensure_facts es : forall T0,
  table_wf T0 ->
  let T := foldl (fun t e => ensure_field t (exemption_field_name e)) T0 es in
  table_wf T /\
  (forall g, g ∈ field_names T0 -> g ∈ field_names T) /\
  Forall (fun e => exemption_field_name e ∈ field_names T) es /\
  (forall g, g ∈ field_names T ->
     g ∈ field_names T0 \/ g ∈ exemption_field_name <$> es) /\
  (forall g v, g ∈ field_names T0 ->
     Forall (fun r => cell (field_names T0) r g = Some v) (rows T0) ->
     Forall (fun r => cell (field_names T) r g = Some v) (rows T)).
Proof.
  induction es as [|e es IH]; intros T0 Hwf; simpl.
  - repeat split; try done. by left.
  - destruct (IH (ensure_field T0 (exemption_field_name e))
                (ensure_field_wf _ _ Hwf)) as (Hwf1 & Hmono & HE & Hinv & Hcell).
    simpl in *. split; [done|]. split; [|split; [|split]].
    + intros g Hg. by apply Hmono, ensure_field_mono.
    + constructor; [|done]. apply Hmono, ensure_field_elem_of.
    + intros g Hg. destruct (Hinv g Hg) as [Hg'|Hg'].
      * apply ensure_field_inv in Hg' as [?| ->]; [by left|]. right. by left.
      * right. by right.
    + intros g v Hg Hall. apply Hcell; [by apply ensure_field_mono|].
      by apply ensure_field_cell.
Qed.

Lemma cursor_table_facts t es :
  table_wf t ->
  let T := cursor_table t es in
  table_wf T /\
  "exemptions_count" ∈ field_names T /\
  Forall (fun e => exemption_field_name e ∈ field_names T) es /\
  (forall g, g ∈ field_names t -> g ∈ field_names T) /\
  (forall g, g ∈ field_names T ->
     g ∈ field_names t \/ g = "exemptions_count" \/ g ∈ exemption_field_name <$> es) /\
  Forall (fun r => cell (field_names T) r "exemptions_count" = Some (VInt 0)) (rows T).
Proof.
  intros Hwf. unfold cursor_table.
  destruct (foldl_ensure_facts es (reset_count t) (reset_count_wf t Hwf))
    as (Hwf1 & Hmono & HE & Hinv & Hcell).
  simpl in *. split; [done|]. split; [|split; [done|split; [|split]]].
  - apply Hmono. rewrite field_names_reset_count. apply ensure_field_elem_of.
  - intros g Hg. apply Hmono. rewrite field_names_reset_count.
    by apply ensure_field_mono.
  - intros g Hg. destruct (Hinv g Hg) as [Hg'|Hg']; [|by right; right].
    rewrite field_names_reset_count in Hg'.
    apply ensure_field_inv in Hg' as [?| ->]; [by left | right; by left].
  - apply Hcell; [|by apply reset_count_cell].
    rewrite field_names_reset_count. apply ensure_field_elem_of.
Qed.

(** ** Worlds along [update_exemption_fields] *)

Lemma same_globals_refl w : same_globals w w.
Proof. repeat split. exists []. by rewrite app_nil_r. Qed.

Lemma same_globals_trans w1 w2 w3 :
  same_globals w1 w2 -> same_globals w2 w3 -> same_globals w1 w3.
Proof.
  intros (H1 & H2 & H3 & m & H4) (H1' & H2' & H3' & m' & H4').
  repeat split; try congruence.
  exists (m ++ m'). rewrite H4', H4. by rewrite app_assoc.
Qed.

Lemma same_globals_print s w : same_globals w (set_stdout (stdout w ++ [s]) w).
Proof. repeat split. by exists [s]. Qed.

Lemma same_globals_set_gdb f w : same_globals w (set_gdb f w).
Proof. repeat split. exists []. simpl. by rewrite app_nil_r. Qed.

Lemma AddField_ensure p f t w :
  gdb w !! p = Some t ->
  exists w',
    AddField_management p f "SHORT" w = (w', inr tt) /\
    gdb w' = <[p := ensure_field t f]> (gdb w) /\
    same_globals w w'.
Proof.
  intros Ht. unfold ensure_field. case_bool_decide as Hin.
  - exists w. rewrite (AddField_present _ _ _ _ _ Ht Hin).
    split; [done|]. split; [by rewrite insert_id|]. apply same_globals_refl.
  - eexists. rewrite (AddField_fresh _ _ _ _ _ Ht Hin).
    split; [done|]. split; [done|]. apply same_globals_set_gdb.
Qed.

Lemma ensure_loop_run (p : string) (existing es : list string) : forall w t,
  gdb w !! p = Some t ->
  (forall g, g ∈ existing -> g ∈ field_names t) ->
  exists w',
    for_each es
      (fun exemption_to_calculate =>
         let exemption_field_name := exemption_field_name exemption_to_calculate in
         if bool_decide (exemption_field_name ∉ existing) then
           print (nl +:+ "Adding exemption field " +:+ exemption_field_name) ;;;
           AddField_management p exemption_field_name "SHORT"
         else ret tt) w
    = (w', inr tt) /\
    gdb w' = <[p := foldl (fun t e => ensure_field t (exemption_field_name e)) t es]> (gdb w) /\
    same_globals w w'.
Proof.
  induction es as [|e es IH]; intros w t Ht Hsub; simpl.
  - exists w. split; [done|]. split; [by rewrite insert_id|]. apply same_globals_refl.
  - case_bool_decide as Hnin.
    + set (w1 := set_stdout (stdout w ++ [nl +:+ "Adding exemption field " +:+ exemption_field_name e]) w).
      destruct (AddField_ensure p (exemption_field_name e) t w1 Ht)
        as (w2 & Hadd & Hgdb2 & Hsame2).
      destruct (IH w2 (ensure_field t (exemption_field_name e))) as
        (w3 & Hrun & Hgdb3 & Hsame3).
      { rewrite Hgdb2. by rewrite lookup_insert_eq. }
      { intros g Hg. by apply ensure_field_mono, Hsub. }
      exists w3. split; [|split].
      * erewrite bind_ok; [exact Hrun|].
        erewrite bind_ok; [exact Hadd|]. done.
      * rewrite Hgdb3, Hgdb2. simpl. by rewrite insert_insert_eq.
      * eapply same_globals_trans; [|exact Hsame3].
        eapply same_globals_trans; [|exact Hsame2]. apply same_globals_print.
    + assert (Hin : exemption_field_name e ∈ field_names t).
      { apply Hsub. destruct (decide (exemption_field_name e ∈ existing)); tauto. }
      destruct (IH w t Ht Hsub) as (w3 & Hrun & Hgdb3 & Hsame3).
      exists w3. split; [|split; [|done]].
      * erewrite bind_ok; [exact Hrun|done].
      * assert (Heq : ensure_field t (exemption_field_name e) = t).
        { unfold ensure_field. by rewrite bool_decide_eq_true_2. }
        by rewrite Hgdb3, Heq.
Qed.

Lemma UpdateCursor_run p body T w :
  gdb w !! p = Some T ->
  UpdateCursor p body w
  = (let '(rs, out, res) := cursor_loop (body (field_names T)) (rows T) (stdout w) in
     (set_stdout out (set_gdb <[p := mkTable (fields T) rs]> w), res)).
Proof.
  intros HT. unfold UpdateCursor.
  rewrite (bind_ok _ _ _ _ _ (open_table_Some _ _ _ _ HT)).
  rewrite (bind_ok get _ _ _ _ eq_refl).
  destruct (cursor_loop _ _ _) as [[rs out] res].
  unfold bind, modify, lift. by destruct res.
Qed.

Lemma update_exemption_fields_run requirements exemptions es w t :
  gdb w !! output_parcels_fc w = Some t ->
  exists w1,
    gdb w1 = <[output_parcels_fc w := cursor_table t es]> (gdb w) /\
    same_globals w w1 /\
    update_exemption_fields requirements exemptions es w
    = UpdateCursor (output_parcels_fc w)
        (calculate_exemptions_row requirements exemptions es) w1.
Proof.
  intros Ht. unfold update_exemption_fields.
  rewrite (bind_ok _ _ _ _ _ (print_run _ _)).
  set (w0 := set_stdout _ w).
  rewrite (bind_ok get _ _ _ _ eq_refl). simpl output_parcels_fc.
  assert (Ht0 : gdb w0 !! output_parcels_fc w = Some t) by done.
  unfold ListFields at 1.
  rewrite (bind_ok (_ <- open_table _ _ ;; _) _ w0 w0 (fields t)).
  2:{ by rewrite (bind_ok _ _ _ _ _ (open_table_Some _ _ _ _ Ht0)). }
  fold (field_names t).
  (* the count column *)
  assert (Hcount : exists w2,
    (if bool_decide ("exemptions_count" ∉ field_names t) then
       print (nl +:+ "Adding exemptions_count field") ;;;
       AddField_management (output_parcels_fc w) "exemptions_count" "SHORT"
     else ret tt) w0 = (w2, inr tt) /\
    gdb w2 = <[output_parcels_fc w := ensure_field t "exemptions_count"]> (gdb w) /\
    same_globals w w2).
  { case_bool_decide as Hnin.
    - destruct (AddField_ensure (output_parcels_fc w) "exemptions_count" t
                  (set_stdout (stdout w0 ++ [nl +:+ "Adding exemptions_count field"]) w0) Ht0)
        as (w2 & Hadd & Hgdb2 & Hsame2).
      exists w2. split; [|split; [done|]].
      + erewrite bind_ok; [exact Hadd|done].
      + eapply same_globals_trans; [|exact Hsame2].
        eapply same_globals_trans; apply same_globals_print.
    - exists w0. split; [done|]. split; [|apply same_globals_print].
      unfold ensure_field. rewrite bool_decide_eq_true_2.
      + simpl. by rewrite insert_id.
      + destruct (decide ("exemptions_count" ∈ field_names t)); tauto. }
  destruct Hcount as (w2 & Hrun2 & Hgdb2 & Hsame2).
  rewrite (bind_ok _ _ _ _ _ Hrun2).
  rewrite (bind_ok _ _ _ _ _ (print_run _ _)).
  set (w3 := set_stdout _ w2).
  destruct (index_is_Some _ _ (ensure_field_elem_of t "exemptions_count")) as [i Hi].
  assert (Hfill : CalculateField_management (output_parcels_fc w) "exemptions_count"
                    (VInt 0) w3
                  = (set_gdb <[output_parcels_fc w := reset_count t]> w3, inr tt)).
  { rewrite (CalculateField_present _ _ _ (ensure_field t "exemptions_count") i).
    - unfold reset_count. by rewrite Hi.
    - simpl. rewrite Hgdb2. by rewrite lookup_insert_eq.
    - done. }
  rewrite (bind_ok _ _ _ _ _ Hfill).
  set (w4 := set_gdb _ w3).
  destruct (ensure_loop_run (output_parcels_fc w) (field_names t) es w4 (reset_count t))
    as (w5 & Hrun5 & Hgdb5 & Hsame5).
  { simpl. by rewrite lookup_insert_eq. }
  { intros g Hg. rewrite field_names_reset_count. by apply ensure_field_mono. }
  rewrite (bind_ok _ _ _ _ _ Hrun5).
  rewrite (bind_ok _ _ _ _ _ (print_run _ _)).
  eexists. split; [|split; [|reflexivity]].
  - simpl. rewrite Hgdb5. simpl. rewrite Hgdb2.
    rewrite !insert_insert_eq. done.
  - eapply same_globals_trans; [|apply same_globals_print].
    eapply same_globals_trans; [|exact Hsame5].
    eapply same_globals_trans; [|apply same_globals_set_gdb].
    eapply same_globals_trans; [exact Hsame2|]. apply same_globals_print.
Qed.

(** ** The purge leaves the other datasets alone *)

Lemma delete_county_rows_frame output_parcels_fc table w w' res :
  delete_county_rows_from_dev_table output_parcels_fc table w = (w', res) ->
  (forall p, p ≠ table -> gdb w' !! p = gdb w !! p) /\ same_globals w w'.
Proof.
  unfold delete_county_rows_from_dev_table, open_table, print, store.
  unfold bind, get, ret, raise, modify.
  simpl. intros H.
  repeat (case_match; simplify_eq; simpl in *);
    (split; [intros p Hp; simpl; rewrite ?lookup_insert_ne by congruence; reflexivity|]);
    repeat split; simpl;
    try (by (exists []; rewrite app_nil_r));
    by (eexists; rewrite <- ?app_assoc; reflexivity).
Qed.

(** ** One row, then all rows, under the update cursor *)

Lemma calculate_exemptions_row_run requirements exemptions es uc c :
  "exemptions_count" ∈ uc ->
  Forall (exemption_ready requirements exemptions uc) es ->
  NoDup (exemption_field_name <$> es) ->
  length (row c) = length uc ->
  cell uc (row c) "exemptions_count" = Some (VInt 0) ->
  (exists r',
     calculate_exemptions_row requirements exemptions es uc c
     = (mkCursor r' (console c), inr tt) /\
     length r' = length uc /\
     cell uc r' "exemptions_count" = Some (VInt (count_ones uc r' es)) /\
     (forall g, g ∉ exemption_field_name <$> es -> g ≠ "exemptions_count" ->
                cell uc r' g = cell uc (row c) g) /\
     Forall (requirement_fields_present requirements exemptions uc) es) \/
  (exists r' e cls id f,
     e ∈ es /\ dict_lookup exemptions e = Some cls /\
     id ∈ referenced_ids cls /\ dict_lookup requirements id = Some f /\
     (f ∉ uc) /\
     calculate_exemptions_row requirements exemptions es uc c
     = (exit_state (mkCursor r' (console c)) f, inl SystemExit)).
Proof.
  intros Hcount Hready Hnd Hlen Hcell.
  destruct (index_is_Some _ _ Hcount) as [ic Hic].
  assert (Hget : get_cell uc "exemptions_count" c = (c, inr (VInt 0))).
  { rewrite get_cell_run, Hic. unfold cell in Hcell. rewrite Hic in Hcell.
    simpl in Hcell. by rewrite Hcell. }
  unfold calculate_exemptions_row. rewrite (bind_ok _ _ _ _ _ Hget).
  destruct (calculate_exemptions_fold requirements exemptions uc ic es Hic Hready
              [] c 0 Hlen Hnd eq_refl Hcell)
    as [(r' & Hrun & Hlen' & Hc & Hkeep & Hpres)
       | (r' & e & cls & id & f & He & Hcls & Hid & Hf & Hnin & Hrun)].
  - left. exists r'. rewrite (bind_ok _ _ _ _ _ Hrun). done.
  - right. exists r', e, cls, id, f. rewrite (bind_err _ _ _ _ _ Hrun). done.
Qed.

Lemma requirement_fields_present_not_missing requirements exemptions uc es e cls id f :
  Forall (requirement_fields_present requirements exemptions uc) es ->
  e ∈ es -> dict_lookup exemptions e = Some cls ->
  id ∈ referenced_ids cls -> dict_lookup requirements id = Some f ->
  f ∈ uc.
Proof.
  intros Hall He Hcls Hid Hf.
  rewrite Forall_forall in Hall. specialize (Hall e He cls Hcls).
  rewrite Forall_forall in Hall. destruct (Hall id Hid) as (f' & Hf' & Hin).
  congruence.
Qed.

Lemma cursor_loop_inv body rs : forall out rs' out',
  cursor_loop body rs out = (rs', out', inr tt) ->
  Forall2 (fun r r' => exists o o', body (mkCursor r o) = (mkCursor r' o', inr tt)) rs rs'.
Proof.
  induction rs as [|r rs IH]; intros out rs' out'; simpl.
  - intros [= <- <-]. constructor.
  - destruct (body (mkCursor r out)) as [c [e|[]]] eqn:Hb; [discriminate|].
    destruct (cursor_loop body rs (console c)) as [[rs'' out''] res] eqn:Hl.
    intros [= <- <- ->]. constructor; [|by eapply IH].
    exists out, (console c). rewrite Hb. by destruct c.
Qed.

Lemma cursor_loop_first_error body r rs out c e :
  body (mkCursor r out) = (c, inl e) ->
  cursor_loop body (r :: rs) out = (row c :: rs, console c, inl e).
Proof. simpl. by intros ->. Qed.

Lemma cursor_loop_ok body (P Q : list value -> Prop) rs out :
  (forall r o, P r -> exists r', body (mkCursor r o) = (mkCursor r' o, inr tt) /\ Q r') ->
  Forall P rs ->
  exists rs', cursor_loop body rs out = (rs', out, inr tt) /\
              Forall Q rs' /\ length rs' = length rs.
Proof.
  intros Hbody. induction 1 as [|r rs Hr Hrs (rs' & Hloop & HQ & Hlen)]; simpl.
  - by exists [].
  - destruct (Hbody r out Hr) as (r' & -> & Hq). simpl. rewrite Hloop.
    exists (r' :: rs'). split; [done|]. split; [by constructor|]. simpl. by rewrite Hlen.
Qed.

(** The exemptions of a run that the cursor loop evaluates to the end: each
    is in the dictionary and every requirement it refers to is registered
    with a field of the parcel table. *)
Lemma ready_of_present requirements exemptions t es :
  table_wf t ->
  Forall (fun e => exists cls,
            dict_lookup exemptions e = Some cls /\
            Forall (fun id => exists f, dict_lookup requirements id = Some f /\
                                        f ∈ field_names t) (referenced_ids cls)) es ->
  Forall (exemption_ready requirements exemptions (field_names (cursor_table t es))) es /\
  forall e cls id f,
    e ∈ es -> dict_lookup exemptions e = Some cls -> id ∈ referenced_ids cls ->
    dict_lookup requirements id = Some f -> f ∈ field_names (cursor_table t es).
Proof.
  intros Hwf Hall.
  destruct (cursor_table_facts t es Hwf) as (_ & _ & HE & Hmono & _ & _).
  split.
  - rewrite Forall_forall in Hall, HE |- *. intros e He.
    destruct (Hall e He) as (cls & Hcls & Hids). exists cls. split; [done|].
    split; [|by apply HE]. eapply Forall_impl; [exact Hids|].
    intros id (f & Hf & _). by exists f.
  - intros e cls id f He Hcls Hid Hf. rewrite Forall_forall in Hall.
    destruct (Hall e He) as (cls' & Hcls' & Hids).
    assert (cls' = cls) as -> by congruence.
    rewrite Forall_forall in Hids. destruct (Hids id Hid) as (f' & Hf' & Hin).
    apply Hmono. congruence.
Qed.

(** C3 (count consistency).  On a parcel table whose rows match its schema
    and which has the field of every requirement the exemptions refer to,
    the exemption pass of lines 1006-1096 runs to its end, whatever the
    [exemptions_count] column held before (or whether it existed), and in
    the table it leaves every row stores in [exemptions_count] the number of
    exemptions of the pass whose column holds exactly 1 on that row.  The
    purge that closes [calculate_exemptions] does not change this. *)
Theorem count_consistency requirements exemptions es w t :
  gdb w !! output_parcels_fc w = Some t ->
  table_wf t ->
  Forall (fun e => exists cls,
            dict_lookup exemptions e = Some cls /\
            Forall (fun id => exists f, dict_lookup requirements id = Some f /\
                                        f ∈ field_names t) (referenced_ids cls)) es ->
  NoDup (exemption_field_name <$> es) ->
  exists w1 t',
    update_exemption_fields requirements exemptions es w = (w1, inr tt) /\
    gdb w1 !! output_parcels_fc w = Some t' /\
    length (rows t') = length (rows t) /\
    Forall (fun r => cell (field_names t') r "exemptions_count"
                     = Some (VInt (count_ones (field_names t') r es))) (rows t') /\
    forall w2 res,
      output_parcels_fc w ≠ output_gdb_dev_team +:+ os_sep +:+ output_exemptions_table_name ->
      calculate_exemptions requirements exemptions es w = (w2, res) ->
      gdb w2 !! output_parcels_fc w = Some t'.
Proof.
  intros Ht Hwf Hall Hnd.
  destruct (update_exemption_fields_run requirements exemptions es w t Ht)
    as (w0 & Hgdb0 & Hsame0 & Hrun).
  set (T := cursor_table t es) in *.
  destruct (cursor_table_facts t es Hwf) as (HwfT & Hcount & _ & _ & _ & Hzero).
  fold T in HwfT, Hcount, Hzero.
  destruct (ready_of_present requirements exemptions t es Hwf Hall) as [Hready Hpres].
  fold T in Hready, Hpres.
  assert (HT : gdb w0 !! output_parcels_fc w = Some T).
  { rewrite Hgdb0. by rewrite lookup_insert_eq. }
  rewrite (UpdateCursor_run _ _ T _ HT) in Hrun.
  destruct (cursor_loop_ok
              (calculate_exemptions_row requirements exemptions es (field_names T))
              (fun r => length r = length (field_names T) /\
                        cell (field_names T) r "exemptions_count" = Some (VInt 0))
              (fun r' => cell (field_names T) r' "exemptions_count"
                         = Some (VInt (count_ones (field_names T) r' es)))
              (rows T) (stdout w0)) as (rs' & Hloop & HQ & Hlen).
  { intros r o [Hlenr Hcell].
    destruct (calculate_exemptions_row_run requirements exemptions es (field_names T)
                (mkCursor r o) Hcount Hready Hnd Hlenr Hcell)
      as [(r' & Hr' & _ & Hc & _) | (r' & e & cls & id & f & He & Hcls & Hid & Hf & Hnin & _)].
    - by exists r'.
    - destruct Hnin. by eapply Hpres. }
  { unfold table_wf in HwfT. rewrite Forall_forall in HwfT, Hzero |- *.
    intros r Hr. split; [|by apply Hzero].
    rewrite length_field_names. by apply HwfT. }
  rewrite Hloop in Hrun.
  set (w1 := set_stdout (stdout w0) (set_gdb <[output_parcels_fc w := mkTable (fields T) rs']> w0)) in *.
  assert (Ht' : gdb w1 !! output_parcels_fc w = Some (mkTable (fields T) rs')).
  { simpl. by rewrite lookup_insert_eq. }
  assert (HlenT : length (rows T) = length (rows t)).
  { unfold T, cursor_table.
    assert (Hfold : forall es0 t0,
              length (rows (foldl (fun t e => ensure_field t (exemption_field_name e)) t0 es0))
              = length (rows t0)).
    { induction es0 as [|e0 es0 IH]; intros t0; simpl; [done|]. rewrite IH.
      unfold ensure_field. case_bool_decide; [done|]. simpl. by rewrite length_fmap. }
    rewrite Hfold. unfold reset_count.
    assert (Hens : length (rows (ensure_field t "exemptions_count")) = length (rows t)).
    { unfold ensure_field. case_bool_decide; [done|]. simpl. by rewrite length_fmap. }
    destruct (index _ _); [|done]. simpl. rewrite length_fmap. done. }
  exists w1, (mkTable (fields T) rs'). split; [done|]. split; [done|].
  split; [simpl; congruence|]. split; [done|].
  intros w2 res Hne Hcalc. unfold calculate_exemptions in Hcalc.
  rewrite (bind_ok _ _ _ _ _ Hrun) in Hcalc.
  rewrite (bind_ok get _ _ _ _ eq_refl) in Hcalc.
  unfold Exists in Hcalc at 1.
  rewrite (bind_ok (w <- get ;; ret _) _ w1 w1 _ eq_refl) in Hcalc.
  destruct (bool_decide _).
  - apply delete_county_rows_frame in Hcalc as [Hframe _].
    rewrite Hframe by done. done.
  - injection Hcalc as <- _. done.
Qed.

(** ** A missing requirement field ends the run *)

Lemma cursor_table_length t es : length (rows (cursor_table t es)) = length (rows t).
Proof.
  unfold cursor_table.
  assert (Hfold : forall es0 t0,
            length (rows (foldl (fun t e => ensure_field t (exemption_field_name e)) t0 es0))
            = length (rows t0)).
  { induction es0 as [|e0 es0 IH]; intros t0; simpl; [done|]. rewrite IH.
    unfold ensure_field. case_bool_decide; [done|]. simpl. by rewrite length_fmap. }
  rewrite Hfold. unfold reset_count.
  assert (Hens : length (rows (ensure_field t "exemptions_count")) = length (rows t)).
  { unfold ensure_field. case_bool_decide; [done|]. simpl. by rewrite length_fmap. }
  destruct (index _ _); [|done]. simpl. by rewrite length_fmap.
Qed.

Lemma for_fold_app {S A B} (l1 l2 : list A) (body : B -> A -> Py S B) : forall acc s,
  for_fold (l1 ++ l2) acc body s
  = (acc' <- for_fold l1 acc body ;; for_fold l2 acc' body) s.
Proof.
  induction l1 as [|x l1 IH]; intros acc s; simpl; [done|].
  unfold bind.
  destruct (body acc x s) as [s1 [e|acc1]]; [done|]. rewrite IH. done.
Qed.

Lemma update_exemption_fields_exit requirements exemptions es w t e cls id f :
  gdb w !! output_parcels_fc w = Some t ->
  table_wf t ->
  rows t ≠ [] ->
  Forall (fun e => exists cls,
            dict_lookup exemptions e = Some cls /\
            Forall (registered requirements) (referenced_ids cls)) es ->
  NoDup (exemption_field_name <$> es) ->
  e ∈ es -> dict_lookup exemptions e = Some cls -> id ∈ referenced_ids cls ->
  dict_lookup requirements id = Some f ->
  (f ∉ field_names t) -> f ≠ "exemptions_count" ->
  (f ∉ exemption_field_name <$> es) ->
  exists w' f' id' pre,
    update_exemption_fields requirements exemptions es w = (w', inl SystemExit) /\
    stdout w' = pre ++ missing_messages f' /\
    dict_lookup requirements id' = Some f' /\
    (f' ∉ field_names t) /\
    (forall p, p ≠ output_parcels_fc w -> gdb w' !! p = gdb w !! p).
Proof.
  intros Ht Hwf Hrows Hall Hnd He Hcls Hid Hf Hnin Hnc HnE.
  destruct (update_exemption_fields_run requirements exemptions es w t Ht)
    as (w0 & Hgdb0 & Hsame0 & Hrun).
  set (T := cursor_table t es) in *.
  destruct (cursor_table_facts t es Hwf) as (HwfT & Hcount & HE & Hmono & Hinv & Hzero).
  fold T in HwfT, Hcount, HE, Hmono, Hinv, Hzero.
  assert (HT : gdb w0 !! output_parcels_fc w = Some T).
  { rewrite Hgdb0. by rewrite lookup_insert_eq. }
  assert (HninT : f ∉ field_names T).
  { intros Hin. destruct (Hinv f Hin) as [?|[?|?]]; done. }
  assert (Hready : Forall (exemption_ready requirements exemptions (field_names T)) es).
  { rewrite Forall_forall in Hall, HE |- *. intros e0 He0.
    destruct (Hall e0 He0) as (cls0 & Hcls0 & Hids). exists cls0. auto. }
  rewrite (UpdateCursor_run _ _ T _ HT) in Hrun.
  pose proof (cursor_table_length t es) as HlenT. fold T in HlenT.
  assert (Hall0 : Forall (fun r => length r = length (field_names T) /\
                                  cell (field_names T) r "exemptions_count" = Some (VInt 0))
                         (rows T)).
  { unfold table_wf in HwfT. rewrite Forall_forall in HwfT, Hzero |- *.
    intros r Hr. split; [|by apply Hzero].
    rewrite length_field_names. by apply HwfT. }
  destruct (rows T) as [|r rs] eqn:HrowsT.
  { destruct (rows t); [done|discriminate]. }
  apply Forall_cons in Hall0 as [Hr _].
  destruct Hr as [Hlenr Hcell].
  destruct (calculate_exemptions_row_run requirements exemptions es (field_names T)
              (mkCursor r (stdout w0)) Hcount Hready Hnd Hlenr Hcell)
    as [(r' & _ & _ & _ & _ & Hpres)
       | (r' & e' & cls' & id' & f' & He' & Hcls' & Hid' & Hf' & Hnin' & Hexit)].
  - destruct HninT.
    by eapply (requirement_fields_present_not_missing requirements exemptions _ es e cls id f).
  - rewrite (cursor_loop_first_error _ _ _ _ _ _ Hexit) in Hrun.
    eexists _, f', id', (stdout w0). split; [exact Hrun|]. simpl.
    split; [done|]. split; [done|]. split.
    + intros Hin. by apply Hnin', Hmono.
    + intros p Hp. rewrite lookup_insert_ne by done. rewrite Hgdb0.
      by rewrite lookup_insert_ne.
Qed.

(** C6 (fatal missing attribute).  The main loop has processed the feature
    classes [done] and, for the next one, has reached the exemption pass
    with a parcel table that has a row.  If the field of a requirement that
    an exemption refers to is absent from that table, the whole script ends
    there with [SystemExit]: nothing of the feature classes [rest] is
    processed, no dataset other than the parcel table differs from what the
    requirement pass left, and the last two lines printed name an absent
    requirement field and point to the no-data dictionary and to
    [calculate_requirements]. *)
Theorem missing_attribute_aborts_run requirements requirements_with_no_data exemptions
    collaborator done name rest requirements_to_process w_init count w0 wa w t
    e cls id f :
  let names := done ++ name :: rest in
  let parcel_count := pretty (length names) in
  let rtp := resolve_requirements_to_process requirements requirements_to_process in
  for_fold done 1%nat
    (process_parcels requirements requirements_with_no_data exemptions collaborator
       rtp parcel_count) w_init = (w0, inr count) ->
  prepare_parcels parcel_count count name w0 = (wa, inr tt) ->
  calculate_requirements requirements requirements_with_no_data collaborator rtp wa
  = (w, inr tt) ->
  gdb w !! output_parcels_fc w = Some t ->
  table_wf t ->
  rows t ≠ [] ->
  Forall (fun e => exists cls,
            dict_lookup exemptions e = Some cls /\
            Forall (registered requirements) (referenced_ids cls)) (keys exemptions) ->
  NoDup (exemption_field_name <$> keys exemptions) ->
  e ∈ keys exemptions -> dict_lookup exemptions e = Some cls -> id ∈ referenced_ids cls ->
  dict_lookup requirements id = Some f ->
  (f ∉ field_names t) -> f ≠ "exemptions_count" ->
  (f ∉ exemption_field_name <$> keys exemptions) ->
  exists w' f' id' pre,
    main requirements requirements_with_no_data exemptions collaborator
      (Names names) requirements_to_process w_init = (w', inl SystemExit) /\
    stdout w' = pre ++ missing_messages f' /\
    dict_lookup requirements id' = Some f' /\
    (f' ∉ field_names t) /\
    (forall p, p ≠ output_parcels_fc w -> gdb w' !! p = gdb w !! p).
Proof.
  intros names parcel_count rtp Hdone Hprep Hreq Ht Hwf Hrows Hall Hnd He Hcls Hid Hf
    Hnin Hnc HnE.
  destruct (update_exemption_fields_exit requirements exemptions (keys exemptions) w t
              e cls id f Ht Hwf Hrows Hall Hnd He Hcls Hid Hf Hnin Hnc HnE)
    as (w' & f' & id' & pre & Hexit & Hout & Hf' & Hnin' & Hframe).
  exists w', f', id', pre. split; [|done].
  unfold main. rewrite (bind_ok (ret tt) _ w_init w_init tt eq_refl).
  simpl resolve_input_parcels_fc_list.
  rewrite (bind_ok (ret names) _ w_init w_init names eq_refl).
  fold parcel_count rtp.
  apply bind_err. unfold names. rewrite for_fold_app.
  rewrite (bind_ok _ _ _ _ _ Hdone). simpl for_fold.
  apply bind_err. unfold process_parcels.
  rewrite (bind_ok _ _ _ _ _ Hprep).
  rewrite (bind_ok _ _ _ _ _ Hreq).
  apply bind_err. unfold calculate_exemptions. by apply bind_err.
Qed.

(** ** The properties on the sample worlds *)

Lemma count_consistency_witness :
  exists w1 t',
    update_exemption_fields Statewide.requirements scenario_exemptions ["E1"; "E2"; "E3"]
      scenario_world = (w1, inr tt) /\
    gdb w1 !! output_parcels_fc scenario_world = Some t' /\
    length (rows t') = length (rows scenario_parcels) /\
    Forall (fun r => cell (field_names t') r "exemptions_count"
                     = Some (VInt (count_ones (field_names t') r ["E1"; "E2"; "E3"])))
           (rows t') /\
    forall w2 res,
      output_parcels_fc scenario_world
      ≠ output_gdb_dev_team +:+ os_sep +:+ output_exemptions_table_name ->
      calculate_exemptions Statewide.requirements scenario_exemptions ["E1"; "E2"; "E3"]
        scenario_world = (w2, res) ->
      gdb w2 !! output_parcels_fc scenario_world = Some t'.
Proof.
  apply (count_consistency Statewide.requirements scenario_exemptions ["E1"; "E2"; "E3"]
           scenario_world scenario_parcels).
  - reflexivity.
  - repeat (apply List.Forall_cons; [reflexivity|]). apply List.Forall_nil.
  - repeat (apply List.Forall_cons;
            [eexists; split; [reflexivity|]; simpl;
             repeat (apply List.Forall_cons; [eexists; split; [reflexivity|solve_elem]|]);
             apply List.Forall_nil|]).
    apply List.Forall_nil.
  - solve_elem.
Defined.

Lemma missing_attribute_aborts_run_witness :
  exists w' f' id' pre,
    main Statewide.requirements Statewide.requirements_with_no_data Statewide.exemptions
      sample_collaborator (Names ([] ++ "Yolo_Parcels" :: ["Zzz_Parcels"])) (Names [])
      yolo_start = (w', inl SystemExit) /\
    stdout w' = pre ++ missing_messages f' /\
    dict_lookup Statewide.requirements id' = Some f' /\
    (f' ∉ field_names yolo_masked_parcels) /\
    (forall p, p ≠ output_parcels_fc yolo_masked_only ->
               gdb w' !! p = gdb yolo_masked_only !! p).
Proof.
  apply (missing_attribute_aborts_run Statewide.requirements
           Statewide.requirements_with_no_data Statewide.exemptions sample_collaborator
           [] "Yolo_Parcels" ["Zzz_Parcels"] (Names []) yolo_start 1%nat yolo_start
           yolo_prepared yolo_masked_only yolo_masked_parcels
           "21159.24" (Req <$> ["2.1"; "3.1"; "8.1"; "8.2"; "8.3"; "8.5"; "9.2"; "9.3";
                                "9.4"; "9.5"; "9.6"])
           "2.1" "urbanized_area_prc_21071_2_1").
  - reflexivity.
  - vm_compute. reflexivity.
  - vm_compute. reflexivity.
  - vm_compute. reflexivity.
  - repeat (apply List.Forall_cons; [reflexivity|]). apply List.Forall_nil.
  - discriminate.
  - repeat (apply List.Forall_cons;
            [eexists; split; [reflexivity|]; simpl;
             repeat (apply List.Forall_cons; [eexists; reflexivity|]);
             apply List.Forall_nil|]).
    apply List.Forall_nil.
  - solve_elem.
  - solve_elem.
  - reflexivity.
  - solve_elem.
  - reflexivity.
  - solve_elem.
  - discriminate.
  - solve_elem.
Defined.

(** ** Columns that hold <null> *)

Lemma null_column_add_field_same t f ty :
  table_wf t -> f ∉ field_names t -> null_column (add_field t f ty) f.
Proof.
  intros Hwf Hnin. split.
  - rewrite field_names_add_field. apply elem_of_app. right. by left.
  - rewrite Forall_forall. intros r Hr. by apply add_field_cell_new.
Qed.

Lemma null_column_add_field_other t f g ty :
  table_wf t -> null_column t f -> null_column (add_field t g ty) f.
Proof.
  intros Hwf [Hin Hall]. split.
  - rewrite field_names_add_field. apply elem_of_app. by left.
  - simpl. apply Forall_fmap. rewrite Forall_forall in Hall |- *.
    intros r Hr. simpl. rewrite add_field_cell_old by done. by apply Hall.
Qed.

Lemma null_column_ensure_same t f :
  table_wf t -> f ∉ field_names t -> null_column (ensure_field t f) f.
Proof.
  intros Hwf Hnin. unfold ensure_field. rewrite bool_decide_eq_false_2 by done.
  by apply null_column_add_field_same.
Qed.

Lemma null_column_ensure_other t f g :
  table_wf t -> null_column t f -> null_column (ensure_field t g) f.
Proof.
  intros Hwf Hf. unfold ensure_field. case_bool_decide; [done|].
  by apply null_column_add_field_other.
Qed.

Lemma null_column_fill_same t f i :
  table_wf t -> index f (field_names t) = Some i -> null_column (fill_field t i VNone) f.
Proof.
  intros Hwf Hi. split.
  - simpl. destruct (decide (f ∈ field_names t)) as [|Hn]; [done|].
    apply index_None in Hn. unfold field_names in *. simpl in *. congruence.
  - simpl. apply Forall_fmap. unfold table_wf in Hwf.
    eapply Forall_impl; [exact Hwf|]. intros r Hr. simpl in *.
    apply cell_insert_eq; [done|]. apply index_Some_lt in Hi.
    rewrite length_field_names in Hi. lia.
Qed.

Lemma null_column_fill_other t f g i v :
  index g (field_names t) = Some i -> g ≠ f ->
  null_column t f -> null_column (fill_field t i v) f.
Proof.
  intros Hi Hne [Hin Hall]. split; [done|].
  simpl. apply Forall_fmap. eapply Forall_impl; [exact Hall|].
  intros r Hr. simpl in *. change (field_names (fill_field t i v)) with (field_names t).
  by rewrite (cell_insert_ne _ _ g f i v) by (done || congruence).
Qed.

Lemma collaborator_fill_wf collaborator method fc t i :
  table_wf t -> table_wf (collaborator_fill collaborator method fc t i).
Proof.
  unfold table_wf, collaborator_fill. simpl. intros H.
  rewrite Forall_forall in H |- *. intros r' Hr'.
  apply list_elem_of_lookup in Hr' as [k Hk].
  rewrite list_lookup_imap in Hk.
  destruct (rows t !! k) as [r|] eqn:Hr; [|done]. simpl in Hk.
  injection Hk as <-. rewrite length_insert. apply H.
  by eapply list_elem_of_lookup_2.
Qed.

Lemma null_column_collaborator_fill collaborator method fc t f g i :
  index g (field_names t) = Some i -> g ≠ f ->
  null_column t f -> null_column (collaborator_fill collaborator method fc t i) f.
Proof.
  intros Hi Hne [Hin Hall]. split; [done|].
  unfold collaborator_fill. simpl.
  rewrite Forall_forall in Hall |- *. intros r' Hr'.
  apply list_elem_of_lookup in Hr' as [k Hk].
  rewrite list_lookup_imap in Hk.
  destruct (rows t !! k) as [r|] eqn:Hr; [|done]. simpl in Hk.
  injection Hk as <-.
  change (field_names (mkTable (fields t) _)) with (field_names t).
  rewrite (cell_insert_ne _ _ g f i) by (done || congruence).
  apply Hall. by eapply list_elem_of_lookup_2.
Qed.

(** ** The loop over the requirements without data *)

Lemma null_requirement_step requirements m w w' fc t :
  null_requirement requirements m w = (w', inr tt) ->
  output_parcels_fc w = fc -> gdb w !! fc = Some t -> table_wf t ->
  (forall g, g ∈ field_names t -> g ∈ existing_output_fields w) ->
  exists g t',
    dict_lookup requirements m = Some g /\
    output_parcels_fc w' = fc /\ gdb w' !! fc = Some t' /\ table_wf t' /\
    (forall g, g ∈ field_names t' -> g ∈ existing_output_fields w') /\
    calls w' = calls w /\
    length (rows t') = length (rows t) /\
    null_column t' g /\
    (forall f, null_column t f -> null_column t' f).
Proof.
  intros Hrun Hfc Ht Hwf Hsub. unfold null_requirement in Hrun.
  destruct (dict_lookup requirements m) as [g|] eqn:Hg.
  2:{ rewrite (bind_err _ _ _ _ _ (dict_get_None _ _ _ Hg)) in Hrun. discriminate. }
  rewrite (bind_ok _ _ _ _ _ (dict_get_Some _ _ _ _ Hg)) in Hrun.
  rewrite (bind_ok get _ _ _ _ eq_refl) in Hrun. rewrite Hfc in Hrun.
  exists g. case_bool_decide as Hex.
  - destruct (index g (field_names t)) as [i|] eqn:Hi.
    + rewrite (CalculateField_present _ _ _ _ _ _ Ht Hi) in Hrun.
      injection Hrun as <-. exists (fill_field t i VNone).
      split; [done|]. split; [done|]. split; [by simpl; rewrite lookup_insert_eq|].
      split; [by apply fill_field_wf|]. split; [done|]. split; [done|].
      split; [by simpl; rewrite length_fmap|].
      split; [by apply null_column_fill_same|].
      intros f Hf. destruct (decide (g = f)) as [<-|Hne].
      * by apply null_column_fill_same.
      * by eapply null_column_fill_other.
    + unfold CalculateField_management in Hrun.
      rewrite (bind_ok _ _ _ _ _ (open_table_Some _ _ _ _ Ht)) in Hrun.
      rewrite Hi in Hrun. discriminate.
  - assert (Hnin : g ∉ field_names t) by (intros Hin; by apply Hex, Hsub).
    rewrite (bind_ok _ _ _ _ _ (AddField_fresh _ _ _ _ _ Ht Hnin)) in Hrun.
    injection Hrun as <-. exists (add_field t g "SHORT").
    split; [done|]. split; [done|]. split; [by simpl; rewrite lookup_insert_eq|].
    split; [by apply add_field_wf|]. split.
    { intros g' Hg'. simpl. rewrite field_names_add_field in Hg'.
      apply elem_of_app in Hg' as [?|?]; apply elem_of_app; [left; by apply Hsub|by right]. }
    split; [done|]. split; [by simpl; rewrite length_fmap|].
    split; [by apply null_column_add_field_same|].
    intros f Hf. by apply null_column_add_field_other.
Qed.

Lemma null_requirements_run requirements fc M : forall w w' t,
  for_each M (null_requirement requirements) w = (w', inr tt) ->
  output_parcels_fc w = fc -> gdb w !! fc = Some t -> table_wf t ->
  (forall g, g ∈ field_names t -> g ∈ existing_output_fields w) ->
  exists t',
    output_parcels_fc w' = fc /\ gdb w' !! fc = Some t' /\ table_wf t' /\
    calls w' = calls w /\
    length (rows t') = length (rows t) /\
    (forall f, null_column t f -> null_column t' f) /\
    (forall m g, m ∈ M -> dict_lookup requirements m = Some g -> null_column t' g).
Proof.
  induction M as [|m M IH]; intros w w' t Hrun Hfc Ht Hwf Hsub; simpl in Hrun.
  - injection Hrun as <-. exists t. do 6 (split; [done|]).
    intros m g Hm. by apply elem_of_nil in Hm.
  - apply bind_inv_ok in Hrun as (w1 & [] & Hstep & Hrest).
    destruct (null_requirement_step _ _ _ _ _ _ Hstep Hfc Ht Hwf Hsub)
      as (g & t1 & Hg & Hfc1 & Ht1 & Hwf1 & Hsub1 & Hcalls1 & Hlen1 & Hnull1 & Hkeep1).
    destruct (IH _ _ _ Hrest Hfc1 Ht1 Hwf1 Hsub1)
      as (t' & Hfc' & Ht' & Hwf' & Hcalls' & Hlen' & Hkeep' & Hnull').
    exists t'. split; [done|]. split; [done|]. split; [done|].
    split; [congruence|]. split; [congruence|]. split; [auto|].
    intros m0 g0 Hm0 Hg0. apply elem_of_cons in Hm0 as [->|Hm0].
    + apply Hkeep'. congruence.
    + by eapply Hnull'.
Qed.

(** ** The loop over the requirements to process *)

Lemma ensure_field_length t g : length (rows (ensure_field t g)) = length (rows t).
Proof.
  unfold ensure_field. case_bool_decide; [done|]. simpl. by rewrite length_fmap.
Qed.

Lemma do_command_step collaborator q fc g w w' t f :
  do_command collaborator q fc g w = (w', inr tt) ->
  output_parcels_fc w = fc -> gdb w !! fc = Some t -> table_wf t ->
  null_column t f -> g ≠ f ->
  exists t' added,
    output_parcels_fc w' = fc /\ gdb w' !! fc = Some t' /\ table_wf t' /\
    null_column t' f /\ length (rows t') = length (rows t) /\
    calls w' = calls w ++ added /\ Forall (fun c => c.2 ≠ f) added.
Proof.
  intros Hrun Hfc Ht Hwf Hnull Hne. unfold do_command in Hrun.
  case_bool_decide as Hm.
  - unfold calc_requirement in Hrun.
    set (method := "calc_requirement_" +:+ replace_char "." "_" q) in *.
    rewrite (bind_ok (modify _) _ w _ tt eq_refl) in Hrun.
    set (w1 := set_calls (calls w ++ [(method, fc, g)]) w) in Hrun.
    assert (Ht1 : gdb w1 !! fc = Some t) by done.
    rewrite (bind_ok _ _ _ _ _ (open_table_Some _ _ _ _ Ht1)) in Hrun.
    destruct (index g (field_names t)) as [i|] eqn:Hi; [|discriminate].
    injection Hrun as <-.
    exists (collaborator_fill collaborator method fc t i), [(method, fc, g)].
    split; [done|]. split; [by simpl; rewrite lookup_insert_eq|].
    split; [by apply collaborator_fill_wf|].
    split; [by eapply null_column_collaborator_fill|].
    split; [by simpl; rewrite length_imap|]. split; [done|].
    by constructor.
  - injection Hrun as <-. exists t, []. simpl.
    rewrite app_nil_r. by do 6 (split; [done|]).
Qed.

Lemma process_requirement_step requirements collaborator M rc count q w w' res fc t f :
  process_requirement requirements collaborator M rc count q w = (w', inr res) ->
  output_parcels_fc w = fc -> gdb w !! fc = Some t -> table_wf t ->
  null_column t f ->
  (dict_lookup requirements q = Some f -> q ∈ M) ->
  exists t' added,
    output_parcels_fc w' = fc /\ gdb w' !! fc = Some t' /\ table_wf t' /\
    null_column t' f /\ length (rows t') = length (rows t) /\
    calls w' = calls w ++ added /\ Forall (fun c => c.2 ≠ f) added.
Proof.
  intros Hrun Hfc Ht Hwf Hnull Hmask. unfold process_requirement in Hrun.
  rewrite (bind_ok _ _ _ _ _ (print_run _ _)) in Hrun.
  set (w0 := set_stdout _ w) in Hrun.
  destruct (dict_lookup requirements q) as [g|] eqn:Hg.
  2:{ rewrite (bind_err _ _ _ _ _ (dict_get_None _ _ _ Hg)) in Hrun. discriminate. }
  rewrite (bind_ok _ _ _ _ _ (dict_get_Some _ _ _ _ Hg)) in Hrun.
  rewrite (bind_ok get _ _ _ _ eq_refl) in Hrun.
  change (output_parcels_fc w0) with (output_parcels_fc w) in Hrun. rewrite Hfc in Hrun.
  (* the field is added when the list of existing fields does not have it *)
  assert (Hadd : exists w1 t1,
    (if bool_decide (g ∉ existing_output_fields w0) then
       print ("Adding field: " +:+ g) ;;; AddField_management fc g "SHORT"
     else ret tt) w0 = (w1, inr tt) /\
    output_parcels_fc w1 = fc /\ gdb w1 !! fc = Some t1 /\ table_wf t1 /\
    null_column t1 f /\ length (rows t1) = length (rows t) /\
    calls w1 = calls w).
  { case_bool_decide.
    - destruct (AddField_ensure fc g t
                  (set_stdout (stdout w0 ++ ["Adding field: " +:+ g]) w0) Ht)
        as (w1 & Hrun1 & Hgdb1 & Hfc1 & _ & Hcalls1 & _).
      exists w1, (ensure_field t g).
      split; [erewrite bind_ok; [exact Hrun1|reflexivity]|].
      split; [by rewrite Hfc1|].
      split; [rewrite Hgdb1; by rewrite lookup_insert_eq|].
      split; [by apply ensure_field_wf|].
      split; [by apply null_column_ensure_other|].
      split; [|by rewrite Hcalls1].
      apply ensure_field_length.
    - exists w0, t. split; [reflexivity|]. split; [exact Hfc|]. split; [exact Ht|].
      split; [exact Hwf|]. split; [exact Hnull|]. split; reflexivity. }
  destruct Hadd as (w1 & t1 & Hrun1 & Hfc1 & Ht1 & Hwf1 & Hnull1 & Hlen1 & Hcalls1).
  rewrite (bind_ok _ _ _ _ _ Hrun1) in Hrun. clear Hrun1.
  case_bool_decide as Hq.
  - apply bind_inv_ok in Hrun as (w3 & [] & Hdo & Hret).
    injection Hret as <- _.
    rewrite (bind_ok _ _ _ _ _ (print_run _ _)) in Hdo.
    set (w2 := set_stdout _ w1) in Hdo.
    assert (Hne : g ≠ f) by (intros ->; by apply Hq, Hmask).
    destruct (do_command_step collaborator q fc g w2 w3 t1 f Hdo Hfc1 Ht1 Hwf1 Hnull1 Hne)
      as (t' & added & Hfc' & Ht' & Hwf' & Hnull' & Hlen' & Hcalls' & Hadded).
    exists t', added. do 4 (split; [done|]). split; [congruence|].
    split; [|done]. rewrite Hcalls'. simpl. by rewrite Hcalls1.
  - rewrite (bind_ok _ _ _ _ _ (print_run _ _)) in Hrun.
    injection Hrun as <- _. exists t1, []. rewrite app_nil_r. simpl.
    by do 6 (split; [done|]).
Qed.

Lemma process_requirements_run requirements collaborator M rc fc f rtp :
  forall count w w' res t,
  for_fold rtp count (process_requirement requirements collaborator M rc) w
  = (w', inr res) ->
  output_parcels_fc w = fc -> gdb w !! fc = Some t -> table_wf t ->
  null_column t f ->
  (forall q, q ∈ rtp -> dict_lookup requirements q = Some f -> q ∈ M) ->
  exists t' added,
    output_parcels_fc w' = fc /\ gdb w' !! fc = Some t' /\ table_wf t' /\
    null_column t' f /\ length (rows t') = length (rows t) /\
    calls w' = calls w ++ added /\ Forall (fun c => c.2 ≠ f) added.
Proof.
  induction rtp as [|q rtp IH]; intros count w w' res t Hrun Hfc Ht Hwf Hnull Hmask;
    simpl in Hrun.
  - injection Hrun as <- _. exists t, []. rewrite app_nil_r.
    by do 6 (split; [done|]).
  - apply bind_inv_ok in Hrun as (w1 & count1 & Hstep & Hrest).
    destruct (process_requirement_step _ _ _ _ _ _ _ _ _ _ _ f Hstep Hfc Ht Hwf Hnull)
      as (t1 & added1 & Hfc1 & Ht1 & Hwf1 & Hnull1 & Hlen1 & Hcalls1 & Hadded1).
    { apply Hmask. by left. }
    destruct (IH _ _ _ _ _ Hrest Hfc1 Ht1 Hwf1 Hnull1)
      as (t' & added' & Hfc' & Ht' & Hwf' & Hnull' & Hlen' & Hcalls' & Hadded').
    { intros q' Hq'. apply Hmask. by right. }
    exists t', (added1 ++ added'). do 4 (split; [done|]). split; [congruence|].
    split; [|by apply Forall_app]. rewrite Hcalls', Hcalls1. by rewrite app_assoc.
Qed.

(** C4 (masking dominance).  Let [r] be a requirement that the no-data
    dictionary lists for the county of the parcel feature class or for
    ALL_COUNTIES, with field [f], where the requirements to process that
    share this field are listed as well, and where the fields of the parcel
    table are those the main loop has listed as existing.  When the
    requirement pass has run, the field [f] exists in the parcel table and
    holds <null> on every parcel, and none of the collaborator calls the
    pass made has [f] as its target; this holds for every collaborator,
    whatever values it returns. *)
Theorem masking_dominance requirements requirements_with_no_data collaborator
    requirements_to_process w w' t r f :
  gdb w !! output_parcels_fc w = Some t ->
  table_wf t ->
  (forall g, g ∈ field_names t -> g ∈ existing_output_fields w) ->
  is_masked_spec requirements_with_no_data (county_name_of (output_parcels_fc w)) r ->
  dict_lookup requirements r = Some f ->
  Forall (fun q => dict_lookup requirements q = Some f ->
                   is_masked_spec requirements_with_no_data
                     (county_name_of (output_parcels_fc w)) q)
         requirements_to_process ->
  output_parcels_fc w ≠ output_gdb_dev_team +:+ os_sep +:+ output_requirements_table_name ->
  calculate_requirements requirements requirements_with_no_data collaborator
    requirements_to_process w = (w', inr tt) ->
  exists t' added,
    gdb w' !! output_parcels_fc w = Some t' /\
    length (rows t') = length (rows t) /\
    null_column t' f /\
    calls w' = calls w ++ added /\
    Forall (fun c => c.2 ≠ f) added.
Proof.
  intros Ht Hwf Hsub Hr Hf Hshare Hne Hrun.
  unfold calculate_requirements in Hrun.
  rewrite (bind_ok get _ _ _ _ eq_refl) in Hrun.
  unfold is_masked_spec in Hr, Hshare.
  set (fc := output_parcels_fc w) in *.
  destruct (dict_lookup requirements_with_no_data (county_name_of fc))
    as [this_county|] eqn:Hthis.
  2:{ rewrite (bind_err _ _ _ _ _ (dict_get_None _ _ _ Hthis)) in Hrun. discriminate. }
  rewrite (bind_ok _ _ _ _ _ (dict_get_Some _ _ _ _ Hthis)) in Hrun.
  destruct (dict_lookup requirements_with_no_data "ALL_COUNTIES")
    as [all_counties|] eqn:Hall.
  2:{ rewrite (bind_err _ _ _ _ _ (dict_get_None _ _ _ Hall)) in Hrun. discriminate. }
  rewrite (bind_ok _ _ _ _ _ (dict_get_Some _ _ _ _ Hall)) in Hrun.
  simpl in Hr, Hshare.
  apply bind_inv_ok in Hrun as (w1 & [] & Hnull & Hrun).
  destruct (null_requirements_run requirements fc _ _ _ _ Hnull eq_refl Ht Hwf Hsub)
    as (t1 & Hfc1 & Ht1 & Hwf1 & Hcalls1 & Hlen1 & _ & Hnull1).
  specialize (Hnull1 r f Hr Hf).
  apply bind_inv_ok in Hrun as (w2 & count & Hloop & Hrun).
  destruct (process_requirements_run _ _ _ _ fc f _ _ _ _ _ _ Hloop Hfc1 Ht1 Hwf1 Hnull1)
    as (t2 & added & Hfc2 & Ht2 & Hwf2 & Hnull2 & Hlen2 & Hcalls2 & Hadded).
  { intros q Hq. rewrite Forall_forall in Hshare. by apply Hshare. }
  exists t2, added.
  assert (Hend : gdb w' !! fc = gdb w2 !! fc /\ calls w' = calls w2).
  { unfold Exists in Hrun at 1.
    rewrite (bind_ok (w <- get ;; ret _) _ w2 w2 _ eq_refl) in Hrun.
    rewrite (bind_ok get _ _ _ _ eq_refl) in Hrun.
    destruct (bool_decide _).
    - apply delete_county_rows_frame in Hrun as [Hframe (_ & _ & Hc & _)].
      split; [by apply Hframe|done].
    - by injection Hrun as <-. }
  destruct Hend as [Hgdb' Hcalls'].
  split; [by rewrite Hgdb'|]. split; [congruence|]. split; [done|].
  split; [|done]. rewrite Hcalls', Hcalls2. by rewrite Hcalls1.
Qed.

Lemma masking_dominance_witness :
  exists t' added,
    gdb yolo_after_requirements !! output_parcels_fc yolo_prepared = Some t' /\
    length (rows t') = length (rows yolo_parcels) /\
    null_column t' "landslide_hazard_9_5" /\
    calls yolo_after_requirements = calls yolo_prepared ++ added /\
    Forall (fun c => c.2 ≠ "landslide_hazard_9_5") added.
Proof.
  apply (masking_dominance Statewide.requirements Statewide.requirements_with_no_data
           sample_collaborator (keys Statewide.requirements) yolo_prepared
           yolo_after_requirements yolo_parcels "9.5" "landslide_hazard_9_5").
  - vm_compute. reflexivity.
  - repeat (apply List.Forall_cons; [reflexivity|]). apply List.Forall_nil.
  - intros g Hg. vm_compute in Hg |- *. exact Hg.
  - unfold is_masked_spec. solve_elem.
  - reflexivity.
  - unfold is_masked_spec. solve_elem.
  - solve_elem.
  - vm_compute. reflexivity.
Defined.

(** ** Columns added to an existing table *)

Lemma row_extends_refl names r : row_extends names names r r.
Proof. split; [done|]. intros f Hf Hn. done. Qed.

Lemma row_extends_trans n1 n2 n3 r1 r2 r3 :
  (forall g, g ∈ n1 -> g ∈ n2) ->
  row_extends n1 n2 r1 r2 -> row_extends n2 n3 r2 r3 -> row_extends n1 n3 r1 r3.
Proof.
  intros Hsub [Hk1 Hn1] [Hk2 Hn2]. split.
  - intros g v Hg. by apply Hk2, Hk1.
  - intros f Hf Hnf. destruct (decide (f ∈ n2)) as [Hin|Hnin].
    + apply Hk2. by apply Hn1.
    + by apply Hn2.
Qed.

Lemma ensure_field_rows t f :
  table_wf t ->
  Forall2 (row_extends (field_names t) (field_names (ensure_field t f)))
          (rows t) (rows (ensure_field t f)).
Proof.
  intros Hwf. unfold ensure_field. case_bool_decide as Hin.
  - apply Forall2_same_length_lookup_2; [done|]. intros i r r' Hr Hr'.
    assert (r' = r) as -> by congruence. apply row_extends_refl.
  - simpl. apply Forall2_fmap_r. apply Forall2_same_length_lookup_2; [done|].
    intros i r r' Hr Hr'. assert (r' = r) as -> by congruence.
    assert (Hrin : r ∈ rows t) by (by eapply list_elem_of_lookup_2).
    split.
    + intros g v Hg. rewrite add_field_cell_old; [done|done| |done].
      by eapply cell_Some_elem_of.
    + intros g Hg Hng. rewrite field_names_add_field in Hg.
      apply elem_of_app in Hg as [?|Hg]; [done|].
      apply list_elem_of_singleton in Hg as ->.
      apply add_field_cell_new; [done|done|].
      simpl. apply list_elem_of_fmap. by exists r.
Qed.

Lemma ensure_field_short t f g :
  g ∈ field_names (ensure_field t f) -> g ∉ field_names t ->
  g = f /\ mkField g "SHORT" ∈ fields (ensure_field t f).
Proof.
  unfold ensure_field. case_bool_decide; [done|].
  rewrite field_names_add_field. intros [?|Hg]%elem_of_app Hn; [done|].
  apply list_elem_of_singleton in Hg as ->. split; [done|].
  simpl. apply elem_of_app. right. by left.
Qed.

Lemma ensure_field_fields_mono t f x : x ∈ fields t -> x ∈ fields (ensure_field t f).
Proof.
  unfold ensure_field. case_bool_decide; [done|]. simpl. intros ?.
  apply elem_of_app. by left.
Qed.

Lemma foldl_ensure_names_facts names : forall T0,
  table_wf T0 ->
  let T := foldl ensure_field T0 names in
  table_wf T /\
  (forall g, g ∈ field_names T0 -> g ∈ field_names T) /\
  (forall x, x ∈ fields T0 -> x ∈ fields T) /\
  (forall f, f ∈ names -> f ∈ field_names T) /\
  (forall f, f ∈ field_names T -> f ∉ field_names T0 ->
             f ∈ names /\ mkField f "SHORT" ∈ fields T) /\
  Forall2 (row_extends (field_names T0) (field_names T)) (rows T0) (rows T).
Proof.
  induction names as [|n names IH]; intros T0 Hwf; simpl.
  - split; [done|]. split; [done|]. split; [done|].
    split; [by intros f ?%elem_of_nil|]. split; [done|].
    apply Forall2_same_length_lookup_2; [done|]. intros i r r' Hr Hr'.
    assert (r' = r) as -> by congruence. apply row_extends_refl.
  - destruct (IH (ensure_field T0 n) (ensure_field_wf _ _ Hwf))
      as (Hwf' & Hmono & Hfmono & Hall & Hnew & Hrows).
    simpl in *. split; [done|]. split; [|split; [|split; [|split]]].
    + intros g Hg. by apply Hmono, ensure_field_mono.
    + intros x Hx. by apply Hfmono, ensure_field_fields_mono.
    + intros f [->|Hf]%elem_of_cons; [|by apply Hall].
      apply Hmono, ensure_field_elem_of.
    + intros f Hf Hnf. destruct (decide (f ∈ field_names (ensure_field T0 n))) as [Hin|Hnin].
      * destruct (ensure_field_short _ _ _ Hin Hnf) as [-> Hs].
        split; [by left|]. by apply Hfmono.
      * destruct (Hnew f Hf Hnin) as [? ?]. split; [by right|done].
    + eapply Forall2_trans; [|apply ensure_field_rows; exact Hwf|exact Hrows].
      intros r1 r2 r3. apply row_extends_trans. intros g. apply ensure_field_mono.
Qed.

(** ** Materialising into a table that exists *)

Lemma str_in_Fields_false s l : str_in_Fields s l = false.
Proof. unfold str_in_Fields. induction l as [|x l IH]; simpl; [done|]. exact IH. Qed.

Lemma Exists_run p w : Exists p w = (w, inr (bool_decide (is_Some (gdb w !! p)))).
Proof. done. Qed.

Lemma Exists_true p t w : gdb w !! p = Some t -> Exists p w = (w, inr true).
Proof. intros H. rewrite Exists_run. by rewrite bool_decide_eq_true_2. Qed.

Lemma ListFields_run p t w : gdb w !! p = Some t -> ListFields p w = (w, inr (fields t)).
Proof.
  intros H. unfold ListFields.
  by rewrite (bind_ok _ _ _ _ _ (open_table_Some _ _ _ _ H)).
Qed.

Lemma fields_to_keep_loop (target : string) (wanted existing : list string) :
  forall (acc : list string) w dst,
  gdb w !! target = Some dst ->
  exists w',
    for_fold existing acc
      (fun fields_to_keep field =>
         if bool_decide (field ∈ wanted) then
           e <- Exists target ;;
           (if e then
              listed <- ListFields target ;;
              if negb (str_in_Fields field listed)
              then AddField_management target field "SHORT"
              else ret tt
            else ret tt) ;;;
           ret (fields_to_keep ++ [field])
         else ret fields_to_keep) w
    = (w', inr (acc ++ filter (fun f => f ∈ wanted) existing)) /\
    gdb w' = <[target := foldl ensure_field dst (filter (fun f => f ∈ wanted) existing)]>
               (gdb w) /\
    same_globals w w'.
Proof.
  induction existing as [|field existing IH]; intros acc w dst Hdst; simpl.
  - exists w. rewrite app_nil_r. split; [done|].
    split; [by rewrite insert_id|apply same_globals_refl].
  - rewrite filter_cons. destruct (decide (field ∈ wanted)) as [Hw|Hw].
    + destruct (AddField_ensure target field dst w Hdst) as (w1 & Hadd & Hgdb1 & Hsame1).
      erewrite bind_ok.
      2:{ rewrite bool_decide_eq_true_2 by done.
          rewrite (bind_ok _ _ _ _ _ (Exists_true _ _ _ Hdst)).
          erewrite bind_ok; [reflexivity|].
          rewrite (bind_ok _ _ _ _ _ (ListFields_run _ _ _ Hdst)).
          rewrite str_in_Fields_false. exact Hadd. }
      destruct (IH (acc ++ [field]) w1 (ensure_field dst field)) as (w' & Hrun & Hgdb & Hsame).
      { rewrite Hgdb1. by rewrite lookup_insert_eq. }
      exists w'. rewrite Hrun. split; [by rewrite <- app_assoc|].
      split; [|by eapply same_globals_trans].
      rewrite Hgdb, Hgdb1. simpl. by rewrite insert_insert_eq.
    + erewrite bind_ok.
      2:{ rewrite bool_decide_eq_false_2 by done. reflexivity. }
      by apply IH.
Qed.

Lemma fields_to_keep_for_run target wanted existing w dst :
  gdb w !! target = Some dst ->
  exists w',
    fields_to_keep_for target wanted existing w
    = (w', inr ([parcel_id_field; county_name_field]
                ++ filter (fun f => f ∈ wanted) existing)) /\
    gdb w' = <[target := foldl ensure_field dst (filter (fun f => f ∈ wanted) existing)]>
               (gdb w) /\
    same_globals w w'.
Proof. intros H. unfold fields_to_keep_for. by apply fields_to_keep_loop. Qed.

Lemma FieldMappings_run p t keep w :
  gdb w !! p = Some t -> Forall (fun f => f ∈ field_names t) keep ->
  FieldMappings p keep w = (w, inr keep).
Proof.
  intros Ht Hall. unfold FieldMappings.
  rewrite (bind_ok _ _ _ _ _ (open_table_Some _ _ _ _ Ht)).
  assert (Hb : forallb (fun f => bool_decide (f ∈ field_names t)) keep = true).
  { apply forallb_forall. intros f Hf. apply bool_decide_eq_true.
    rewrite Forall_forall in Hall. apply Hall. by apply list_elem_of_In. }
  by rewrite Hb.
Qed.

Lemma append_rows_run fc tmp target mapS msg w src dst1 :
  gdb w !! fc = Some src -> gdb w !! target = Some dst1 -> tmp ≠ target ->
  exists w',
    (print msg ;;; CopyRows_management fc tmp ;;; Append_management tmp target mapS) w
    = (w', inr tt) /\
    gdb w'
    = <[target := mkTable (fields dst1)
                    (rows dst1 ++ (appended_row (field_names src) (field_names dst1) mapS
                                     <$> rows src))]> (<[tmp := src]> (gdb w)) /\
    same_globals w w'.
Proof.
  intros Hsrc Hdst Hne.
  rewrite (bind_ok _ _ _ _ _ (print_run _ _)).
  set (w0 := set_stdout _ w).
  assert (Hsrc0 : gdb w0 !! fc = Some src) by done.
  unfold CopyRows_management.
  rewrite (bind_ok (_ <- open_table _ _ ;; _) _ w0 (set_gdb <[tmp := src]> w0) tt).
  2:{ by rewrite (bind_ok _ _ _ _ _ (open_table_Some _ _ _ _ Hsrc0)). }
  set (w1 := set_gdb _ w0).
  assert (Htmp : gdb w1 !! tmp = Some src) by (simpl; by rewrite lookup_insert_eq).
  assert (Hdst1 : gdb w1 !! target = Some dst1).
  { simpl. by rewrite lookup_insert_ne. }
  unfold Append_management.
  rewrite (bind_ok _ _ _ _ _ (open_table_Some _ _ _ _ Htmp)).
  rewrite (bind_ok _ _ _ _ _ (open_table_Some _ _ _ _ Hdst1)).
  eexists. split; [reflexivity|]. split.
  - done.
  - eapply same_globals_trans; [apply same_globals_print|].
    eapply same_globals_trans; apply same_globals_set_gdb.
Qed.

Lemma appended_row_cell src_names dst_names mapS r f v :
  f ∈ mapS -> f ∈ dst_names -> cell src_names r f = Some v ->
  cell dst_names (appended_row src_names dst_names mapS r) f = Some v.
Proof.
  intros Hm Hd Hv. unfold cell at 1.
  destruct (index_is_Some _ _ Hd) as [i Hi]. rewrite Hi. simpl.
  unfold appended_row. rewrite list_lookup_fmap.
  rewrite (index_Some_lookup _ _ _ Hi). simpl.
  rewrite bool_decide_eq_true_2 by done. by rewrite Hv.
Qed.

Lemma reconciled_intro wanted src dst mapS :
  table_wf dst ->
  (forall f, f ∈ field_names src -> f ∈ wanted -> f ∈ mapS) ->
  reconciled wanted src dst (appended wanted mapS src dst).
Proof.
  intros Hwf Hmap. unfold appended.
  set (dst1 := foldl ensure_field dst (filter (fun f => f ∈ wanted) (field_names src))).
  destruct (foldl_ensure_names_facts (filter (fun f => f ∈ wanted) (field_names src)) dst Hwf)
    as (Hwf1 & Hmono & Hfmono & Hall & Hnew & Hrows).
  fold dst1 in Hwf1, Hmono, Hfmono, Hall, Hnew, Hrows.
  assert (Hin : forall f, f ∈ field_names src -> f ∈ wanted -> f ∈ field_names dst1).
  { intros f Hf Hw. apply Hall. by apply list_elem_of_filter. }
  split; [exact Hin|]. split.
  - intros f Hf Hnf. by apply (Hnew f Hf Hnf).
  - exists (rows dst1), (appended_row (field_names src) (field_names dst1) mapS <$> rows src).
    split; [done|]. split; [exact Hrows|].
    apply Forall2_fmap_r. apply Forall2_same_length_lookup_2; [done|].
    intros i r r' Hr Hr'. assert (r' = r) as -> by congruence.
    intros f v Hw Hv.
    assert (Hfs : f ∈ field_names src) by (by eapply cell_Some_elem_of).
    apply appended_row_cell; [by apply Hmap|by apply Hin|done].
Qed.

Lemma local_existing_output_fields_run fc src w :
  gdb w !! fc = Some src ->
  local_existing_output_fields fc w = (w, inr (field_names src)).
Proof.
  intros H. unfold local_existing_output_fields.
  rewrite (bind_ok _ _ _ _ _ (Exists_true _ _ _ H)).
  by rewrite (bind_ok _ _ _ _ _ (ListFields_run _ _ _ H)).
Qed.

Lemma scratch_tables_ne :
  scratch_ws +:+ os_sep +:+ "tmp_table_requirements" ≠ output_requirements_table /\
  scratch_ws +:+ os_sep +:+ "tmp_table_exemptions" ≠ output_exemptions_table.
Proof. split; solve_elem. Qed.

(** The run of [create_requirements_table_dev_team] on a table that exists. *)
Lemma create_requirements_table_append requirements w src dst :
  gdb w !! output_parcels_fc w = Some src ->
  parcel_id_field ∈ field_names src ->
  county_name_field ∈ field_names src ->
  gdb w !! output_requirements_table = Some dst ->
  output_parcels_fc w ≠ output_requirements_table ->
  exists w',
    create_requirements_table_dev_team requirements w = (w', inr tt) /\
    gdb w'
    = <[output_requirements_table :=
          appended (values requirements) (kept_fields (values requirements) src) src dst]>
        (<[scratch_ws +:+ os_sep +:+ "tmp_table_requirements" := src]> (gdb w)) /\
    same_globals w w'.
Proof.
  intros Hsrc Hpid Hcounty Hdst Hne.
  unfold create_requirements_table_dev_team.
  rewrite (bind_ok get _ _ _ _ eq_refl).
  rewrite (bind_ok _ _ _ _ _ (local_existing_output_fields_run _ _ _ Hsrc)).
  destruct (fields_to_keep_for_run output_requirements_table (values requirements)
              (field_names src) w dst Hdst) as (w1 & Hkeep & Hgdb1 & Hsame1).
  rewrite (bind_ok _ _ _ _ _ Hkeep).
  fold (kept_fields (values requirements) src).
  set (keep := kept_fields (values requirements) src).
  set (dst1 := foldl ensure_field dst _) in Hgdb1.
  assert (Hsrc1 : gdb w1 !! output_parcels_fc w = Some src).
  { rewrite Hgdb1. by rewrite lookup_insert_ne. }
  assert (Hdst1 : gdb w1 !! output_requirements_table = Some dst1).
  { rewrite Hgdb1. by rewrite lookup_insert_eq. }
  assert (Hall : Forall (fun f => f ∈ field_names src) keep).
  { unfold keep, kept_fields. apply Forall_app. split.
    - by repeat constructor.
    - rewrite Forall_forall. by intros f [_ ?]%list_elem_of_filter. }
  rewrite (bind_ok _ _ _ _ _ (FieldMappings_run _ src keep _ Hsrc1 Hall)).
  rewrite (bind_ok _ _ _ _ _ (Exists_true _ _ _ Hdst1)).
  change (negb true) with false. cbv iota.
  destruct (append_rows_run (output_parcels_fc w)
              (scratch_ws +:+ os_sep +:+ "tmp_table_requirements")
              output_requirements_table keep
              (nl +:+ "Appending rows to the Requirements table...") w1 src dst1
              Hsrc1 Hdst1 (proj1 scratch_tables_ne)) as (w' & Hrun & Hgdb' & Hsame').
  exists w'. split; [exact Hrun|]. split; [|by eapply same_globals_trans].
  rewrite Hgdb', Hgdb1. unfold appended. fold dst1.
  rewrite (insert_insert_ne _ (scratch_ws +:+ os_sep +:+ "tmp_table_requirements"))
    by apply scratch_tables_ne.
  by rewrite insert_insert_eq.
Qed.

(** The same for [create_exemptions_table_dev_team]. *)
Lemma create_exemptions_table_append exemptions w src dst :
  gdb w !! output_parcels_fc w = Some src ->
  parcel_id_field ∈ field_names src ->
  county_name_field ∈ field_names src ->
  "exemptions_count" ∈ field_names src ->
  gdb w !! output_exemptions_table = Some dst ->
  output_parcels_fc w ≠ output_exemptions_table ->
  exists w',
    create_exemptions_table_dev_team exemptions w = (w', inr tt) /\
    gdb w'
    = <[output_exemptions_table :=
          appended (exemption_field_name <$> keys exemptions)
            (kept_fields (exemption_field_name <$> keys exemptions) src
             ++ ["exemptions_count"]) src dst]>
        (<[scratch_ws +:+ os_sep +:+ "tmp_table_exemptions" := src]> (gdb w)) /\
    same_globals w w'.
Proof.
  intros Hsrc Hpid Hcounty Hcount Hdst Hne.
  unfold create_exemptions_table_dev_team.
  rewrite (bind_ok get _ _ _ _ eq_refl).
  rewrite (bind_ok _ _ _ _ _ (local_existing_output_fields_run _ _ _ Hsrc)).
  destruct (fields_to_keep_for_run output_exemptions_table
              (exemption_field_name <$> keys exemptions)
              (field_names src) w dst Hdst) as (w1 & Hkeep & Hgdb1 & Hsame1).
  rewrite (bind_ok _ _ _ _ _ Hkeep).
  fold (kept_fields (exemption_field_name <$> keys exemptions) src).
  set (keep := kept_fields (exemption_field_name <$> keys exemptions) src
               ++ ["exemptions_count"]).
  set (dst1 := foldl ensure_field dst _) in Hgdb1.
  assert (Hsrc1 : gdb w1 !! output_parcels_fc w = Some src).
  { rewrite Hgdb1. by rewrite lookup_insert_ne. }
  assert (Hdst1 : gdb w1 !! output_exemptions_table = Some dst1).
  { rewrite Hgdb1. by rewrite lookup_insert_eq. }
  assert (Hall : Forall (fun f => f ∈ field_names src) keep).
  { unfold keep, kept_fields. apply Forall_app. split; [apply Forall_app; split|].
    - by repeat constructor.
    - rewrite Forall_forall. by intros f [_ ?]%list_elem_of_filter.
    - by repeat constructor. }
  rewrite (bind_ok _ _ _ _ _ (FieldMappings_run _ src keep _ Hsrc1 Hall)).
  rewrite (bind_ok _ _ _ _ _ (Exists_true _ _ _ Hdst1)).
  change (negb true) with false. cbv iota.
  destruct (append_rows_run (output_parcels_fc w)
              (scratch_ws +:+ os_sep +:+ "tmp_table_exemptions")
              output_exemptions_table keep
              (nl +:+ "Appending rows to the Exemptions table...") w1 src dst1
              Hsrc1 Hdst1 (proj2 scratch_tables_ne)) as (w' & Hrun & Hgdb' & Hsame').
  exists w'. split; [exact Hrun|]. split; [|by eapply same_globals_trans].
  rewrite Hgdb', Hgdb1. unfold appended. fold dst1.
  rewrite (insert_insert_ne _ (scratch_ws +:+ os_sep +:+ "tmp_table_exemptions"))
    by apply scratch_tables_ne.
  by rewrite insert_insert_eq.
Qed.

(** When the requirements table exists, [create_requirements_table_dev_team]
    runs to its end and leaves it reconciled with the parcel table: every
    requirement field of the parcel table is a column of the table, the
    columns the table did not have are SHORT and hold <null> on the rows
    that were there, those rows keep the values of all their other columns,
    and one row per parcel follows them with the values of the requirement
    fields. *)
Theorem requirements_table_reconciled requirements w src dst :
  gdb w !! output_parcels_fc w = Some src ->
  parcel_id_field ∈ field_names src ->
  county_name_field ∈ field_names src ->
  gdb w !! output_requirements_table = Some dst ->
  table_wf dst ->
  output_parcels_fc w ≠ output_requirements_table ->
  exists w' dst',
    create_requirements_table_dev_team requirements w = (w', inr tt) /\
    gdb w' !! output_requirements_table = Some dst' /\
    reconciled (values requirements) src dst dst'.
Proof.
  intros Hsrc Hpid Hcounty Hdst Hwf Hne.
  destruct (create_requirements_table_append requirements w src dst
              Hsrc Hpid Hcounty Hdst Hne) as (w' & Hrun & Hgdb & _).
  exists w'. eexists. split; [exact Hrun|]. split.
  { rewrite Hgdb. by rewrite lookup_insert_eq. }
  apply reconciled_intro; [done|]. intros f Hf Hw. unfold kept_fields.
  apply elem_of_app. right. by apply list_elem_of_filter.
Qed.

(** The same for [create_exemptions_table_dev_team], the exemptions table and
    the exemption fields; [exemptions_count] is mapped as well and has to be
    a field of the parcel table. *)
Theorem exemptions_table_reconciled exemptions w src dst :
  gdb w !! output_parcels_fc w = Some src ->
  parcel_id_field ∈ field_names src ->
  county_name_field ∈ field_names src ->
  "exemptions_count" ∈ field_names src ->
  gdb w !! output_exemptions_table = Some dst ->
  table_wf dst ->
  output_parcels_fc w ≠ output_exemptions_table ->
  exists w' dst',
    create_exemptions_table_dev_team exemptions w = (w', inr tt) /\
    gdb w' !! output_exemptions_table = Some dst' /\
    reconciled (exemption_field_name <$> keys exemptions) src dst dst'.
Proof.
  intros Hsrc Hpid Hcounty Hcount Hdst Hwf Hne.
  destruct (create_exemptions_table_append exemptions w src dst
              Hsrc Hpid Hcounty Hcount Hdst Hne) as (w' & Hrun & Hgdb & _).
  exists w'. eexists. split; [exact Hrun|]. split.
  { rewrite Hgdb. by rewrite lookup_insert_eq. }
  apply reconciled_intro; [done|]. intros f Hf Hw. unfold kept_fields.
  apply elem_of_app. left. apply elem_of_app. right. by apply list_elem_of_filter.
Qed.

(** ** Materialising into a table that does not exist yet *)

Lemma Exists_false p w : gdb w !! p = None -> Exists p w = (w, inr false).
Proof.
  intros H. rewrite Exists_run. rewrite bool_decide_eq_false_2; [done|].
  rewrite H. by intros [? ?].
Qed.

Lemma fields_to_keep_absent (target : string) (wanted existing : list string) :
  forall (acc : list string) w,
  gdb w !! target = None ->
  for_fold existing acc
    (fun fields_to_keep field =>
       if bool_decide (field ∈ wanted) then
         e <- Exists target ;;
         (if e then
            listed <- ListFields target ;;
            if negb (str_in_Fields field listed)
            then AddField_management target field "SHORT"
            else ret tt
          else ret tt) ;;;
         ret (fields_to_keep ++ [field])
       else ret fields_to_keep) w
  = (w, inr (acc ++ filter (fun f => f ∈ wanted) existing)).
Proof.
  induction existing as [|field existing IH]; intros acc w Hnone; simpl.
  - by rewrite app_nil_r.
  - rewrite filter_cons. destruct (decide (field ∈ wanted)) as [Hw|Hw].
    + erewrite bind_ok.
      2:{ rewrite bool_decide_eq_true_2 by done.
          rewrite (bind_ok _ _ _ _ _ (Exists_false _ _ Hnone)). reflexivity. }
      rewrite IH by done. by rewrite <- app_assoc.
    + erewrite bind_ok.
      2:{ rewrite bool_decide_eq_false_2 by done. reflexivity. }
      by apply IH.
Qed.

Lemma field_name_field_of t f : f ∈ field_names t -> field_name (field_of t f) = f.
Proof.
  unfold field_of, field_names. intros Hin.
  apply list_elem_of_fmap in Hin as (x & -> & Hx).
  destruct (List.find _ (fields t)) as [y|] eqn:Hfind; simpl.
  - apply List.find_some in Hfind as [_ Hy]. by apply bool_decide_eq_true in Hy.
  - exfalso. apply list_elem_of_In in Hx.
    pose proof (List.find_none _ _ Hfind x Hx) as Hn. simpl in Hn.
    by rewrite bool_decide_eq_true_2 in Hn.
Qed.

Lemma field_names_projection t keep :
  Forall (fun f => f ∈ field_names t) keep ->
  field_name <$> (field_of t <$> keep) = keep.
Proof.
  induction 1 as [|f keep Hf Hkeep IH]; simpl; [done|].
  rewrite field_name_field_of by done. f_equal. exact IH.
Qed.

Lemma project_cell names keep r f v :
  f ∈ keep -> cell names r f = Some v -> cell keep (project names keep r) f = Some v.
Proof.
  intros Hk Hv. unfold cell at 1.
  destruct (index_is_Some _ _ Hk) as [i Hi]. rewrite Hi. simpl.
  unfold project. rewrite list_lookup_fmap.
  rewrite (index_Some_lookup _ _ _ Hi). simpl. by rewrite Hv.
Qed.

(** The table a first materialisation creates from the parcel table [src]
    with the fields [keep]. *)
Lemma TableToTable_run fc target keep w src :
  gdb w !! fc = Some src ->
  TableToTable_conversion fc target keep w
  = (set_gdb <[target := mkTable (field_of src <$> keep)
                           (project (field_names src) keep <$> rows src)]> w, inr tt).
Proof.
  intros Hsrc. unfold TableToTable_conversion.
  by rewrite (bind_ok _ _ _ _ _ (open_table_Some _ _ _ _ Hsrc)).
Qed.

Lemma created_table_facts src keep :
  Forall (fun f => f ∈ field_names src) keep ->
  let dst' := mkTable (field_of src <$> keep)
                (project (field_names src) keep <$> rows src) in
  field_names dst' = keep /\
  table_wf dst' /\
  Forall2 (fun r r' => forall f v, f ∈ keep -> cell (field_names src) r f = Some v ->
                                   cell (field_names dst') r' f = Some v)
          (rows src) (rows dst').
Proof.
  intros Hall dst'.
  assert (Hnames : field_names dst' = keep) by (by apply field_names_projection).
  split; [done|]. split.
  - unfold table_wf, dst'. simpl. apply Forall_fmap. apply Forall_true.
    intros r. simpl. unfold project. by rewrite !length_fmap.
  - rewrite Hnames. unfold dst'. simpl. apply Forall2_fmap_r.
    apply Forall2_same_length_lookup_2; [done|].
    intros i r r' Hr Hr'. assert (r' = r) as -> by congruence.
    intros f v Hf Hv. by apply project_cell.
Qed.

(** When the requirements table does not exist,
    [create_requirements_table_dev_team] creates it from the parcel table:
    its columns are the parcel id, the county name and the requirement
    fields of the parcel table, in the order of the parcel table; it has one
    row per parcel, in order, with the values of these fields; no other
    dataset changes. *)
Theorem requirements_table_created requirements w src :
  gdb w !! output_parcels_fc w = Some src ->
  parcel_id_field ∈ field_names src ->
  county_name_field ∈ field_names src ->
  gdb w !! output_requirements_table = None ->
  exists w' dst',
    create_requirements_table_dev_team requirements w = (w', inr tt) /\
    gdb w' = <[output_requirements_table := dst']> (gdb w) /\
    field_names dst'
    = [parcel_id_field; county_name_field]
      ++ filter (fun f => f ∈ values requirements) (field_names src) /\
    table_wf dst' /\
    Forall2 (fun r r' => forall f v, f ∈ field_names dst' ->
                                     cell (field_names src) r f = Some v ->
                                     cell (field_names dst') r' f = Some v)
            (rows src) (rows dst').
Proof.
  intros Hsrc Hpid Hcounty Hnone.
  unfold create_requirements_table_dev_team.
  rewrite (bind_ok get _ _ _ _ eq_refl).
  rewrite (bind_ok _ _ _ _ _ (local_existing_output_fields_run _ _ _ Hsrc)).
  unfold fields_to_keep_for.
  rewrite (bind_ok _ _ _ _ _ (fields_to_keep_absent _ _ _ _ _ Hnone)).
  set (keep := [parcel_id_field; county_name_field] ++ _).
  assert (Hall : Forall (fun f => f ∈ field_names src) keep).
  { unfold keep. apply Forall_app. split.
    - by repeat constructor.
    - rewrite Forall_forall. by intros f [_ ?]%list_elem_of_filter. }
  rewrite (bind_ok _ _ _ _ _ (FieldMappings_run _ src keep _ Hsrc Hall)).
  rewrite (bind_ok _ _ _ _ _ (Exists_false _ _ Hnone)). change (negb false) with true. cbv iota.
  rewrite (bind_ok _ _ _ _ _ (print_run _ _)).
  rewrite (TableToTable_run _ _ _ _ src) by done.
  destruct (created_table_facts src keep Hall) as (Hnames & Hwf & Hrows).
  eexists _, _. split; [reflexivity|]. split; [done|].
  split; [exact Hnames|]. split; [exact Hwf|].
  eapply Forall2_impl; [exact Hrows|]. intros r r' H f v Hf Hv.
  apply H; [by rewrite <- Hnames|done].
Qed.

(** The same for [create_exemptions_table_dev_team]: the columns are the
    parcel id, the county name, the exemption fields of the parcel table and
    [exemptions_count] last. *)
Theorem exemptions_table_created exemptions w src :
  gdb w !! output_parcels_fc w = Some src ->
  parcel_id_field ∈ field_names src ->
  county_name_field ∈ field_names src ->
  "exemptions_count" ∈ field_names src ->
  gdb w !! output_exemptions_table = None ->
  exists w' dst',
    create_exemptions_table_dev_team exemptions w = (w', inr tt) /\
    gdb w' = <[output_exemptions_table := dst']> (gdb w) /\
    field_names dst'
    = [parcel_id_field; county_name_field]
      ++ filter (fun f => f ∈ exemption_field_name <$> keys exemptions) (field_names src)
      ++ ["exemptions_count"] /\
    table_wf dst' /\
    Forall2 (fun r r' => forall f v, f ∈ field_names dst' ->
                                     cell (field_names src) r f = Some v ->
                                     cell (field_names dst') r' f = Some v)
            (rows src) (rows dst').
Proof.
  intros Hsrc Hpid Hcounty Hcount Hnone.
  unfold create_exemptions_table_dev_team.
  rewrite (bind_ok get _ _ _ _ eq_refl).
  rewrite (bind_ok _ _ _ _ _ (local_existing_output_fields_run _ _ _ Hsrc)).
  unfold fields_to_keep_for.
  rewrite (bind_ok _ _ _ _ _ (fields_to_keep_absent _ _ _ _ _ Hnone)).
  set (keep := ([parcel_id_field; county_name_field] ++ _) ++ ["exemptions_count"]).
  assert (Hall : Forall (fun f => f ∈ field_names src) keep).
  { unfold keep. apply Forall_app. split; [apply Forall_app; split|].
    - by repeat constructor.
    - rewrite Forall_forall. by intros f [_ ?]%list_elem_of_filter.
    - by repeat constructor. }
  rewrite (bind_ok _ _ _ _ _ (FieldMappings_run _ src keep _ Hsrc Hall)).
  rewrite (bind_ok _ _ _ _ _ (Exists_false _ _ Hnone)). change (negb false) with true. cbv iota.
  rewrite (bind_ok _ _ _ _ _ (print_run _ _)).
  rewrite (TableToTable_run _ _ _ _ src) by done.
  destruct (created_table_facts src keep Hall) as (Hnames & Hwf & Hrows).
  assert (Hkeep : keep = [parcel_id_field; county_name_field]
      ++ filter (fun f => f ∈ exemption_field_name <$> keys exemptions) (field_names src)
      ++ ["exemptions_count"]).
  { unfold keep. by rewrite <- app_assoc. }
  eexists _, _. split; [reflexivity|]. split; [done|].
  split; [by rewrite Hnames|]. split; [exact Hwf|].
  eapply Forall2_impl; [exact Hrows|]. intros r r' H f v Hf Hv.
  apply H; [by rewrite <- Hnames|done].
Qed.

(** ** The purge of a county's rows *)

Lemma last_all_equal {A} (l : list A) (a : A) :
  Forall (fun x => x = a) l -> l ≠ [] -> last l = Some a.
Proof.
  intros Hall Hne. destruct (last l) as [x|] eqn:Hl.
  - apply last_Some in Hl as [l' ->]. apply Forall_app in Hall as [_ Hx].
    apply Forall_cons in Hx as [-> _]. done.
  - apply last_None in Hl. done.
Qed.

Lemma cell_index names r f i : index f names = Some i -> cell names r f = r !! i.
Proof. intros Hi. unfold cell. by rewrite Hi. Qed.

Lemma cell_Some_index names r f v :
  cell names r f = Some v -> exists i, index f names = Some i /\ r !! i = Some v.
Proof.
  unfold cell. destruct (index f names) as [i|]; [|done]. simpl. eauto.
Qed.

Lemma filter_all {A} (P : A -> Prop) `{forall x, Decision (P x)} (l : list A) :
  (forall x, x ∈ l -> P x) -> filter P l = l.
Proof.
  induction l as [|x l IH]; intros Hall; [done|].
  rewrite filter_cons. rewrite decide_True by (apply Hall; by left).
  f_equal. apply IH. intros y Hy. apply Hall. by right.
Qed.

Lemma table_eta t : mkTable (fields t) (rows t) = t.
Proof. by destruct t. Qed.

(** The county name the purge reads from the parcel feature class. *)
Lemma county_name_read (src : table) (i j : nat) (c : value) :
  (exists r, r ∈ rows src /\ r !! i = Some (VInt 1)) ->
  Forall (fun r => r !! i = Some (VInt 1) -> r !! j = Some c) (rows src) ->
  last (omap (fun r => r !! j) (filter (fun r => r !! i = Some (VInt 1)) (rows src)))
  = Some c.
Proof.
  intros (r0 & Hr0 & H1) Hall. apply last_all_equal.
  - rewrite Forall_forall. intros x Hx.
    apply list_elem_of_omap in Hx as (r & Hr & Hx).
    apply list_elem_of_filter in Hr as [Hr1 Hr].
    rewrite Forall_forall in Hall. specialize (Hall r Hr Hr1). congruence.
  - intros Hnil.
    assert (Hin : c ∈ omap (fun r => r !! j)
                    (filter (fun r => r !! i = Some (VInt 1)) (rows src))).
    { apply list_elem_of_omap. exists r0. split.
      - by apply list_elem_of_filter.
      - rewrite Forall_forall in Hall. by apply Hall. }
    rewrite Hnil in Hin. by apply elem_of_nil in Hin.
Qed.

(** The run of [delete_county_rows_from_dev_table] on a parcel table whose
    first row gives the county [c]. *)
Lemma delete_county_rows_run fc table w src dev c :
  gdb w !! fc = Some src ->
  (exists r, r ∈ rows src /\ cell (field_names src) r "OBJECTID" = Some (VInt 1)) ->
  Forall (fun r => cell (field_names src) r "OBJECTID" = Some (VInt 1) ->
                   cell (field_names src) r county_name_field = Some (VStr c))
         (rows src) ->
  existsb (Ascii.eqb "'") (list_ascii_of_string c) = false ->
  gdb w !! table = Some dev ->
  county_name_field ∈ field_names dev ->
  exists w',
    delete_county_rows_from_dev_table fc table w = (w', inr tt) /\
    gdb w'
    = <[table := mkTable (fields dev)
                   (filter (fun r => cell (field_names dev) r county_name_field
                                     ≠ Some (VStr c)) (rows dev))]> (gdb w) /\
    same_globals w w'.
Proof.
  intros Hsrc Hfirst Hall Hquote Hdev Hcounty.
  destruct Hfirst as (r0 & Hr0 & Hr01).
  destruct (cell_Some_index _ _ _ _ Hr01) as (i & Hi & Hr0i).
  assert (Hr0c : cell (field_names src) r0 county_name_field = Some (VStr c)).
  { rewrite Forall_forall in Hall. by apply Hall. }
  destruct (cell_Some_index _ _ _ _ Hr0c) as (j & Hj & Hr0j).
  destruct (index_is_Some _ _ Hcounty) as [jd Hjd].
  assert (Hlast : last (omap (fun r => r !! j)
                          (filter (fun r => r !! i = Some (VInt 1)) (rows src)))
                  = Some (VStr c)).
  { apply county_name_read; [by exists r0|].
    eapply Forall_impl; [exact Hall|]. intros r Hr Hri. simpl in Hr.
    rewrite <- (cell_index _ _ _ _ Hj). apply Hr. by rewrite (cell_index _ _ _ _ Hi). }
  unfold delete_county_rows_from_dev_table.
  rewrite (bind_ok _ _ _ _ _ (open_table_Some _ _ _ _ Hsrc)).
  rewrite Hi. rewrite (bind_ok (ret _) _ w w _ eq_refl).
  rewrite Hj. rewrite (bind_ok (ret _) _ w w _ eq_refl).
  rewrite Hlast. rewrite (bind_ok (ret _) _ w w _ eq_refl).
  rewrite (bind_ok _ _ _ _ _ (print_run _ _)).
  set (w0 := set_stdout _ w).
  assert (Hdev0 : gdb w0 !! table = Some dev) by done.
  rewrite (bind_ok _ _ _ _ _ (open_table_Some _ _ _ _ Hdev0)).
  rewrite Hjd. simpl py_str. rewrite Hquote.
  rewrite (bind_ok (ret _) _ w0 w0 _ eq_refl).
  assert (Hfilter : filter (fun r => cell (field_names dev) r county_name_field
                                     ≠ Some (VStr c)) (rows dev)
                    = filter (fun r => r !! jd ≠ Some (VStr c)) (rows dev)).
  { apply list_filter_iff. intros r. by rewrite (cell_index _ _ _ _ Hjd). }
  rewrite Hfilter.
  case_bool_decide as Hcount.
  - rewrite (bind_ok _ _ _ _ _ (print_run _ _)).
    eexists. split; [reflexivity|]. split; [done|].
    eapply same_globals_trans; [apply same_globals_print|].
    eapply same_globals_trans; [apply same_globals_print|].
    apply same_globals_set_gdb.
  - exists w0. split; [done|]. split; [|apply same_globals_print].
    assert (Hnone : forall r, r ∈ rows dev -> r !! jd ≠ Some (VStr c)).
    { intros r Hr Heq. apply Hcount.
      match goal with |- (0 < length ?l)%nat =>
        assert (Hin : r ∈ l) by (by apply list_elem_of_filter);
        destruct l; [by apply elem_of_nil in Hin | simpl; lia]
      end. }
    assert (Hall' : filter (fun r => r !! jd ≠ Some (VStr c)) (rows dev) = rows dev).
    { by apply filter_all. }
    rewrite Hall', table_eta. simpl. by rewrite insert_id.
Qed.

(** After [delete_county_rows_from_dev_table] the table holds the rows of
    the other counties, in their order, and nothing else has changed: the
    county is the one read from the row of the parcel feature class whose
    OBJECTID is 1. *)
Theorem purge_removes_county_rows fc table w src dev c :
  gdb w !! fc = Some src ->
  (exists r, r ∈ rows src /\ cell (field_names src) r "OBJECTID" = Some (VInt 1)) ->
  Forall (fun r => cell (field_names src) r "OBJECTID" = Some (VInt 1) ->
                   cell (field_names src) r county_name_field = Some (VStr c))
         (rows src) ->
  existsb (Ascii.eqb "'") (list_ascii_of_string c) = false ->
  gdb w !! table = Some dev ->
  county_name_field ∈ field_names dev ->
  exists w',
    delete_county_rows_from_dev_table fc table w = (w', inr tt) /\
    gdb w'
    = <[table := mkTable (fields dev)
                   (filter (fun r => cell (field_names dev) r county_name_field
                                     ≠ Some (VStr c)) (rows dev))]> (gdb w) /\
    same_globals w w'.
Proof. exact (delete_county_rows_run fc table w src dev c). Qed.

(** The run of [delete_county_rows_from_dev_table] on a parcel table that
    has no row with OBJECTID 1. *)
Lemma delete_county_rows_unbound fc table w src :
  gdb w !! fc = Some src ->
  "OBJECTID" ∈ field_names src ->
  county_name_field ∈ field_names src ->
  Forall (fun r => cell (field_names src) r "OBJECTID" ≠ Some (VInt 1)) (rows src) ->
  delete_county_rows_from_dev_table fc table w
  = (w, inl (NameError "county_name_in_att_table")).
Proof.
  intros Hsrc Hoid Hcounty Hall.
  destruct (index_is_Some _ _ Hoid) as [i Hi].
  destruct (index_is_Some _ _ Hcounty) as [j Hj].
  unfold delete_county_rows_from_dev_table.
  rewrite (bind_ok _ _ _ _ _ (open_table_Some _ _ _ _ Hsrc)).
  rewrite Hi. rewrite (bind_ok (ret _) _ w w _ eq_refl).
  rewrite Hj. rewrite (bind_ok (ret _) _ w w _ eq_refl).
  assert (Hnil : filter (fun r => r !! i = Some (VInt 1)) (rows src) = []).
  { induction (rows src) as [|r rs IH]; [done|].
    apply Forall_cons in Hall as [Hr Hrs]. rewrite filter_cons.
    rewrite (cell_index _ _ _ _ Hi) in Hr. rewrite decide_False by done. by apply IH. }
  rewrite Hnil. simpl. done.
Qed.

(** A parcel feature class without a row whose OBJECTID is 1 (an empty one,
    for instance) leaves [county_name_in_att_table] unbound: the purge ends
    with [NameError] at its first [print], before the table is looked at. *)
Theorem purge_without_first_row fc table w src :
  gdb w !! fc = Some src ->
  "OBJECTID" ∈ field_names src ->
  county_name_field ∈ field_names src ->
  Forall (fun r => cell (field_names src) r "OBJECTID" ≠ Some (VInt 1)) (rows src) ->
  delete_county_rows_from_dev_table fc table w
  = (w, inl (NameError "county_name_in_att_table")).
Proof. exact (delete_county_rows_unbound fc table w src). Qed.

(** ** Purge and append, twice *)

Lemma foldl_ensure_present names : forall T,
  Forall (fun f => f ∈ field_names T) names -> foldl ensure_field T names = T.
Proof.
  induction names as [|n names IH]; intros T Hall; simpl; [done|].
  apply Forall_cons in Hall as [Hn Hall].
  assert (Heq : ensure_field T n = T).
  { unfold ensure_field. by rewrite bool_decide_eq_true_2. }
  rewrite Heq. by apply IH.
Qed.

Lemma purged_wf dev c : table_wf dev -> table_wf (purged dev c).
Proof.
  unfold table_wf, purged. simpl. intros H. rewrite Forall_forall in H |- *.
  intros r [_ Hr]%list_elem_of_filter. by apply H.
Qed.

Lemma purged_rows dev c r :
  r ∈ rows (purged dev c) ->
  r ∈ rows dev /\ cell (field_names dev) r county_name_field ≠ Some (VStr c).
Proof. unfold purged. simpl. intros [? ?]%list_elem_of_filter. done. Qed.

Lemma filter_none {A} (P : A -> Prop) `{forall x, Decision (P x)} (l : list A) :
  (forall x, x ∈ l -> ~ P x) -> filter P l = [].
Proof.
  induction l as [|x l IH]; intros Hall; [done|].
  rewrite filter_cons. rewrite decide_False by (apply Hall; by left).
  apply IH. intros y Hy. apply Hall. by right.
Qed.

(** Purging the county of [src] from a table to which the rows of [src] were
    appended after a purge, and appending them again, gives the same table. *)
Lemma appended_purged_fixpoint wanted keep src dst c :
  table_wf dst ->
  county_name_field ∈ field_names dst ->
  county_name_field ∈ keep ->
  Forall (fun r => cell (field_names src) r county_name_field = Some (VStr c)) (rows src) ->
  appended wanted keep src (purged (appended wanted keep src (purged dst c)) c)
  = appended wanted keep src (purged dst c).
Proof.
  intros Hwf Hcounty Hkeep Hsrc.
  set (names := filter (fun f => f ∈ wanted) (field_names src)).
  set (dst1 := foldl ensure_field (purged dst c) names).
  destruct (foldl_ensure_names_facts names (purged dst c) (purged_wf _ _ Hwf))
    as (Hwf1 & Hmono & _ & Hall & _ & Hrows).
  fold dst1 in Hwf1, Hmono, Hall, Hrows.
  assert (Hcounty1 : county_name_field ∈ field_names dst1) by (by apply Hmono).
  set (new := appended_row (field_names src) (field_names dst1) keep <$> rows src).
  assert (HT : appended wanted keep src (purged dst c)
               = mkTable (fields dst1) (rows dst1 ++ new)) by done.
  rewrite HT.
  (* the purge removes the appended rows and only them *)
  assert (Hold : forall r, r ∈ rows dst1 ->
                   cell (field_names dst1) r county_name_field ≠ Some (VStr c)).
  { intros r' Hr'. apply list_elem_of_lookup in Hr' as [k Hk].
    destruct (Forall2_lookup_r _ _ _ _ _ Hrows Hk) as (r & Hr & [Hkeepcell _]).
    apply list_elem_of_lookup_2 in Hr. apply purged_rows in Hr as [Hr Hne].
    destruct (index_is_Some _ _ Hcounty) as [j Hj].
    assert (Hlen : (j < length r)%nat).
    { apply index_Some_lt in Hj. unfold table_wf in Hwf. rewrite Forall_forall in Hwf.
      rewrite (Hwf r Hr). by rewrite <- length_field_names. }
    destruct (lookup_lt_is_Some_2 _ _ Hlen) as [v Hv].
    assert (Hcell : cell (field_names dst) r county_name_field = Some v).
    { by rewrite (cell_index _ _ _ _ Hj). }
    rewrite (Hkeepcell _ _ Hcell). congruence. }
  assert (Hnew : forall r, r ∈ new ->
                   cell (field_names dst1) r county_name_field = Some (VStr c)).
  { intros r' Hr'. unfold new in Hr'.
    apply list_elem_of_fmap in Hr' as (r & -> & Hr).
    apply appended_row_cell; [done|done|].
    rewrite Forall_forall in Hsrc. by apply Hsrc. }
  assert (Hpurged : purged (mkTable (fields dst1) (rows dst1 ++ new)) c = dst1).
  { unfold purged. simpl fields. simpl rows.
    change (field_names (mkTable (fields dst1) (rows dst1 ++ new)))
      with (field_names dst1).
    rewrite filter_app. rewrite (filter_all _ (rows dst1)) by exact Hold.
    rewrite (filter_none _ new).
    - rewrite app_nil_r. apply table_eta.
    - intros r Hr Hne. apply Hne. by apply Hnew. }
  rewrite Hpurged. unfold appended. fold names.
  rewrite (foldl_ensure_present names dst1).
  - done.
  - rewrite Forall_forall. intros f Hf. by apply Hall.
Qed.

Lemma purge_and_append_requirements_run requirements w src dst c :
  gdb w !! output_parcels_fc w = Some src ->
  output_parcels_fc w ≠ output_requirements_table ->
  (exists r, r ∈ rows src /\ cell (field_names src) r "OBJECTID" = Some (VInt 1)) ->
  Forall (fun r => cell (field_names src) r county_name_field = Some (VStr c)) (rows src) ->
  existsb (Ascii.eqb "'") (list_ascii_of_string c) = false ->
  parcel_id_field ∈ field_names src ->
  gdb w !! output_requirements_table = Some dst ->
  county_name_field ∈ field_names dst ->
  exists w',
    (delete_county_rows_from_dev_table (output_parcels_fc w) output_requirements_table ;;;
     create_requirements_table_dev_team requirements) w = (w', inr tt) /\
    gdb w'
    = <[output_requirements_table :=
          appended (values requirements) (kept_fields (values requirements) src) src
            (purged dst c)]>
        (<[scratch_ws +:+ os_sep +:+ "tmp_table_requirements" := src]> (gdb w)) /\
    same_globals w w'.
Proof.
  intros Hsrc Hne Hfirst Hall Hquote Hpid Hdst Hcounty.
  assert (Hcs : county_name_field ∈ field_names src).
  { destruct Hfirst as (r & Hr & _). rewrite Forall_forall in Hall.
    by eapply cell_Some_elem_of, Hall. }
  destruct (delete_county_rows_run (output_parcels_fc w) output_requirements_table
              w src dst c Hsrc Hfirst) as (w1 & Hrun1 & Hgdb1 & Hsame1); try done.
  { eapply Forall_impl; [exact Hall|]. by intros r Hr _. }
  fold (purged dst c) in Hgdb1.
  rewrite (bind_ok _ _ _ _ _ Hrun1).
  destruct Hsame1 as (Hfc1 & Hsame1).
  assert (Hsrc1 : gdb w1 !! output_parcels_fc w1 = Some src).
  { rewrite Hfc1, Hgdb1. by rewrite lookup_insert_ne. }
  assert (Hdst1 : gdb w1 !! output_requirements_table = Some (purged dst c)).
  { rewrite Hgdb1. by rewrite lookup_insert_eq. }
  destruct (create_requirements_table_append requirements w1 src (purged dst c)
              Hsrc1 Hpid Hcs Hdst1) as (w' & Hrun & Hgdb' & Hsame').
  { by rewrite Hfc1. }
  exists w'. split; [exact Hrun|]. split.
  - rewrite Hgdb', Hgdb1.
    rewrite (insert_insert_ne _ (scratch_ws +:+ os_sep +:+ "tmp_table_requirements"))
      by apply scratch_tables_ne.
    by rewrite insert_insert_eq.
  - eapply same_globals_trans; [|exact Hsame']. by split.
Qed.

Lemma appended_field_names_mono wanted keep src dst g :
  table_wf dst -> g ∈ field_names dst -> g ∈ field_names (appended wanted keep src dst).
Proof.
  intros Hwf Hg. unfold appended.
  destruct (foldl_ensure_names_facts (filter (fun f => f ∈ wanted) (field_names src))
              dst Hwf) as (_ & Hmono & _).
  by apply Hmono.
Qed.

Lemma appended_wf wanted keep src dst :
  table_wf dst -> table_wf (appended wanted keep src dst).
Proof.
  intros Hwf. unfold appended.
  destruct (foldl_ensure_names_facts (filter (fun f => f ∈ wanted) (field_names src))
              dst Hwf) as (Hwf1 & _).
  unfold table_wf in *. simpl in *. apply Forall_app. split; [done|].
  apply Forall_fmap. apply Forall_true. intros r. simpl.
  unfold appended_row. rewrite length_fmap. apply length_field_names.
Qed.

Lemma insert_twice_pair (g : gmap string table) a b x y :
  a ≠ b -> <[b := y]> (<[a := x]> (<[b := y]> (<[a := x]> g))) = <[b := y]> (<[a := x]> g).
Proof.
  intros Hne. rewrite (insert_insert_ne _ a b) by done.
  by rewrite !insert_insert_eq.
Qed.

(** The purge of the county's rows followed by
    [create_requirements_table_dev_team], run a second time on the same
    parcel table, leaves every dataset as the first run left it: the rows
    the first run appended are removed and appended again, and no column is
    added. *)
Theorem requirements_purge_append_idempotent requirements w src dst c :
  let purge_and_append :=
    delete_county_rows_from_dev_table (output_parcels_fc w) output_requirements_table ;;;
    create_requirements_table_dev_team requirements in
  gdb w !! output_parcels_fc w = Some src ->
  output_parcels_fc w ≠ output_requirements_table ->
  (exists r, r ∈ rows src /\ cell (field_names src) r "OBJECTID" = Some (VInt 1)) ->
  Forall (fun r => cell (field_names src) r county_name_field = Some (VStr c)) (rows src) ->
  existsb (Ascii.eqb "'") (list_ascii_of_string c) = false ->
  parcel_id_field ∈ field_names src ->
  gdb w !! output_requirements_table = Some dst ->
  table_wf dst ->
  county_name_field ∈ field_names dst ->
  exists w1 w2,
    purge_and_append w = (w1, inr tt) /\
    purge_and_append w1 = (w2, inr tt) /\
    gdb w2 = gdb w1.
Proof.
  intros run Hsrc Hne Hfirst Hall Hquote Hpid Hdst Hwf Hcounty.
  destruct (purge_and_append_requirements_run requirements w src dst c
              Hsrc Hne Hfirst Hall Hquote Hpid Hdst Hcounty)
    as (w1 & Hrun1 & Hgdb1 & Hfc1 & _).
  set (tmp := scratch_ws +:+ os_sep +:+ "tmp_table_requirements") in *.
  set (keep := kept_fields (values requirements) src) in *.
  set (T := appended (values requirements) keep src (purged dst c)) in *.
  assert (Hsrc1 : gdb w1 !! output_parcels_fc w1 = Some src).
  { rewrite Hfc1, Hgdb1. rewrite lookup_insert_ne by done.
    destruct (decide (tmp = output_parcels_fc w)) as [<-|Hn].
    - by rewrite lookup_insert_eq.
    - by rewrite lookup_insert_ne. }
  assert (Hdst1 : gdb w1 !! output_requirements_table = Some T).
  { rewrite Hgdb1. by rewrite lookup_insert_eq. }
  assert (HcT : county_name_field ∈ field_names T).
  { apply appended_field_names_mono; [by apply purged_wf|done]. }
  destruct (purge_and_append_requirements_run requirements w1 src T c)
    as (w2 & Hrun2 & Hgdb2 & _); try done.
  { by rewrite Hfc1. }
  rewrite Hfc1 in Hrun2.
  exists w1, w2. split; [exact Hrun1|]. split; [exact Hrun2|].
  rewrite Hgdb2. fold keep. unfold T.
  rewrite appended_purged_fixpoint; try done.
  - fold T. rewrite Hgdb1. apply insert_twice_pair. apply scratch_tables_ne.
  - unfold keep, kept_fields. apply elem_of_app. left.
    apply elem_of_cons. right. apply elem_of_cons. by left.
Qed.



(** ** The dev-team tables on the sample worlds *)

Lemma requirements_table_reconciled_witness :
  exists w' dst',
    create_requirements_table_dev_team Statewide.requirements later_run_world
    = (w', inr tt) /\
    gdb w' !! output_requirements_table = Some dst' /\
    reconciled (values Statewide.requirements) scenario_evaluated
      earlier_requirements_table dst'.
Proof.
  apply (requirements_table_reconciled Statewide.requirements later_run_world
           scenario_evaluated earlier_requirements_table).
  - vm_compute. reflexivity.
  - solve_elem.
  - solve_elem.
  - vm_compute. reflexivity.
  - solve_wf.
  - solve_elem.
Defined.

Lemma exemptions_table_reconciled_witness :
  exists w' dst',
    create_exemptions_table_dev_team scenario_exemptions later_run_world
    = (w', inr tt) /\
    gdb w' !! output_exemptions_table = Some dst' /\
    reconciled (exemption_field_name <$> keys scenario_exemptions) scenario_evaluated
      earlier_exemptions_table dst'.
Proof.
  apply (exemptions_table_reconciled scenario_exemptions later_run_world
           scenario_evaluated earlier_exemptions_table).
  - vm_compute. reflexivity.
  - solve_elem.
  - solve_elem.
  - solve_elem.
  - vm_compute. reflexivity.
  - solve_wf.
  - solve_elem.
Defined.

Lemma requirements_table_created_witness :
  exists w' dst',
    create_requirements_table_dev_team Statewide.requirements first_run_world
    = (w', inr tt) /\
    gdb w' = <[output_requirements_table := dst']> (gdb first_run_world) /\
    field_names dst'
    = [parcel_id_field; county_name_field]
      ++ filter (fun f => f ∈ values Statewide.requirements)
           (field_names scenario_evaluated) /\
    table_wf dst' /\
    Forall2 (fun r r' => forall f v, f ∈ field_names dst' ->
                                     cell (field_names scenario_evaluated) r f = Some v ->
                                     cell (field_names dst') r' f = Some v)
            (rows scenario_evaluated) (rows dst').
Proof.
  apply (requirements_table_created Statewide.requirements first_run_world
           scenario_evaluated).
  - vm_compute. reflexivity.
  - solve_elem.
  - solve_elem.
  - vm_compute. reflexivity.
Defined.

Lemma exemptions_table_created_witness :
  exists w' dst',
    create_exemptions_table_dev_team scenario_exemptions first_run_world
    = (w', inr tt) /\
    gdb w' = <[output_exemptions_table := dst']> (gdb first_run_world) /\
    field_names dst'
    = [parcel_id_field; county_name_field]
      ++ filter (fun f => f ∈ exemption_field_name <$> keys scenario_exemptions)
           (field_names scenario_evaluated)
      ++ ["exemptions_count"] /\
    table_wf dst' /\
    Forall2 (fun r r' => forall f v, f ∈ field_names dst' ->
                                     cell (field_names scenario_evaluated) r f = Some v ->
                                     cell (field_names dst') r' f = Some v)
            (rows scenario_evaluated) (rows dst').
Proof.
  apply (exemptions_table_created scenario_exemptions first_run_world scenario_evaluated).
  - vm_compute. reflexivity.
  - solve_elem.
  - solve_elem.
  - solve_elem.
  - vm_compute. reflexivity.
Defined.

Lemma purge_removes_county_rows_witness :
  exists w',
    delete_county_rows_from_dev_table scenario_fc output_requirements_table later_run_world
    = (w', inr tt) /\
    gdb w'
    = <[output_requirements_table :=
          mkTable (fields earlier_requirements_table)
            (filter (fun r => cell (field_names earlier_requirements_table) r
                                county_name_field ≠ Some (VStr "Yolo"))
                    (rows earlier_requirements_table))]> (gdb later_run_world) /\
    same_globals later_run_world w'.
Proof.
  apply (purge_removes_county_rows scenario_fc output_requirements_table later_run_world
           scenario_evaluated earlier_requirements_table "Yolo").
  - vm_compute. reflexivity.
  - eexists. split; [apply list_elem_of_here|reflexivity].
  - repeat (apply List.Forall_cons; [intros _; reflexivity|]). apply List.Forall_nil.
  - reflexivity.
  - vm_compute. reflexivity.
  - solve_elem.
Defined.

Lemma purge_without_first_row_witness :
  delete_county_rows_from_dev_table yolo_fc output_requirements_table no_parcels_world
  = (no_parcels_world, inl (NameError "county_name_in_att_table")).
Proof.
  apply (purge_without_first_row yolo_fc output_requirements_table no_parcels_world
           no_parcels).
  - vm_compute. reflexivity.
  - solve_elem.
  - solve_elem.
  - apply List.Forall_nil.
Defined.

Lemma requirements_purge_append_idempotent_witness :
  exists w1 w2,
    (delete_county_rows_from_dev_table (output_parcels_fc later_run_world)
       output_requirements_table ;;;
     create_requirements_table_dev_team Statewide.requirements) later_run_world
    = (w1, inr tt) /\
    (delete_county_rows_from_dev_table (output_parcels_fc later_run_world)
       output_requirements_table ;;;
     create_requirements_table_dev_team Statewide.requirements) w1
    = (w2, inr tt) /\
    gdb w2 = gdb w1.
Proof.
  apply (requirements_purge_append_idempotent Statewide.requirements later_run_world
           scenario_evaluated earlier_requirements_table "Yolo").
  - vm_compute. reflexivity.
  - solve_elem.
  - eexists. split; [apply list_elem_of_here|reflexivity].
  - solve_wf.
  - reflexivity.
  - solve_elem.
  - vm_compute. reflexivity.
  - solve_wf.
  - solve_elem.
Defined.


(** ** A county without parcels *)

(** On a parcel table without rows the exemption pass of lines 1006-1096
    never reaches a requirement: it runs to its end whatever the exemptions
    refer to, and only adds the count and exemption columns.  The purge that
    closes [calculate_exemptions] then ends with [NameError] when the
    exemptions table exists, and is skipped when it does not. *)
Theorem no_parcels_exemption_pass requirements exemptions es w t :
  gdb w !! output_parcels_fc w = Some t ->
  rows t = [] ->
  "OBJECTID" ∈ field_names t ->
  county_name_field ∈ field_names t ->
  output_parcels_fc w ≠ output_gdb_dev_team +:+ os_sep +:+ output_exemptions_table_name ->
  exists w1,
    update_exemption_fields requirements exemptions es w = (w1, inr tt) /\
    gdb w1 = <[output_parcels_fc w := cursor_table t es]> (gdb w) /\
    rows (cursor_table t es) = [] /\
    calculate_exemptions requirements exemptions es w
    = (w1, if bool_decide (is_Some (gdb w !! (output_gdb_dev_team +:+ os_sep
                                               +:+ output_exemptions_table_name)))
           then inl (NameError "county_name_in_att_table") else inr tt).
Proof.
  intros Ht Hrows Hoid Hcounty Hne.
  destruct (update_exemption_fields_run requirements exemptions es w t Ht)
    as (w0 & Hgdb0 & Hsame0 & Hrun).
  set (T := cursor_table t es) in *.
  assert (HrowsT : rows T = []).
  { pose proof (cursor_table_length t es) as Hlen. fold T in Hlen.
    rewrite Hrows in Hlen. by destruct (rows T). }
  assert (HT : gdb w0 !! output_parcels_fc w = Some T).
  { rewrite Hgdb0. by rewrite lookup_insert_eq. }
  rewrite (UpdateCursor_run _ _ T _ HT) in Hrun. rewrite HrowsT in Hrun.
  simpl in Hrun.
  set (w1 := set_stdout (stdout w0) (set_gdb <[output_parcels_fc w := mkTable (fields T) []]> w0))
    in Hrun.
  assert (Hgdb1 : gdb w1 = <[output_parcels_fc w := T]> (gdb w)).
  { simpl. rewrite Hgdb0, insert_insert_eq. f_equal.
    rewrite <- HrowsT. apply table_eta. }
  exists w1. split; [exact Hrun|]. split; [exact Hgdb1|]. split; [done|].
  unfold calculate_exemptions. rewrite (bind_ok _ _ _ _ _ Hrun).
  rewrite (bind_ok get _ _ _ _ eq_refl).
  rewrite (bind_ok _ _ _ _ _ (Exists_run _ _)).
  assert (Hsame : gdb w1 !! (output_gdb_dev_team +:+ os_sep +:+ output_exemptions_table_name)
                  = gdb w !! (output_gdb_dev_team +:+ os_sep +:+ output_exemptions_table_name)).
  { rewrite Hgdb1. by rewrite lookup_insert_ne. }
  rewrite Hsame. destruct (bool_decide _); [|done].
  assert (Hfc1 : output_parcels_fc w1 = output_parcels_fc w).
  { simpl. by destruct Hsame0. }
  rewrite Hfc1.
  assert (Hwf : table_wf t) by (unfold table_wf; rewrite Hrows; constructor).
  destruct (cursor_table_facts t es Hwf) as (_ & _ & _ & Hmono & _).
  fold T in Hmono.
  apply (delete_county_rows_unbound _ _ _ T).
  - rewrite Hgdb1. by rewrite lookup_insert_eq.
  - apply Hmono, Hoid.
  - apply Hmono, Hcounty.
  - rewrite HrowsT. constructor.
Qed.

(** ** The calls of the requirement pass *)

Lemma null_requirement_globals requirements m w w' res :
  null_requirement requirements m w = (w', res) ->
  calls w' = calls w /\ output_parcels_fc w' = output_parcels_fc w.
Proof.
  unfold null_requirement, dict_get, CalculateField_management, AddField_management,
    open_table, store.
  unfold bind, get, ret, raise, modify. intros H.
  repeat (case_match; simplify_eq; simpl in *); done.
Qed.

Lemma null_requirements_globals requirements M : forall w w' res,
  for_each M (null_requirement requirements) w = (w', res) ->
  calls w' = calls w /\ output_parcels_fc w' = output_parcels_fc w.
Proof.
  induction M as [|m M IH]; intros w w' res; simpl.
  - by intros [= <- _].
  - unfold bind at 1.
    destruct (null_requirement requirements m w) as [w1 [e|[]]] eqn:Hstep.
    + intros [= <- _]. by eapply null_requirement_globals.
    + intros Hrest. apply null_requirement_globals in Hstep as [Hc Hf].
      apply IH in Hrest as [Hc' Hf']. split; congruence.
Qed.


Lemma AddField_globals p f ty w w' res :
  AddField_management p f ty w = (w', res) ->
  calls w' = calls w /\ output_parcels_fc w' = output_parcels_fc w.
Proof.
  unfold AddField_management, open_table, store.
  unfold bind, get, ret, raise, modify. intros H.
  repeat (case_match; simplify_eq); done.
Qed.

Lemma do_command_calls collaborator q fc f w w' :
  do_command collaborator q fc f w = (w', inr tt) ->
  calls w'
  = calls w ++ (if bool_decide ("calc_requirement_" +:+ replace_char "." "_" q
                                ∈ RequirementFunctions)
                then [("calc_requirement_" +:+ replace_char "." "_" q, fc, f)] else []) /\
  output_parcels_fc w' = output_parcels_fc w.
Proof.
  unfold do_command. case_bool_decide as Hm.
  - unfold calc_requirement.
    rewrite (bind_ok (modify _) _ w _ tt eq_refl).
    set (w1 := set_calls _ w). intros H.
    apply bind_inv_ok in H as (w2 & t & Hopen & H).
    assert (w2 = w1) as ->.
    { unfold open_table, bind, get, ret, raise in Hopen.
      destruct (gdb w1 !! fc); by injection Hopen as <-. }
    destruct (index f (field_names t)); [|discriminate].
    injection H as <-. done.
  - intros [= <-]. simpl. by rewrite app_nil_r.
Qed.

Lemma process_requirement_calls requirements collaborator M rc count q w w' res :
  process_requirement requirements collaborator M rc count q w = (w', inr res) ->
  calls w' = calls w ++ option_list (dispatched requirements M (output_parcels_fc w) q) /\
  output_parcels_fc w' = output_parcels_fc w.
Proof.
  intros H. unfold process_requirement in H.
  rewrite (bind_ok _ _ _ _ _ (print_run _ _)) in H.
  set (w0 := set_stdout _ w) in H.
  unfold dispatched.
  destruct (dict_lookup requirements q) as [f|] eqn:Hf.
  2:{ rewrite (bind_err _ _ _ _ _ (dict_get_None _ _ _ Hf)) in H. discriminate. }
  rewrite (bind_ok _ _ _ _ _ (dict_get_Some _ _ _ _ Hf)) in H.
  rewrite (bind_ok get _ _ _ _ eq_refl) in H.
  change (output_parcels_fc w0) with (output_parcels_fc w) in H.
  apply bind_inv_ok in H as (w1 & [] & Hadd & H).
  assert (Hw1 : calls w1 = calls w /\ output_parcels_fc w1 = output_parcels_fc w).
  { destruct (bool_decide (f ∉ existing_output_fields w0)).
    - rewrite (bind_ok _ _ _ _ _ (print_run _ _)) in Hadd.
      by apply AddField_globals in Hadd.
    - by injection Hadd as <-. }
  destruct Hw1 as [Hc1 Hf1]. clear Hadd.
  apply bind_inv_ok in H as (w2 & [] & Hdo & Hret).
  injection Hret as <- _. simpl.
  case_bool_decide as Hq.
  - rewrite (bind_ok _ _ _ _ _ (print_run _ _)) in Hdo.
    apply do_command_calls in Hdo as [Hc2 Hf2].
    unfold set_stdout in Hc2, Hf2. cbn [calls output_parcels_fc] in Hc2, Hf2.
    rewrite Hc2, Hc1, Hf2, Hf1. split; [|done]. f_equal.
    case_bool_decide as Hm.
    + by rewrite bool_decide_eq_true_2.
    + rewrite bool_decide_eq_false_2; [done|]. by intros [_ ?].
  - injection Hdo as <-. simpl. rewrite Hc1, Hf1.
    rewrite bool_decide_eq_false_2; [by rewrite app_nil_r|]. by intros [? _].
Qed.

Lemma process_requirements_calls requirements collaborator M rc rtp :
  forall count w w' res,
  for_fold rtp count (process_requirement requirements collaborator M rc) w
  = (w', inr res) ->
  calls w' = calls w ++ omap (dispatched requirements M (output_parcels_fc w)) rtp /\
  output_parcels_fc w' = output_parcels_fc w.
Proof.
  induction rtp as [|q rtp IH]; intros count w w' res H; simpl in H.
  - injection H as <- _. simpl. by rewrite app_nil_r.
  - apply bind_inv_ok in H as (w1 & count1 & Hstep & Hrest).
    apply process_requirement_calls in Hstep as [Hc1 Hf1].
    apply IH in Hrest as [Hc Hf]. rewrite Hf1 in Hc. split; [|congruence].
    rewrite Hc, Hc1. simpl omap.
    destruct (dispatched requirements M (output_parcels_fc w) q); simpl.
    + by rewrite <- app_assoc.
    + by rewrite app_nil_r.
Qed.

(** The collaborator calls of a requirement pass that runs to its end are,
    in the order of the requirements to process, one call for each of them
    that is not listed as without data for the county (or for ALL_COUNTIES)
    and has a method, with the field the registry gives it as target. *)
Theorem collaborator_calls_of_pass requirements requirements_with_no_data collaborator
    requirements_to_process w w' :
  calculate_requirements requirements requirements_with_no_data collaborator
    requirements_to_process w = (w', inr tt) ->
  exists this_county all_counties,
    dict_lookup requirements_with_no_data (county_name_of (output_parcels_fc w))
    = Some this_county /\
    dict_lookup requirements_with_no_data "ALL_COUNTIES" = Some all_counties /\
    calls w'
    = calls w ++ omap (dispatched requirements (this_county ++ all_counties)
                         (output_parcels_fc w)) requirements_to_process.
Proof.
  intros Hrun. unfold calculate_requirements in Hrun.
  rewrite (bind_ok get _ _ _ _ eq_refl) in Hrun.
  destruct (dict_lookup requirements_with_no_data (county_name_of (output_parcels_fc w)))
    as [this_county|] eqn:Hthis.
  2:{ rewrite (bind_err _ _ _ _ _ (dict_get_None _ _ _ Hthis)) in Hrun. discriminate. }
  rewrite (bind_ok _ _ _ _ _ (dict_get_Some _ _ _ _ Hthis)) in Hrun.
  destruct (dict_lookup requirements_with_no_data "ALL_COUNTIES")
    as [all_counties|] eqn:Hall.
  2:{ rewrite (bind_err _ _ _ _ _ (dict_get_None _ _ _ Hall)) in Hrun. discriminate. }
  rewrite (bind_ok _ _ _ _ _ (dict_get_Some _ _ _ _ Hall)) in Hrun.
  exists this_county, all_counties. split; [done|]. split; [done|].
  apply bind_inv_ok in Hrun as (w1 & [] & Hnull & Hrun).
  apply null_requirements_globals in Hnull as [Hc1 Hf1].
  apply bind_inv_ok in Hrun as (w2 & count & Hloop & Hrun).
  apply process_requirements_calls in Hloop as [Hc2 Hf2].
  assert (Hend : calls w' = calls w2).
  { rewrite (bind_ok _ _ _ _ _ (Exists_run _ _)) in Hrun.
    rewrite (bind_ok get _ _ _ _ eq_refl) in Hrun.
    destruct (bool_decide _).
    - by apply delete_county_rows_frame in Hrun as [_ (_ & _ & Hc & _)].
    - by injection Hrun as <-. }
  rewrite Hend, Hc2, Hc1, Hf1. done.
Qed.

(** ** What the exemption pass writes *)

Lemma requirement_cell_transfer requirements uc1 uc2 r1 r2 id v :
  (forall f w, dict_lookup requirements id = Some f ->
               cell uc2 r2 f = Some w -> cell uc1 r1 f = Some w) ->
  requirement_cell requirements uc2 r2 id = Some v ->
  requirement_cell requirements uc1 r1 id = Some v.
Proof.
  unfold requirement_cell. intros H.
  destruct (dict_lookup requirements id) as [f|]; simpl; [|done]. by apply H.
Qed.

Lemma clause_cell_transfer requirements uc1 uc2 r1 r2 cl u :
  (forall id f w, id ∈ clause_ids cl -> dict_lookup requirements id = Some f ->
                  cell uc2 r2 f = Some w -> cell uc1 r1 f = Some w) ->
  clause_cell requirements uc2 r2 cl = Some u ->
  clause_cell requirements uc1 r1 cl = Some u.
Proof.
  destruct cl as [id|ids]; simpl; intros H.
  - apply requirement_cell_transfer. intros f w. apply H. by left.
  - intros Hu. apply fmap_Some in Hu as (vs & Hvs & ->).
    apply fmap_Some. exists vs. split; [|done].
    apply mapM_Some in Hvs. apply mapM_Some.
    apply Forall2_same_length_lookup. split; [by eapply Forall2_length|].
    intros i id v Hid Hv.
    destruct (Forall2_lookup_l _ _ _ _ _ Hvs Hid) as (v' & Hv' & Hcell).
    assert (v' = v) as -> by congruence.
    eapply requirement_cell_transfer; [|exact Hcell].
    intros f w. apply H. by eapply list_elem_of_lookup_2.
Qed.

Lemma clauses_transfer requirements uc1 uc2 r1 r2 cls us :
  (forall id f w, id ∈ referenced_ids cls -> dict_lookup requirements id = Some f ->
                  cell uc2 r2 f = Some w -> cell uc1 r1 f = Some w) ->
  Forall2 (fun cl u => clause_cell requirements uc2 r2 cl = Some u) cls us ->
  Forall2 (fun cl u => clause_cell requirements uc1 r1 cl = Some u) cls us.
Proof.
  intros H Hall. unfold referenced_ids in H.
  induction Hall as [|cl u cls us Hcl Hall IH]; [constructor|].
  constructor.
  - eapply clause_cell_transfer; [|exact Hcl].
    intros id f w Hid. apply H. simpl. apply elem_of_app. by left.
  - apply IH. intros id f w Hid. apply H. simpl. apply elem_of_app. by right.
Qed.

(** The row the loop over the exemptions leaves: the cells outside the
    exemption columns and the count are those of the row it started from,
    and each exemption column holds the status of the clause values read
    from that row. *)
Lemma calculate_exemptions_fold_cells requirements exemptions uc ic es :
  index "exemptions_count" uc = Some ic ->
  Forall (exemption_ready requirements exemptions uc) es ->
  NoDup (exemption_field_name <$> es) ->
  (forall e cls id f,
     e ∈ es -> dict_lookup exemptions e = Some cls -> id ∈ referenced_ids cls ->
     dict_lookup requirements id = Some f ->
     f ≠ "exemptions_count" /\ (f ∉ exemption_field_name <$> es)) ->
  forall c n c' res,
    length (row c) = length uc ->
    for_fold es (VInt n) (calculate_exemption requirements exemptions uc) c
    = (c', inr res) ->
    length (row c') = length uc /\
    (forall g, g ∉ exemption_field_name <$> es -> g ≠ "exemptions_count" ->
               cell uc (row c') g = cell uc (row c) g) /\
    (forall e cls, e ∈ es -> dict_lookup exemptions e = Some cls ->
       exists us,
         Forall2 (fun cl u => clause_cell requirements uc (row c) cl = Some u) cls us /\
         cell uc (row c') (exemption_field_name e) = Some (status_of us)).
Proof.
  intros Hic. induction 1 as [|e es (cls & He & Hreg & HE) Hes IH];
    intros Hnd Hdisj c n c' res Hlen Hrun.
  - simpl in Hrun. injection Hrun as <- _. split; [done|]. split; [done|].
    intros e cls He. by apply elem_of_nil in He.
  - simpl in Hnd. apply NoDup_cons in Hnd as [Hfresh Hnd].
    destruct (index_is_Some _ _ HE) as [ie Hie].
    assert (HicE : ic ≠ ie).
    { intros <-. apply (exemption_field_name_not_count e).
      by apply (index_inj _ _ uc ic). }
    simpl for_fold in Hrun.
    apply bind_inv_ok in Hrun as (c1 & v1 & Hstep & Hrest).
    destruct (calculate_exemption_run requirements exemptions uc n e cls c ie ic
                He Hreg Hie Hic Hlen)
      as [(us & Hus & Hrun1) | (id & f & _ & _ & _ & Hrun1)];
      [|rewrite Hrun1 in Hstep; discriminate].
    simpl in Hrun1. rewrite Hrun1 in Hstep. injection Hstep as <- <-.
    set (status := status_of us) in *.
    set (n1 := if bool_decide (status = VInt 1) then n + 1 else n) in *.
    set (r1 := <[ic := VInt n1]> (<[ie := status]> (row c))) in *.
    assert (Hlen1 : length r1 = length uc).
    { unfold r1. by rewrite !length_insert. }
    assert (Hkeep1 : forall g, g ≠ exemption_field_name e -> g ≠ "exemptions_count" ->
                       cell uc r1 g = cell uc (row c) g).
    { intros g Hg1 Hg2. unfold r1.
      rewrite (cell_insert_ne _ _ "exemptions_count" g ic) by done.
      by rewrite (cell_insert_ne _ _ (exemption_field_name e) g ie) by done. }
    assert (HcellE : cell uc r1 (exemption_field_name e) = Some status).
    { unfold r1.
      rewrite (cell_insert_ne _ _ "exemptions_count" _ ic);
        [|done|apply exemption_field_name_not_count].
      apply cell_insert_eq; [done|]. apply index_Some_lt in Hie. lia. }
    destruct (IH Hnd) with (c := mkCursor r1 (console c)) (n := n1) (c' := c') (res := res)
      as (Hlen' & Hkeep' & Hstat'); [|done|done|].
    { intros e' cls' id f He' Hcls' Hid Hf.
      destruct (Hdisj e' cls' id f) as [Hf1 Hf2]; [by right|done|done|done|].
      split; [done|]. intros Hin. apply Hf2. simpl. by right. }
    simpl row in *. split; [done|]. split; [|].
    + intros g Hg1 Hg2. rewrite Hkeep'; [|by intros ?; apply Hg1; simpl; right|done].
      apply Hkeep1; [|done]. intros ->. apply Hg1. simpl. by left.
    + intros e' cls' He' Hcls'. apply elem_of_cons in He' as [->|He'].
      * assert (cls' = cls) as -> by congruence.
        exists us. split; [done|]. rewrite Hkeep'; [done|done|].
        apply exemption_field_name_not_count.
      * destruct (Hstat' e' cls' He' Hcls') as (us' & Hus' & Hcell').
        exists us'. split; [|done].
        eapply clauses_transfer; [|exact Hus'].
        intros id f w Hid Hf Hw.
        destruct (Hdisj e' cls' id f) as [Hf1 Hf2]; [by right|done|done|done|].
        rewrite <- Hkeep1; [done| |done].
        intros ->. apply Hf2. simpl. by left.
Qed.

Lemma cursor_table_foldl t es :
  cursor_table t es = foldl ensure_field (reset_count t) (exemption_field_name <$> es).
Proof.
  unfold cursor_table. generalize (reset_count t).
  induction es as [|e es IH]; intros T; simpl; [done|]. apply IH.
Qed.

Lemma reset_count_rows t :
  table_wf t ->
  Forall2 (fun r r1 => forall g v, g ≠ "exemptions_count" ->
                         cell (field_names t) r g = Some v ->
                         cell (field_names (reset_count t)) r1 g = Some v)
          (rows t) (rows (reset_count t)).
Proof.
  intros Hwf. rewrite field_names_reset_count. unfold reset_count.
  pose proof (ensure_field_rows t "exemptions_count" Hwf) as Hrows.
  destruct (index_is_Some _ _ (ensure_field_elem_of t "exemptions_count")) as [i Hi].
  rewrite Hi. simpl. apply Forall2_fmap_r.
  eapply Forall2_impl; [exact Hrows|]. intros r r1 [Hkeep _] g v Hg Hv. simpl.
  rewrite (cell_insert_ne _ _ "exemptions_count" g i) by done. by apply Hkeep.
Qed.

Lemma cursor_table_rows t es :
  table_wf t ->
  Forall2 (fun r rT => forall g v, g ≠ "exemptions_count" ->
                         cell (field_names t) r g = Some v ->
                         cell (field_names (cursor_table t es)) rT g = Some v)
          (rows t) (rows (cursor_table t es)).
Proof.
  intros Hwf. rewrite cursor_table_foldl.
  destruct (foldl_ensure_names_facts (exemption_field_name <$> es) (reset_count t)
              (reset_count_wf t Hwf)) as (_ & _ & _ & _ & _ & Hrows).
  eapply Forall2_trans; [|apply (reset_count_rows t Hwf)|exact Hrows].
  intros r r1 rT H1 [H2 _] g v Hg Hv. by apply H2, H1.
Qed.

Lemma cursor_loop_rel body (P : list value -> Prop) (Q : list value -> list value -> Prop)
    rs out :
  (forall r o, P r -> exists r', body (mkCursor r o) = (mkCursor r' o, inr tt) /\ Q r r') ->
  Forall P rs ->
  exists rs', cursor_loop body rs out = (rs', out, inr tt) /\ Forall2 Q rs rs'.
Proof.
  intros Hbody. induction 1 as [|r rs Hr Hrs (rs' & Hloop & HQ)]; simpl.
  - by exists [].
  - destruct (Hbody r out Hr) as (r' & -> & Hq). simpl. rewrite Hloop.
    exists (r' :: rs'). split; [done|]. by constructor.
Qed.

Lemma cell_wf_is_Some t r g :
  table_wf t -> r ∈ rows t -> g ∈ field_names t ->
  exists v, cell (field_names t) r g = Some v.
Proof.
  intros Hwf Hr Hg. destruct (index_is_Some _ _ Hg) as [i Hi].
  rewrite (cell_index _ _ _ _ Hi). apply lookup_lt_is_Some_2.
  unfold table_wf in Hwf. rewrite Forall_forall in Hwf. rewrite (Hwf r Hr).
  apply index_Some_lt in Hi. by rewrite <- length_field_names.
Qed.

(** The table the exemption pass of lines 1006-1096 leaves, row by row: the
    cells outside the exemption columns and [exemptions_count] are those of
    the parcel table before the pass, and the column of every exemption
    holds the status (1, 0 or <null>) of its clause values, the clauses
    being read from the requirement fields of the same parcel.  The
    requirement fields referred to are fields of the parcel table, and none
    of them is [exemptions_count] or an exemption column. *)
Theorem exemption_pass_cells requirements exemptions es w t :
  gdb w !! output_parcels_fc w = Some t ->
  table_wf t ->
  Forall (fun e => exists cls,
            dict_lookup exemptions e = Some cls /\
            Forall (fun id => exists f, dict_lookup requirements id = Some f /\
                                        f ∈ field_names t) (referenced_ids cls)) es ->
  NoDup (exemption_field_name <$> es) ->
  (forall e cls id f,
     e ∈ es -> dict_lookup exemptions e = Some cls -> id ∈ referenced_ids cls ->
     dict_lookup requirements id = Some f ->
     f ≠ "exemptions_count" /\ (f ∉ exemption_field_name <$> es)) ->
  exists w1 t',
    update_exemption_fields requirements exemptions es w = (w1, inr tt) /\
    gdb w1 !! output_parcels_fc w = Some t' /\
    Forall2
      (fun r r' =>
         (forall g v, g ∉ exemption_field_name <$> es -> g ≠ "exemptions_count" ->
                      cell (field_names t) r g = Some v ->
                      cell (field_names t') r' g = Some v) /\
         (forall e cls, e ∈ es -> dict_lookup exemptions e = Some cls ->
            exists us,
              Forall2 (fun cl u => clause_cell requirements (field_names t) r cl = Some u)
                      cls us /\
              cell (field_names t') r' (exemption_field_name e) = Some (status_of us)))
      (rows t) (rows t').
Proof.
  intros Ht Hwf Hall Hnd Hdisj.
  destruct (update_exemption_fields_run requirements exemptions es w t Ht)
    as (w0 & Hgdb0 & Hsame0 & Hrun).
  set (T := cursor_table t es) in *.
  destruct (cursor_table_facts t es Hwf) as (HwfT & Hcount & _ & _ & _ & Hzero).
  fold T in HwfT, Hcount, Hzero.
  destruct (ready_of_present requirements exemptions t es Hwf Hall) as [Hready Hpres].
  fold T in Hready, Hpres.
  destruct (index_is_Some _ _ Hcount) as [ic Hic].
  assert (HT : gdb w0 !! output_parcels_fc w = Some T).
  { rewrite Hgdb0. by rewrite lookup_insert_eq. }
  rewrite (UpdateCursor_run _ _ T _ HT) in Hrun.
  destruct (cursor_loop_rel
              (calculate_exemptions_row requirements exemptions es (field_names T))
              (fun r => length r = length (field_names T) /\
                        cell (field_names T) r "exemptions_count" = Some (VInt 0))
              (fun rT r' =>
                 (forall g, g ∉ exemption_field_name <$> es -> g ≠ "exemptions_count" ->
                            cell (field_names T) r' g = cell (field_names T) rT g) /\
                 (forall e cls, e ∈ es -> dict_lookup exemptions e = Some cls ->
                    exists us,
                      Forall2 (fun cl u => clause_cell requirements (field_names T) rT cl
                                           = Some u) cls us /\
                      cell (field_names T) r' (exemption_field_name e)
                      = Some (status_of us)))
              (rows T) (stdout w0)) as (rs' & Hloop & HQ).
  { intros r o [Hlenr Hcell].
    destruct (calculate_exemptions_row_run requirements exemptions es (field_names T)
                (mkCursor r o) Hcount Hready Hnd Hlenr Hcell)
      as [(r' & Hr' & _) | (r' & e & cls & id & f & He & Hcls & Hid & Hf & Hnin & _)].
    - exists r'. split; [exact Hr'|].
      unfold calculate_exemptions_row in Hr'.
      apply bind_inv_ok in Hr' as (c0 & v0 & Hget & Hr').
      rewrite get_cell_run, Hic in Hget. simpl in Hget.
      rewrite (cell_index _ _ _ _ Hic) in Hcell. simpl in Hcell. rewrite Hcell in Hget.
      injection Hget as <- <-.
      apply bind_inv_ok in Hr' as (c1 & v1 & Hfold & Hret).
      injection Hret as ->.
      destruct (calculate_exemptions_fold_cells requirements exemptions (field_names T)
                  ic es Hic Hready Hnd Hdisj (mkCursor r o) _ _ _ Hlenr Hfold)
        as (_ & Hk & Hs).
      simpl in Hk, Hs. done.
    - destruct Hnin. by eapply Hpres. }
  { unfold table_wf in HwfT. rewrite Forall_forall in HwfT, Hzero |- *.
    intros r Hr. split; [|by apply Hzero].
    rewrite length_field_names. by apply HwfT. }
  rewrite Hloop in Hrun.
  eexists _, (mkTable (fields T) rs'). split; [exact Hrun|].
  split; [by simpl; rewrite lookup_insert_eq|].
  change (field_names (mkTable (fields T) rs')) with (field_names T). simpl rows.
  pose proof (cursor_table_rows t es Hwf) as Hrows. fold T in Hrows.
  apply Forall2_same_length_lookup. split.
  { rewrite (Forall2_length _ _ _ Hrows). by eapply Forall2_length. }
  intros k r r' Hr Hr'.
  destruct (Forall2_lookup_l _ _ _ _ _ Hrows Hr) as (rT & HrT & Hkeep0).
  destruct (Forall2_lookup_l _ _ _ _ _ HQ HrT) as (r'' & Hr'' & Hk & Hs).
  assert (r'' = r') as -> by congruence.
  split.
  - intros g v Hg1 Hg2 Hv. rewrite Hk by done. by apply Hkeep0.
  - intros e cls He Hcls. destruct (Hs e cls He Hcls) as (us & Hus & Hcell).
    exists us. split; [|done].
    eapply clauses_transfer; [|exact Hus].
    intros id f v Hid Hf Hv.
    destruct (Hdisj e cls id f He Hcls Hid Hf) as [Hf1 Hf2].
    assert (Hft : f ∈ field_names t).
    { rewrite Forall_forall in Hall. destruct (Hall e He) as (cls' & Hcls' & Hids).
      assert (cls' = cls) as -> by congruence.
      rewrite Forall_forall in Hids. destruct (Hids id Hid) as (f' & Hf' & Hin).
      congruence. }
    destruct (cell_wf_is_Some t r f Hwf) as [v0 Hv0]; [by eapply list_elem_of_lookup_2|done|].
    rewrite (Hkeep0 f v0 Hf1 Hv0) in Hv. congruence.
Qed.

(** ** The county key of a feature class *)

Lemma is_sep_lower_ascii c : is_sep (lower_ascii c) = is_sep c.
Proof. destruct c as [[] [] [] [] [] [] [] []]; reflexivity. Qed.

Lemma underscore_lower_ascii c : Ascii.eqb (lower_ascii c) "_" = Ascii.eqb c "_".
Proof. destruct c as [[] [] [] [] [] [] [] []]; reflexivity. Qed.

Lemma lower_ascii_idemp c : lower_ascii (lower_ascii c) = lower_ascii c.
Proof. destruct c as [[] [] [] [] [] [] [] []]; reflexivity. Qed.

Lemma has_sep_lower s : has_sep (lower s) = has_sep s.
Proof.
  induction s as [|c s IH]; simpl; [done|]. by rewrite is_sep_lower_ascii, IH.
Qed.

Lemma has_sep_app a b : has_sep (a +:+ b) = has_sep a || has_sep b.
Proof.
  induction a as [|c a IH]; simpl; [done|]. by rewrite IH, orb_assoc.
Qed.

Lemma lower_idemp s : lower (lower s) = lower s.
Proof.
  induction s as [|c s IH]; simpl; [done|]. by rewrite lower_ascii_idemp, IH.
Qed.

Lemma first_token_lower s : first_token "_" (lower s) = lower (first_token "_" s).
Proof.
  induction s as [|c s IH]; simpl; [done|].
  rewrite underscore_lower_ascii. destruct (Ascii.eqb c "_"); simpl; [done|].
  by rewrite IH.
Qed.

Lemma first_token_app sep a b :
  first_token sep (a +:+ String sep b) = first_token sep a.
Proof.
  induction a as [|c a IH]; simpl.
  - by rewrite Ascii.eqb_refl.
  - destruct (Ascii.eqb c sep); [done|]. by rewrite IH.
Qed.

Lemma basename_app dir rest :
  has_sep rest = false -> basename (dir +:+ String "\" rest) = rest.
Proof.
  intros Hrest. induction dir as [|c dir IH]; simpl.
  - by rewrite Hrest.
  - rewrite has_sep_app. simpl. by rewrite orb_true_r.
Qed.

(** ** The copies the main loop makes *)

Lemma copy_parcels_fc_inv input out w w' :
  copy_parcels_fc input out w = (w', inr tt) ->
  exists t t',
    gdb w !! input = Some t /\
    Forall (fun f => f ∈ field_names t) original_fields_to_keep /\
    t' = mkTable (mkField "OBJECTID" "OID" :: (field_of t <$> original_fields_to_keep))
           (imap (fun k r => VInt (Z.of_nat k + 1)
                             :: project (field_names t) original_fields_to_keep r)
                 (rows t)) /\
    gdb w' = <[out := t']> (gdb w) /\
    output_parcels_fc w' = output_parcels_fc w /\
    existing_output_fields w' = existing_output_fields w /\
    calls w' = calls w.
Proof.
  unfold copy_parcels_fc. intros H.
  rewrite (bind_ok _ _ _ _ _ (print_run _ _)) in H.
  rewrite (bind_ok _ _ _ _ _ (print_run _ _)) in H.
  rewrite (bind_ok _ _ _ _ _ (print_run _ _)) in H.
  set (w0 := set_stdout _ (set_stdout _ (set_stdout _ w))) in H.
  apply bind_inv_ok in H as (w1 & mapS & Hmap & H).
  unfold FieldMappings in Hmap.
  apply bind_inv_ok in Hmap as (w2 & t & Hopen & Hmap).
  unfold open_table in Hopen. rewrite (bind_ok get _ _ _ _ eq_refl) in Hopen.
  destruct (gdb w0 !! input) as [t0|] eqn:Ht; [|discriminate].
  injection Hopen as <- <-.
  destruct (forallb _ original_fields_to_keep) eqn:Hall; [|discriminate].
  injection Hmap as <- <-.
  unfold FeatureClassToFeatureClass_conversion in H.
  rewrite (bind_ok _ _ _ _ _ (open_table_Some _ _ _ _ Ht)) in H.
  injection H as <-.
  exists t0. eexists. split; [exact Ht|]. split.
  { rewrite Forall_forall. intros f Hf. apply list_elem_of_In in Hf.
    rewrite forallb_forall in Hall. specialize (Hall f Hf).
    by apply bool_decide_eq_true in Hall. }
  split; [reflexivity|]. by repeat split.
Qed.

(** [copy_parcels_fc] on an input that has every field of
    [original_fields_to_keep] runs to its end and stores the copy under the
    output path: each of these fields is a field of the copy, and the copy
    has one row per parcel, in the order of the input, with the parcel's
    values of these fields.  Nothing is said of the other fields of the
    copy. *)
Theorem copy_parcels_fc_fields input out w t :
  gdb w !! input = Some t ->
  Forall (fun f => f ∈ field_names t) original_fields_to_keep ->
  exists w' t',
    copy_parcels_fc input out w = (w', inr tt) /\
    gdb w' = <[out := t']> (gdb w) /\
    Forall (fun f => f ∈ field_names t') original_fields_to_keep /\
    Forall2 (fun r r' => forall f v, f ∈ original_fields_to_keep ->
                                     cell (field_names t) r f = Some v ->
                                     cell (field_names t') r' f = Some v)
            (rows t) (rows t').
Proof.
  intros Ht Hall. unfold copy_parcels_fc.
  rewrite (bind_ok _ _ _ _ _ (print_run _ _)).
  rewrite (bind_ok _ _ _ _ _ (print_run _ _)).
  rewrite (bind_ok _ _ _ _ _ (print_run _ _)).
  set (w0 := set_stdout _ (set_stdout _ (set_stdout _ w))).
  assert (Ht0 : gdb w0 !! input = Some t) by done.
  rewrite (bind_ok _ _ _ _ _ (FieldMappings_run _ t _ _ Ht0 Hall)).
  unfold FeatureClassToFeatureClass_conversion.
  rewrite (bind_ok _ _ _ _ _ (open_table_Some _ _ _ _ Ht0)).
  eexists _, _. split; [reflexivity|]. split; [done|].
  assert (Hnames : field_name <$> (field_of t <$> original_fields_to_keep)
                   = original_fields_to_keep) by (by apply field_names_projection).
  assert (Hnames' : forall rs,
            field_names (mkTable (mkField "OBJECTID" "OID"
                                    :: (field_of t <$> original_fields_to_keep)) rs)
            = "OBJECTID" :: original_fields_to_keep).
  { intros rs. unfold field_names. cbn [fields]. rewrite fmap_cons. by rewrite Hnames. }
  rewrite Hnames'. split.
  { apply Forall_forall. intros f Hf. by right. }
  cbn [rows].
  apply Forall2_same_length_lookup. split; [by rewrite length_imap|].
  intros k r r' Hr Hr'. rewrite list_lookup_imap, Hr in Hr'. simpl in Hr'.
  injection Hr' as <-. intros f v Hf Hv.
  assert (Hne : f ≠ "OBJECTID").
  { intros ->. revert Hf. solve_elem. }
  unfold cell. cbn [index]. rewrite decide_False by done.
  destruct (index_is_Some _ _ Hf) as [i Hi]. rewrite Hi. simpl.
  pose proof (project_cell (field_names t) original_fields_to_keep r f v Hf Hv) as Hp.
  unfold cell in Hp. rewrite Hi in Hp. exact Hp.
Qed.

Lemma copy_if_absent msg input out w w' :
  (if negb (bool_decide (is_Some (gdb w !! out)))
   then print msg ;;; copy_parcels_fc input out
   else ret tt) w = (w', inr tt) ->
  (forall p x, gdb w !! p = Some x -> gdb w' !! p = Some x) /\
  is_Some (gdb w' !! out) /\
  output_parcels_fc w' = output_parcels_fc w /\
  calls w' = calls w.
Proof.
  case_bool_decide as He; simpl.
  - intros [= <-]. done.
  - rewrite (bind_ok _ _ _ _ _ (print_run _ _)). intros H.
    apply copy_parcels_fc_inv in H
      as (t & t' & _ & _ & _ & Hgdb & Hfc & _ & Hcalls).
    split; [|split; [|done]].
    + intros p x Hp. rewrite Hgdb. simpl.
      rewrite lookup_insert_ne; [done|]. intros <-. apply He. by exists x.
    + rewrite Hgdb. rewrite lookup_insert_eq. by eexists.
Qed.

(** After [prepare_parcels] the global [output_parcels_fc] is the path the
    name of the feature class gives, the dataset at that path exists, the
    global [existing_output_fields] lists its fields, and every dataset that
    existed before is as it was: a copy is made only where there was none,
    and no collaborator is called. *)
Theorem prepare_parcels_post parcel_count count input_parcels_fc_name w w' :
  prepare_parcels parcel_count count input_parcels_fc_name w = (w', inr tt) ->
  output_parcels_fc w'
  = output_gdb_data_basin +:+ os_sep +:+ lower input_parcels_fc_name +:+ "_"
    +:+ "requirements_and_exemptions" /\
  (exists t, gdb w' !! output_parcels_fc w' = Some t /\
             existing_output_fields w' = field_names t) /\
  (forall p x, gdb w !! p = Some x -> gdb w' !! p = Some x) /\
  calls w' = calls w.
Proof.
  unfold prepare_parcels. intros H.
  rewrite (bind_ok _ _ _ _ _ (print_run _ _)) in H.
  rewrite (bind_ok (modify _) _ _ _ tt eq_refl) in H.
  set (fc := output_gdb_data_basin +:+ os_sep +:+ lower input_parcels_fc_name +:+ "_"
             +:+ "requirements_and_exemptions") in *.
  set (w0 := set_output_parcels_fc fc _) in H.
  rewrite (bind_ok _ _ _ _ _ (Exists_run _ _)) in H.
  apply bind_inv_ok in H as (w1 & [] & Hcopy1 & H).
  apply copy_if_absent in Hcopy1 as (Hkeep1 & Hfc_exists & Hfc1 & Hcalls1).
  rewrite (bind_ok _ _ _ _ _ (Exists_run _ _)) in H.
  apply bind_inv_ok in H as (w2 & [] & Hcopy2 & H).
  apply copy_if_absent in Hcopy2 as (Hkeep2 & _ & Hfc2 & Hcalls2).
  destruct Hfc_exists as [t Ht]. apply Hkeep2 in Ht.
  rewrite (bind_ok _ _ _ _ _ (ListFields_run _ _ _ Ht)) in H.
  injection H as <-. cbn [output_parcels_fc existing_output_fields gdb calls
                          set_existing_output_fields].
  split; [by rewrite Hfc2, Hfc1|]. split.
  - exists t. split; [by rewrite Hfc2, Hfc1|done].
  - split; [|by rewrite Hcalls2, Hcalls1].
    intros p x Hp. apply Hkeep2, Hkeep1. exact Hp.
Qed.

(** ** The further properties on the sample worlds *)

Lemma run_eta {S A} (p : S * (exn + A)) (a : A) : snd p = inr a -> p = (fst p, inr a).
Proof. destruct p as [s r]. simpl. by intros ->. Qed.

Lemma no_parcels_exemption_pass_witness :
  exists w1,
    update_exemption_fields Statewide.requirements Statewide.exemptions
      (keys Statewide.exemptions) no_parcels_world = (w1, inr tt) /\
    gdb w1 = <[output_parcels_fc no_parcels_world :=
                 cursor_table no_parcels (keys Statewide.exemptions)]>
               (gdb no_parcels_world) /\
    rows (cursor_table no_parcels (keys Statewide.exemptions)) = [] /\
    calculate_exemptions Statewide.requirements Statewide.exemptions
      (keys Statewide.exemptions) no_parcels_world
    = (w1, if bool_decide (is_Some (gdb no_parcels_world
                                      !! (output_gdb_dev_team +:+ os_sep
                                          +:+ output_exemptions_table_name)))
           then inl (NameError "county_name_in_att_table") else inr tt).
Proof.
  apply (no_parcels_exemption_pass Statewide.requirements Statewide.exemptions
           (keys Statewide.exemptions) no_parcels_world no_parcels).
  - vm_compute. reflexivity.
  - reflexivity.
  - solve_elem.
  - solve_elem.
  - solve_elem.
Defined.

Lemma collaborator_calls_of_pass_witness :
  exists this_county all_counties,
    dict_lookup Statewide.requirements_with_no_data
      (county_name_of (output_parcels_fc yolo_prepared)) = Some this_county /\
    dict_lookup Statewide.requirements_with_no_data "ALL_COUNTIES" = Some all_counties /\
    calls yolo_after_three
    = calls yolo_prepared
      ++ omap (dispatched Statewide.requirements (this_county ++ all_counties)
                 (output_parcels_fc yolo_prepared)) ["2.1"; "9.5"; "8.1"].
Proof.
  apply (collaborator_calls_of_pass Statewide.requirements
           Statewide.requirements_with_no_data sample_collaborator
           ["2.1"; "9.5"; "8.1"] yolo_prepared yolo_after_three).
  unfold yolo_after_three. refine (run_eta _ tt _). vm_compute. reflexivity.
Defined.

Lemma exemption_pass_cells_witness :
  exists w1 t',
    update_exemption_fields Statewide.requirements scenario_exemptions ["E1"; "E2"; "E3"]
      scenario_world = (w1, inr tt) /\
    gdb w1 !! output_parcels_fc scenario_world = Some t' /\
    Forall2
      (fun r r' =>
         (forall g v, g ∉ exemption_field_name <$> ["E1"; "E2"; "E3"] ->
                      g ≠ "exemptions_count" ->
                      cell (field_names scenario_parcels) r g = Some v ->
                      cell (field_names t') r' g = Some v) /\
         (forall e cls, e ∈ ["E1"; "E2"; "E3"] ->
            dict_lookup scenario_exemptions e = Some cls ->
            exists us,
              Forall2 (fun cl u => clause_cell Statewide.requirements
                                     (field_names scenario_parcels) r cl = Some u)
                      cls us /\
              cell (field_names t') r' (exemption_field_name e) = Some (status_of us)))
      (rows scenario_parcels) (rows t').
Proof.
  apply (exemption_pass_cells Statewide.requirements scenario_exemptions
           ["E1"; "E2"; "E3"] scenario_world scenario_parcels).
  - reflexivity.
  - solve_wf.
  - repeat (apply List.Forall_cons;
            [eexists; split; [reflexivity|]; simpl;
             repeat (apply List.Forall_cons; [eexists; split; [reflexivity|solve_elem]|]);
             apply List.Forall_nil|]).
    apply List.Forall_nil.
  - solve_elem.
  - intros e cls id f He Hcls Hid Hf.
    repeat (apply elem_of_cons in He as [->|He]);
      try (by apply elem_of_nil in He);
      vm_compute in Hcls; injection Hcls as <-;
      vm_compute in Hid;
      repeat (apply elem_of_cons in Hid as [->|Hid]);
      try (by apply elem_of_nil in Hid);
      vm_compute in Hf; injection Hf as <-;
      (split; [discriminate|solve_elem]).
Defined.

Lemma copy_parcels_fc_fields_witness :
  exists w' t',
    copy_parcels_fc (input_parcels_gdb +:+ os_sep +:+ "Napa_Parcels")
      (output_gdb_dev_team +:+ os_sep +:+ "napa_parcels") napa_input_world
    = (w', inr tt) /\
    gdb w' = <[output_gdb_dev_team +:+ os_sep +:+ "napa_parcels" := t']>
               (gdb napa_input_world) /\
    Forall (fun f => f ∈ field_names t') original_fields_to_keep /\
    Forall2 (fun r r' => forall f v, f ∈ original_fields_to_keep ->
                                     cell (field_names napa_input) r f = Some v ->
                                     cell (field_names t') r' f = Some v)
            (rows napa_input) (rows t').
Proof.
  apply (copy_parcels_fc_fields (input_parcels_gdb +:+ os_sep +:+ "Napa_Parcels")
           (output_gdb_dev_team +:+ os_sep +:+ "napa_parcels") napa_input_world
           napa_input).
  - vm_compute. reflexivity.
  - solve_elem.
Defined.

Lemma prepare_parcels_post_witness :
  output_parcels_fc yolo_prepared
  = output_gdb_data_basin +:+ os_sep +:+ lower "Yolo_Parcels" +:+ "_"
    +:+ "requirements_and_exemptions" /\
  (exists t, gdb yolo_prepared !! output_parcels_fc yolo_prepared = Some t /\
             existing_output_fields yolo_prepared = field_names t) /\
  (forall p x, gdb yolo_start !! p = Some x -> gdb yolo_prepared !! p = Some x) /\
  calls yolo_prepared = calls yolo_start.
Proof.
  apply (prepare_parcels_post "2" 1%nat "Yolo_Parcels" yolo_start yolo_prepared).
  unfold yolo_prepared. refine (run_eta _ tt _). vm_compute. reflexivity.
Defined.

(** ** What the requirement pass writes *)

Lemma keeps_cells_trans P n1 n2 n3 r1 r2 r3 :
  keeps_cells P n1 n2 r1 r2 -> keeps_cells P n2 n3 r2 r3 -> keeps_cells P n1 n3 r1 r3.
Proof. intros H1 H2 g v Hg Hv. by apply H2, H1. Qed.

Lemma keeps_cells_weaken (P Q : string -> Prop) n1 n2 r1 r2 :
  (forall g, P g -> Q g) -> keeps_cells Q n1 n2 r1 r2 -> keeps_cells P n1 n2 r1 r2.
Proof. intros HPQ H g v Hg Hv. by apply H; [apply HPQ|]. Qed.

Lemma Forall2_keeps_refl P names rs : Forall2 (keeps_cells P names names) rs rs.
Proof.
  apply Forall2_same_length_lookup_2; [done|]. intros i r r' Hr Hr'.
  assert (r' = r) as -> by congruence. by intros g v _ Hv.
Qed.

Lemma ensure_field_keeps P t f :
  table_wf t ->
  Forall2 (keeps_cells P (field_names t) (field_names (ensure_field t f)))
          (rows t) (rows (ensure_field t f)).
Proof.
  intros Hwf. eapply Forall2_impl; [apply (ensure_field_rows t f Hwf)|].
  intros r r' [Hkeep _] g v _ Hv. by apply Hkeep.
Qed.

Lemma fill_field_keeps t g i v :
  index g (field_names t) = Some i ->
  Forall2 (keeps_cells (fun x => x ≠ g) (field_names t) (field_names (fill_field t i v)))
          (rows t) (rows (fill_field t i v)).
Proof.
  intros Hi. simpl. apply Forall2_fmap_r.
  apply Forall2_same_length_lookup_2; [done|]. intros k r r' Hr Hr'.
  assert (r' = r) as -> by congruence. intros x u Hx Hu.
  change (field_names (fill_field t i v)) with (field_names t).
  by rewrite (cell_insert_ne _ _ g x i v) by done.
Qed.

Lemma collaborator_fill_keeps collaborator method fc t g i :
  index g (field_names t) = Some i ->
  Forall2 (keeps_cells (fun x => x ≠ g) (field_names t)
             (field_names (collaborator_fill collaborator method fc t i)))
          (rows t) (rows (collaborator_fill collaborator method fc t i)).
Proof.
  intros Hi. unfold collaborator_fill. simpl.
  apply Forall2_same_length_lookup_2; [by rewrite length_imap|].
  intros k r r' Hr Hr'. rewrite list_lookup_imap, Hr in Hr'. simpl in Hr'.
  injection Hr' as <-. intros x u Hx Hu.
  change (field_names (mkTable (fields t) _)) with (field_names t).
  by rewrite (cell_insert_ne _ _ g x i) by done.
Qed.

Lemma collaborator_fill_values collaborator method fc t g i k r' :
  table_wf t -> index g (field_names t) = Some i ->
  rows (collaborator_fill collaborator method fc t i) !! k = Some r' ->
  cell (field_names (collaborator_fill collaborator method fc t i)) r' g
  = Some (collaborator method fc k).
Proof.
  intros Hwf Hi Hr'. unfold collaborator_fill in *. simpl in Hr'.
  rewrite list_lookup_imap in Hr'.
  destruct (rows t !! k) as [r|] eqn:Hr; [|done]. simpl in Hr'. injection Hr' as <-.
  change (field_names (mkTable (fields t) _)) with (field_names t).
  apply cell_insert_eq; [done|].
  unfold table_wf in Hwf. rewrite Forall_forall in Hwf.
  rewrite (Hwf r) by (by eapply list_elem_of_lookup_2).
  apply index_Some_lt in Hi. by rewrite <- length_field_names.
Qed.

Lemma null_requirement_rows requirements m w w' fc t :
  null_requirement requirements m w = (w', inr tt) ->
  output_parcels_fc w = fc -> gdb w !! fc = Some t -> table_wf t ->
  (forall g, g ∈ field_names t -> g ∈ existing_output_fields w) ->
  exists g t',
    dict_lookup requirements m = Some g /\
    output_parcels_fc w' = fc /\ gdb w' !! fc = Some t' /\ table_wf t' /\
    (forall g, g ∈ field_names t' -> g ∈ existing_output_fields w') /\
    Forall2 (keeps_cells (fun x => x ≠ g) (field_names t) (field_names t'))
            (rows t) (rows t').
Proof.
  intros Hrun Hfc Ht Hwf Hsub. unfold null_requirement in Hrun.
  destruct (dict_lookup requirements m) as [g|] eqn:Hg.
  2:{ rewrite (bind_err _ _ _ _ _ (dict_get_None _ _ _ Hg)) in Hrun. discriminate. }
  rewrite (bind_ok _ _ _ _ _ (dict_get_Some _ _ _ _ Hg)) in Hrun.
  rewrite (bind_ok get _ _ _ _ eq_refl) in Hrun. rewrite Hfc in Hrun.
  exists g. case_bool_decide as Hex.
  - destruct (index g (field_names t)) as [i|] eqn:Hi.
    + rewrite (CalculateField_present _ _ _ _ _ _ Ht Hi) in Hrun.
      injection Hrun as <-. exists (fill_field t i VNone).
      split; [done|]. split; [done|]. split; [by simpl; rewrite lookup_insert_eq|].
      split; [by apply fill_field_wf|]. split; [done|]. by apply fill_field_keeps.
    + unfold CalculateField_management in Hrun.
      rewrite (bind_ok _ _ _ _ _ (open_table_Some _ _ _ _ Ht)) in Hrun.
      rewrite Hi in Hrun. discriminate.
  - assert (Hnin : g ∉ field_names t) by (intros Hin; by apply Hex, Hsub).
    rewrite (bind_ok _ _ _ _ _ (AddField_fresh _ _ _ _ _ Ht Hnin)) in Hrun.
    injection Hrun as <-. exists (add_field t g "SHORT").
    split; [done|]. split; [done|]. split; [by simpl; rewrite lookup_insert_eq|].
    split; [by apply add_field_wf|]. split.
    { intros g' Hg'. simpl. rewrite field_names_add_field in Hg'.
      apply elem_of_app in Hg' as [?|?]; apply elem_of_app; [left; by apply Hsub|by right]. }
    pose proof (ensure_field_keeps (fun x => x ≠ g) t g Hwf) as Hk.
    unfold ensure_field in Hk. by rewrite bool_decide_eq_false_2 in Hk.
Qed.

Lemma null_requirements_rows requirements fc (P : string -> Prop) M : forall w w' t,
  for_each M (null_requirement requirements) w = (w', inr tt) ->
  output_parcels_fc w = fc -> gdb w !! fc = Some t -> table_wf t ->
  (forall g, g ∈ field_names t -> g ∈ existing_output_fields w) ->
  (forall m g x, m ∈ M -> dict_lookup requirements m = Some g -> P x -> x ≠ g) ->
  exists t',
    output_parcels_fc w' = fc /\ gdb w' !! fc = Some t' /\ table_wf t' /\
    Forall2 (keeps_cells P (field_names t) (field_names t')) (rows t) (rows t').
Proof.
  induction M as [|m M IH]; intros w w' t Hrun Hfc Ht Hwf Hsub HP; simpl in Hrun.
  - injection Hrun as <-. exists t. do 3 (split; [done|]). apply Forall2_keeps_refl.
  - apply bind_inv_ok in Hrun as (w1 & [] & Hstep & Hrest).
    destruct (null_requirement_rows _ _ _ _ _ _ Hstep Hfc Ht Hwf Hsub)
      as (g & t1 & Hg & Hfc1 & Ht1 & Hwf1 & Hsub1 & Hrows1).
    destruct (IH _ _ _ Hrest Hfc1 Ht1 Hwf1 Hsub1) as (t' & Hfc' & Ht' & Hwf' & Hrows').
    { intros m' g' x Hm'. apply HP. by right. }
    exists t'. do 3 (split; [done|]).
    eapply Forall2_trans; [|exact Hrows1|exact Hrows'].
    intros r1 r2 r3 H1 H2. eapply keeps_cells_trans; [|exact H2].
    eapply keeps_cells_weaken; [|exact H1]. intros x Hx. eapply HP; [by left|done|done].
Qed.

Lemma do_command_rows collaborator q fc g w w' t :
  do_command collaborator q fc g w = (w', inr tt) ->
  output_parcels_fc w = fc -> gdb w !! fc = Some t -> table_wf t ->
  exists t',
    output_parcels_fc w' = fc /\ gdb w' !! fc = Some t' /\ table_wf t' /\
    Forall2 (keeps_cells (fun x => x ≠ g) (field_names t) (field_names t'))
            (rows t) (rows t') /\
    ("calc_requirement_" +:+ replace_char "." "_" q ∈ RequirementFunctions ->
     g ∈ field_names t' /\
     forall k r', rows t' !! k = Some r' ->
       cell (field_names t') r' g
       = Some (collaborator ("calc_requirement_" +:+ replace_char "." "_" q) fc k)).
Proof.
  intros Hrun Hfc Ht Hwf. unfold do_command in Hrun.
  case_bool_decide as Hm.
  - unfold calc_requirement in Hrun.
    set (method := "calc_requirement_" +:+ replace_char "." "_" q) in *.
    rewrite (bind_ok (modify _) _ w _ tt eq_refl) in Hrun.
    set (w1 := set_calls (calls w ++ [(method, fc, g)]) w) in Hrun.
    assert (Ht1 : gdb w1 !! fc = Some t) by done.
    rewrite (bind_ok _ _ _ _ _ (open_table_Some _ _ _ _ Ht1)) in Hrun.
    destruct (index g (field_names t)) as [i|] eqn:Hi; [|discriminate].
    injection Hrun as <-.
    exists (collaborator_fill collaborator method fc t i).
    split; [done|]. split; [by simpl; rewrite lookup_insert_eq|].
    split; [by apply collaborator_fill_wf|].
    split; [by apply collaborator_fill_keeps|].
    intros _. split.
    + change (field_names (collaborator_fill collaborator method fc t i))
        with (field_names t).
      destruct (decide (g ∈ field_names t)) as [|Hn]; [done|].
      apply index_None in Hn. congruence.
    + intros k r' Hr'. by apply collaborator_fill_values.
  - injection Hrun as <-. exists t. split; [done|]. split; [done|]. split; [done|].
    split; [apply Forall2_keeps_refl|]. done.
Qed.

Lemma process_requirement_rows requirements collaborator M rc count q w w' res fc t :
  process_requirement requirements collaborator M rc count q w = (w', inr res) ->
  output_parcels_fc w = fc -> gdb w !! fc = Some t -> table_wf t ->
  exists g t',
    dict_lookup requirements q = Some g /\
    output_parcels_fc w' = fc /\ gdb w' !! fc = Some t' /\ table_wf t' /\
    Forall2 (keeps_cells (fun x => x ≠ g) (field_names t) (field_names t'))
            (rows t) (rows t') /\
    (q ∉ M ->
     "calc_requirement_" +:+ replace_char "." "_" q ∈ RequirementFunctions ->
     g ∈ field_names t' /\
     forall k r', rows t' !! k = Some r' ->
       cell (field_names t') r' g
       = Some (collaborator ("calc_requirement_" +:+ replace_char "." "_" q) fc k)).
Proof.
  intros Hrun Hfc Ht Hwf. unfold process_requirement in Hrun.
  rewrite (bind_ok _ _ _ _ _ (print_run _ _)) in Hrun.
  set (w0 := set_stdout _ w) in Hrun.
  destruct (dict_lookup requirements q) as [g|] eqn:Hg.
  2:{ rewrite (bind_err _ _ _ _ _ (dict_get_None _ _ _ Hg)) in Hrun. discriminate. }
  rewrite (bind_ok _ _ _ _ _ (dict_get_Some _ _ _ _ Hg)) in Hrun.
  rewrite (bind_ok get _ _ _ _ eq_refl) in Hrun.
  change (output_parcels_fc w0) with (output_parcels_fc w) in Hrun. rewrite Hfc in Hrun.
  assert (Hadd : exists w1 t1,
    (if bool_decide (g ∉ existing_output_fields w0) then
       print ("Adding field: " +:+ g) ;;; AddField_management fc g "SHORT"
     else ret tt) w0 = (w1, inr tt) /\
    output_parcels_fc w1 = fc /\ gdb w1 !! fc = Some t1 /\ table_wf t1 /\
    Forall2 (keeps_cells (fun x => x ≠ g) (field_names t) (field_names t1))
            (rows t) (rows t1)).
  { case_bool_decide.
    - destruct (AddField_ensure fc g t
                  (set_stdout (stdout w0 ++ ["Adding field: " +:+ g]) w0) Ht)
        as (w1 & Hrun1 & Hgdb1 & Hfc1 & _).
      exists w1, (ensure_field t g).
      split; [erewrite bind_ok; [exact Hrun1|reflexivity]|].
      split; [by rewrite Hfc1|].
      split; [rewrite Hgdb1; by rewrite lookup_insert_eq|].
      split; [by apply ensure_field_wf|]. by apply ensure_field_keeps.
    - exists w0, t. split; [reflexivity|]. split; [exact Hfc|]. split; [exact Ht|].
      split; [exact Hwf|]. apply Forall2_keeps_refl. }
  destruct Hadd as (w1 & t1 & Hrun1 & Hfc1 & Ht1 & Hwf1 & Hrows1).
  rewrite (bind_ok _ _ _ _ _ Hrun1) in Hrun. clear Hrun1.
  exists g. case_bool_decide as Hq.
  - apply bind_inv_ok in Hrun as (w3 & [] & Hdo & Hret).
    injection Hret as <- _.
    rewrite (bind_ok _ _ _ _ _ (print_run _ _)) in Hdo.
    set (w2 := set_stdout _ w1) in Hdo.
    destruct (do_command_rows collaborator q fc g w2 w3 t1 Hdo Hfc1 Ht1 Hwf1)
      as (t' & Hfc' & Ht' & Hwf' & Hrows' & Hvals).
    exists t'. do 4 (split; [done|]). split; [|by intros _].
    eapply Forall2_trans; [|exact Hrows1|exact Hrows']. intros r1 r2 r3.
    apply keeps_cells_trans.
  - rewrite (bind_ok _ _ _ _ _ (print_run _ _)) in Hrun.
    injection Hrun as <- _. exists t1. do 4 (split; [done|]). split; [done|].
    intros Hn. contradiction.
Qed.

Lemma process_requirements_rows requirements collaborator M rc fc (P : string -> Prop) rtp :
  forall count w w' res t,
  for_fold rtp count (process_requirement requirements collaborator M rc) w
  = (w', inr res) ->
  output_parcels_fc w = fc -> gdb w !! fc = Some t -> table_wf t ->
  (forall q g x, q ∈ rtp -> dict_lookup requirements q = Some g -> P x -> x ≠ g) ->
  exists t',
    output_parcels_fc w' = fc /\ gdb w' !! fc = Some t' /\ table_wf t' /\
    Forall2 (keeps_cells P (field_names t) (field_names t')) (rows t) (rows t').
Proof.
  induction rtp as [|q rtp IH]; intros count w w' res t Hrun Hfc Ht Hwf HP; simpl in Hrun.
  - injection Hrun as <- _. exists t. do 3 (split; [done|]). apply Forall2_keeps_refl.
  - apply bind_inv_ok in Hrun as (w1 & count1 & Hstep & Hrest).
    destruct (process_requirement_rows _ _ _ _ _ _ _ _ _ _ _ Hstep Hfc Ht Hwf)
      as (g & t1 & Hg & Hfc1 & Ht1 & Hwf1 & Hrows1 & _).
    destruct (IH _ _ _ _ _ Hrest Hfc1 Ht1 Hwf1) as (t' & Hfc' & Ht' & Hwf' & Hrows').
    { intros q' g' x Hq'. apply HP. by right. }
    exists t'. do 3 (split; [done|]).
    eapply Forall2_trans; [|exact Hrows1|exact Hrows'].
    intros r1 r2 r3 H1 H2. eapply keeps_cells_trans; [|exact H2].
    eapply keeps_cells_weaken; [|exact H1]. intros x Hx. eapply HP; [by left|done|done].
Qed.

Lemma purge_after_pass table w w' :
  (e <- Exists table ;;
   w0 <- get ;;
   if e then delete_county_rows_from_dev_table (output_parcels_fc w0) table
   else ret tt) w = (w', inr tt) ->
  forall p, p ≠ table -> gdb w' !! p = gdb w !! p.
Proof.
  rewrite (bind_ok _ _ _ _ _ (Exists_run _ _)).
  rewrite (bind_ok get _ _ _ _ eq_refl).
  destruct (bool_decide _); intros H p Hp.
  - apply delete_county_rows_frame in H as [Hframe _]. by apply Hframe.
  - by injection H as <-.
Qed.

(** A requirement to process that is not listed as without data and has a
    method gets, on every parcel, the value the collaborator computes for
    it, provided no requirement processed after it has the same field: the
    value is under the field the registry gives the requirement when the
    pass has run. *)
Theorem collaborator_values_stored requirements requirements_with_no_data collaborator
    processed_before requirement processed_after w w' t f :
  let method := "calc_requirement_" +:+ replace_char "." "_" requirement in
  gdb w !! output_parcels_fc w = Some t ->
  table_wf t ->
  (forall g, g ∈ field_names t -> g ∈ existing_output_fields w) ->
  output_parcels_fc w ≠ output_gdb_dev_team +:+ os_sep +:+ output_requirements_table_name ->
  ~ is_masked_spec requirements_with_no_data (county_name_of (output_parcels_fc w))
      requirement ->
  method ∈ RequirementFunctions ->
  dict_lookup requirements requirement = Some f ->
  Forall (fun q => dict_lookup requirements q ≠ Some f) processed_after ->
  calculate_requirements requirements requirements_with_no_data collaborator
    (processed_before ++ requirement :: processed_after) w = (w', inr tt) ->
  exists t',
    gdb w' !! output_parcels_fc w = Some t' /\
    length (rows t') = length (rows t) /\
    forall k r', rows t' !! k = Some r' ->
      cell (field_names t') r' f = Some (collaborator method (output_parcels_fc w) k).
Proof.
  intros method Ht Hwf Hsub Hne Hmask Hmethod Hf Hafter Hrun.
  unfold calculate_requirements in Hrun.
  rewrite (bind_ok get _ _ _ _ eq_refl) in Hrun.
  unfold is_masked_spec in Hmask.
  set (fc := output_parcels_fc w) in *.
  apply bind_inv_ok in Hrun as (wa & this_county & Hthis & Hrun).
  unfold dict_get in Hthis.
  destruct (dict_lookup requirements_with_no_data (county_name_of fc)) as [this|];
    [|discriminate].
  injection Hthis as <- <-.
  apply bind_inv_ok in Hrun as (wb & all_counties & Hall & Hrun).
  unfold dict_get in Hall.
  destruct (dict_lookup requirements_with_no_data "ALL_COUNTIES") as [all|];
    [|discriminate].
  injection Hall as <- <-. simpl in Hmask.
  apply bind_inv_ok in Hrun as (w1 & [] & Hnull & Hrun).
  destruct (null_requirements_rows requirements fc (fun _ => False)
              _ _ _ _ Hnull eq_refl Ht Hwf Hsub) as (t1 & Hfc1 & Ht1 & Hwf1 & Hrows1);
    [done|].
  apply bind_inv_ok in Hrun as (w4 & count & Hloop & Hrun).
  rewrite for_fold_app in Hloop.
  apply bind_inv_ok in Hloop as (w2 & count2 & Hpre & Hloop).
  destruct (process_requirements_rows _ _ _ _ fc (fun _ => False)
              _ _ _ _ _ _ Hpre Hfc1 Ht1 Hwf1) as (t2 & Hfc2 & Ht2 & Hwf2 & Hrows2);
    [done|].
  simpl for_fold in Hloop.
  apply bind_inv_ok in Hloop as (w3 & count3 & Hstep & Hpost).
  destruct (process_requirement_rows _ _ _ _ _ _ _ _ _ _ _ Hstep Hfc2 Ht2 Hwf2)
    as (g & t3 & Hg & Hfc3 & Ht3 & Hwf3 & Hrows3 & Hvals).
  assert (g = f) as -> by congruence.
  destruct (Hvals Hmask Hmethod) as [_ Hvals3].
  destruct (process_requirements_rows _ _ _ _ fc (fun x => x = f)
              _ _ _ _ _ _ Hpost Hfc3 Ht3 Hwf3) as (t4 & Hfc4 & Ht4 & Hwf4 & Hrows4).
  { intros q' g' x Hq' Hg' -> ->. rewrite Forall_forall in Hafter.
    by apply (Hafter q' Hq'). }
  exists t4. split; [|split].
  - rewrite (purge_after_pass _ _ _ Hrun) by done. exact Ht4.
  - rewrite <- (Forall2_length _ _ _ Hrows4), <- (Forall2_length _ _ _ Hrows3),
      <- (Forall2_length _ _ _ Hrows2). symmetry. by eapply Forall2_length.
  - intros k r' Hr'.
    destruct (Forall2_lookup_r _ _ _ _ _ Hrows4 Hr') as (r3 & Hr3 & Hkeep).
    apply Hkeep; [done|]. by apply Hvals3.
Qed.

Lemma collaborator_values_stored_witness :
  exists t',
    gdb yolo_after_three !! output_parcels_fc yolo_prepared = Some t' /\
    length (rows t') = length (rows yolo_parcels) /\
    forall k r', rows t' !! k = Some r' ->
      cell (field_names t') r' "wetlands_8_1"
      = Some (sample_collaborator ("calc_requirement_" +:+ replace_char "." "_" "8.1")
                (output_parcels_fc yolo_prepared) k).
Proof.
  apply (collaborator_values_stored Statewide.requirements
           Statewide.requirements_with_no_data sample_collaborator
           ["2.1"; "9.5"] "8.1" [] yolo_prepared yolo_after_three yolo_parcels
           "wetlands_8_1").
  - vm_compute. reflexivity.
  - solve_wf.
  - intros g Hg. vm_compute in Hg |- *. exact Hg.
  - solve_elem.
  - unfold is_masked_spec. solve_elem.
  - solve_elem.
  - reflexivity.
  - apply List.Forall_nil.
  - unfold yolo_after_three. refine (run_eta _ tt _). vm_compute. reflexivity.
Defined.

(** ** An exemption that is not in the dictionary *)

(** An exemption id that the dictionary does not have, first in the list
    passed to [calculate_exemptions]: the columns are added, its own among
    them, and the pass ends with [KeyError] on the first parcel. *)
Theorem unknown_exemption_KeyError requirements exemptions e es w t :
  gdb w !! output_parcels_fc w = Some t ->
  table_wf t ->
  rows t ≠ [] ->
  dict_lookup exemptions e = None ->
  exists w' t',
    calculate_exemptions requirements exemptions (e :: es) w = (w', inl (KeyError e)) /\
    gdb w' !! output_parcels_fc w = Some t' /\
    exemption_field_name e ∈ field_names t'.
Proof.
  intros Ht Hwf Hrows He.
  destruct (update_exemption_fields_run requirements exemptions (e :: es) w t Ht)
    as (w0 & Hgdb0 & Hsame0 & Hrun).
  set (T := cursor_table t (e :: es)) in *.
  destruct (cursor_table_facts t (e :: es) Hwf) as (HwfT & Hcount & HE & _ & _ & Hzero).
  fold T in HwfT, Hcount, HE, Hzero.
  assert (HT : gdb w0 !! output_parcels_fc w = Some T).
  { rewrite Hgdb0. by rewrite lookup_insert_eq. }
  rewrite (UpdateCursor_run _ _ T _ HT) in Hrun.
  pose proof (cursor_table_length t (e :: es)) as HlenT. fold T in HlenT.
  destruct (index_is_Some _ _ Hcount) as [ic Hic].
  assert (Hall0 : Forall (fun r => r !! ic = Some (VInt 0)) (rows T)).
  { eapply Forall_impl; [exact Hzero|]. intros r Hr. simpl in Hr.
    by rewrite (cell_index _ _ _ _ Hic) in Hr. }
  destruct (rows T) as [|r rs] eqn:HrowsT.
  { destruct (rows t); [done|discriminate]. }
  apply Forall_cons in Hall0 as [Hr _].
  assert (Hbody : calculate_exemptions_row requirements exemptions (e :: es)
                    (field_names T) (mkCursor r (stdout w0))
                  = (mkCursor r (stdout w0), inl (KeyError e))).
  { unfold calculate_exemptions_row.
    erewrite bind_ok; [|rewrite get_cell_run, Hic; simpl; by rewrite Hr].
    apply bind_err. simpl for_fold. apply bind_err.
    unfold calculate_exemption. apply bind_err. by apply dict_get_None. }
  rewrite (cursor_loop_first_error _ _ _ _ _ _ Hbody) in Hrun.
  eexists _, (mkTable (fields T) (r :: rs)).
  split; [|split].
  - unfold calculate_exemptions. apply bind_err. exact Hrun.
  - simpl. by rewrite lookup_insert_eq.
  - change (field_names (mkTable (fields T) (r :: rs))) with (field_names T).
    by apply Forall_cons in HE as [HE _].
Qed.

Lemma unknown_exemption_KeyError_witness :
  exists w' t',
    calculate_exemptions Statewide.requirements scenario_exemptions ["E9"; "E1"]
      scenario_world = (w', inl (KeyError "E9")) /\
    gdb w' !! output_parcels_fc scenario_world = Some t' /\
    exemption_field_name "E9" ∈ field_names t'.
Proof.
  apply (unknown_exemption_KeyError Statewide.requirements scenario_exemptions "E9" ["E1"]
           scenario_world scenario_parcels).
  - reflexivity.
  - solve_wf.
  - discriminate.
  - reflexivity.
Defined.

(** ** The stored value of an exemption *)

Lemma status_of_tri us :
  Forall tri_state us ->
  (Forall (fun u => u = VInt 1) us <-> status_of us = VInt 1) /\
  (VInt 0 ∈ us -> status_of us = VInt 0) /\
  (VInt 0 ∉ us -> VNone ∈ us -> status_of us = VNone).
Proof.
  intros Htri. unfold status_of.
  destruct (py_all us) eqn:Hall.
  - apply py_all_tri in Hall; [|done].
    destruct (all_one_no_zero us Hall) as [H0 HN]. by repeat split.
  - assert (Hnot : ~ Forall (fun u => u = VInt 1) us).
    { intros H. apply py_all_tri in H; [|done]. congruence. }
    destruct (py_in (VInt 0) us) eqn:Hin.
    + apply py_in_spec in Hin. split; [|split].
      * split; [done|discriminate].
      * done.
      * done.
    + apply py_in_false in Hin. split; [|split].
      * split; [done|discriminate].
      * done.
      * done.
Qed.

(** The parcel table after the exemption pass, row by row: the count, the
    cells the pass leaves alone, and the exemption columns. *)
Lemma exemption_pass_rows requirements exemptions es w t :
  gdb w !! output_parcels_fc w = Some t ->
  table_wf t ->
  Forall (fun e => exists cls,
            dict_lookup exemptions e = Some cls /\
            Forall (fun id => exists f, dict_lookup requirements id = Some f /\
                                        f ∈ field_names t) (referenced_ids cls)) es ->
  NoDup (exemption_field_name <$> es) ->
  (forall e cls id f,
     e ∈ es -> dict_lookup exemptions e = Some cls -> id ∈ referenced_ids cls ->
     dict_lookup requirements id = Some f ->
     f ≠ "exemptions_count" /\ (f ∉ exemption_field_name <$> es)) ->
  exists w1 t',
    update_exemption_fields requirements exemptions es w = (w1, inr tt) /\
    gdb w1 !! output_parcels_fc w = Some t' /\
    Forall2
      (fun r r' =>
         cell (field_names t') r' "exemptions_count"
         = Some (VInt (count_ones (field_names t') r' es)) /\
         (forall e cls, e ∈ es -> dict_lookup exemptions e = Some cls ->
            exists us,
              Forall2 (fun cl u => clause_cell requirements (field_names t) r cl = Some u)
                      cls us /\
              cell (field_names t') r' (exemption_field_name e) = Some (status_of us)))
      (rows t) (rows t').
Proof.
  intros Ht Hwf Hall Hnd Hdisj.
  destruct (update_exemption_fields_run requirements exemptions es w t Ht)
    as (w0 & Hgdb0 & Hsame0 & Hrun).
  set (T := cursor_table t es) in *.
  destruct (cursor_table_facts t es Hwf) as (HwfT & Hcount & _ & _ & _ & Hzero).
  fold T in HwfT, Hcount, Hzero.
  destruct (ready_of_present requirements exemptions t es Hwf Hall) as [Hready Hpres].
  fold T in Hready, Hpres.
  destruct (index_is_Some _ _ Hcount) as [ic Hic].
  assert (HT : gdb w0 !! output_parcels_fc w = Some T).
  { rewrite Hgdb0. by rewrite lookup_insert_eq. }
  rewrite (UpdateCursor_run _ _ T _ HT) in Hrun.
  destruct (cursor_loop_rel
              (calculate_exemptions_row requirements exemptions es (field_names T))
              (fun r => length r = length (field_names T) /\
                        cell (field_names T) r "exemptions_count" = Some (VInt 0))
              (fun rT r' =>
                 cell (field_names T) r' "exemptions_count"
                 = Some (VInt (count_ones (field_names T) r' es)) /\
                 (forall e cls, e ∈ es -> dict_lookup exemptions e = Some cls ->
                    exists us,
                      Forall2 (fun cl u => clause_cell requirements (field_names T) rT cl
                                           = Some u) cls us /\
                      cell (field_names T) r' (exemption_field_name e)
                      = Some (status_of us)))
              (rows T) (stdout w0)) as (rs' & Hloop & HQ).
  { intros r o [Hlenr Hcell].
    destruct (calculate_exemptions_row_run requirements exemptions es (field_names T)
                (mkCursor r o) Hcount Hready Hnd Hlenr Hcell)
      as [(r' & Hr' & _ & Hc & _) | (r' & e & cls & id & f & He & Hcls & Hid & Hf & Hnin & _)].
    - exists r'. split; [exact Hr'|]. split; [exact Hc|].
      unfold calculate_exemptions_row in Hr'.
      apply bind_inv_ok in Hr' as (c0 & v0 & Hget & Hr').
      rewrite get_cell_run, Hic in Hget. simpl in Hget.
      rewrite (cell_index _ _ _ _ Hic) in Hcell. simpl in Hcell. rewrite Hcell in Hget.
      injection Hget as <- <-.
      apply bind_inv_ok in Hr' as (c1 & v1 & Hfold & Hret).
      injection Hret as ->.
      destruct (calculate_exemptions_fold_cells requirements exemptions (field_names T)
                  ic es Hic Hready Hnd Hdisj (mkCursor r o) _ _ _ Hlenr Hfold)
        as (_ & _ & Hs).
      simpl in Hs. done.
    - destruct Hnin. by eapply Hpres. }
  { unfold table_wf in HwfT. rewrite Forall_forall in HwfT, Hzero |- *.
    intros r Hr. split; [|by apply Hzero].
    rewrite length_field_names. by apply HwfT. }
  rewrite Hloop in Hrun.
  eexists _, (mkTable (fields T) rs'). split; [exact Hrun|].
  split; [by simpl; rewrite lookup_insert_eq|].
  change (field_names (mkTable (fields T) rs')) with (field_names T). simpl rows.
  pose proof (cursor_table_rows t es Hwf) as Hrows. fold T in Hrows.
  apply Forall2_same_length_lookup. split.
  { rewrite (Forall2_length _ _ _ Hrows). by eapply Forall2_length. }
  intros k r r' Hr Hr'.
  destruct (Forall2_lookup_l _ _ _ _ _ Hrows Hr) as (rT & HrT & Hkeep0).
  destruct (Forall2_lookup_l _ _ _ _ _ HQ HrT) as (r'' & Hr'' & Hc & Hs).
  assert (r'' = r') as -> by congruence.
  split; [exact Hc|].
  intros e cls He Hcls. destruct (Hs e cls He Hcls) as (us & Hus & Hcell).
  exists us. split; [|done].
  eapply clauses_transfer; [|exact Hus].
  intros id f v Hid Hf Hv.
  destruct (Hdisj e cls id f He Hcls Hid Hf) as [Hf1 Hf2].
  assert (Hft : f ∈ field_names t).
  { rewrite Forall_forall in Hall. destruct (Hall e He) as (cls' & Hcls' & Hids).
    assert (cls' = cls) as -> by congruence.
    rewrite Forall_forall in Hids. destruct (Hids id Hid) as (f' & Hf' & Hin).
    congruence. }
  destruct (cell_wf_is_Some t r f Hwf) as [v0 Hv0]; [by eapply list_elem_of_lookup_2|done|].
  rewrite (Hkeep0 f v0 Hf1 Hv0) in Hv. congruence.
Qed.

(** C1 (exemption AND-combination).  After the exemption pass of lines
    1006-1096, for every parcel and every exemption of the pass: with the
    clause values u1..un read from the parcel's requirement fields (an OR
    group counting as the one value of its clause) in {0, 1, unknown}, the
    exemption column of the parcel holds 1 exactly when every ui is 1, holds
    0 when some ui is 0 whatever the others are, and holds <null> when no ui
    is 0 and one is unknown; and the parcel's [exemptions_count] is the
    number of exemptions whose column holds 1, so each exemption adds
    exactly one to it, and only when all its clause values are 1.  The
    requirement fields referred to are fields of the parcel table, none of
    them [exemptions_count] or an exemption column. *)
Theorem and_combination_stored requirements exemptions es w t :
  gdb w !! output_parcels_fc w = Some t ->
  table_wf t ->
  Forall (fun e => exists cls,
            dict_lookup exemptions e = Some cls /\
            Forall (fun id => exists f, dict_lookup requirements id = Some f /\
                                        f ∈ field_names t) (referenced_ids cls)) es ->
  NoDup (exemption_field_name <$> es) ->
  (forall e cls id f,
     e ∈ es -> dict_lookup exemptions e = Some cls -> id ∈ referenced_ids cls ->
     dict_lookup requirements id = Some f ->
     f ≠ "exemptions_count" /\ (f ∉ exemption_field_name <$> es)) ->
  exists w1 t',
    update_exemption_fields requirements exemptions es w = (w1, inr tt) /\
    gdb w1 !! output_parcels_fc w = Some t' /\
    Forall2
      (fun r r' =>
         cell (field_names t') r' "exemptions_count"
         = Some (VInt (count_ones (field_names t') r' es)) /\
         (forall e cls, e ∈ es -> dict_lookup exemptions e = Some cls ->
            exists us status,
              Forall2 (fun cl u => clause_cell requirements (field_names t) r cl = Some u)
                      cls us /\
              cell (field_names t') r' (exemption_field_name e) = Some status /\
              (Forall tri_state us ->
               (Forall (fun u => u = VInt 1) us <-> status = VInt 1) /\
               (VInt 0 ∈ us -> status = VInt 0) /\
               (VInt 0 ∉ us -> VNone ∈ us -> status = VNone))))
      (rows t) (rows t').
Proof.
  intros Ht Hwf Hall Hnd Hdisj.
  destruct (exemption_pass_rows requirements exemptions es w t Ht Hwf Hall Hnd Hdisj)
    as (w1 & t' & Hrun & Ht' & Hrows).
  exists w1, t'. split; [exact Hrun|]. split; [exact Ht'|].
  eapply Forall2_impl; [exact Hrows|]. intros r r' [Hc Hs]. split; [exact Hc|].
  intros e cls He Hcls. destruct (Hs e cls He Hcls) as (us & Hus & Hcell).
  exists us, (status_of us). split; [exact Hus|]. split; [exact Hcell|].
  apply status_of_tri.
Qed.

Lemma and_combination_stored_witness :
  exists w1 t',
    update_exemption_fields Statewide.requirements scenario_exemptions ["E1"; "E2"; "E3"]
      scenario_world = (w1, inr tt) /\
    gdb w1 !! output_parcels_fc scenario_world = Some t' /\
    Forall2
      (fun r r' =>
         cell (field_names t') r' "exemptions_count"
         = Some (VInt (count_ones (field_names t') r' ["E1"; "E2"; "E3"])) /\
         (forall e cls, e ∈ ["E1"; "E2"; "E3"] ->
            dict_lookup scenario_exemptions e = Some cls ->
            exists us status,
              Forall2 (fun cl u => clause_cell Statewide.requirements
                                     (field_names scenario_parcels) r cl = Some u)
                      cls us /\
              cell (field_names t') r' (exemption_field_name e) = Some status /\
              (Forall tri_state us ->
               (Forall (fun u => u = VInt 1) us <-> status = VInt 1) /\
               (VInt 0 ∈ us -> status = VInt 0) /\
               (VInt 0 ∉ us -> VNone ∈ us -> status = VNone))))
      (rows scenario_parcels) (rows t').
Proof.
  apply (and_combination_stored Statewide.requirements scenario_exemptions
           ["E1"; "E2"; "E3"] scenario_world scenario_parcels).
  - reflexivity.
  - solve_wf.
  - repeat (apply List.Forall_cons;
            [eexists; split; [reflexivity|]; simpl;
             repeat (apply List.Forall_cons; [eexists; split; [reflexivity|solve_elem]|]);
             apply List.Forall_nil|]).
    apply List.Forall_nil.
  - solve_elem.
  - intros e cls id f He Hcls Hid Hf.
    repeat (apply elem_of_cons in He as [->|He]);
      try (by apply elem_of_nil in He);
      vm_compute in Hcls; injection Hcls as <-;
      vm_compute in Hid;
      repeat (apply elem_of_cons in Hid as [->|Hid]);
      try (by apply elem_of_nil in Hid);
      vm_compute in Hf; injection Hf as <-;
      (split; [discriminate|solve_elem]).
Defined.

(** ** The value of an OR group on a parcel *)

Lemma collect_member_values requirements uc ids vs c :
  Forall2 (fun id v => exists f, dict_lookup requirements id = Some f /\
                                 cell uc (row c) f = Some v) ids vs ->
  collect ids (requirement_value requirements uc) c = (c, inr vs).
Proof.
  induction 1 as [|id v ids vs (f & Hf & Hv) _ IH]; simpl; [done|].
  erewrite bind_ok; [|by rewrite (requirement_value_run _ _ _ f), Hv].
  by rewrite (bind_ok _ _ _ _ _ IH).
Qed.

(** C2 (OR-group clause evaluation).  For an OR-group clause of an
    exemption, on a parcel: with v1..vk the values that the row holds under
    the fields of the member requirements, all in {0, 1, unknown},
    [clause_value] (lines 1045-1067) reads them and gives the clause the
    value 1 if some vi is 1, otherwise unknown if some vi is unknown,
    otherwise (every vi is 0) the value 0; the row is left as it is. *)
Theorem or_group_clause_value requirements uc ids vs c :
  Forall2 (fun id v => exists f, dict_lookup requirements id = Some f /\
                                 cell uc (row c) f = Some v) ids vs ->
  Forall tri_state vs ->
  exists v,
    clause_value requirements uc (OrGroup ids) c = (c, inr v) /\
    (VInt 1 ∈ vs -> v = VInt 1) /\
    (VInt 1 ∉ vs -> VNone ∈ vs -> v = VNone) /\
    (VInt 1 ∉ vs -> VNone ∉ vs -> Forall (fun v => v = VInt 0) vs /\ v = VInt 0).
Proof.
  intros Hvs Htri. exists (or_group_value vs). split.
  - simpl. by rewrite (bind_ok _ _ _ _ _ (collect_member_values _ _ _ _ _ Hvs)).
  - by apply or_group_value_tri.
Qed.

Lemma or_group_clause_value_witness :
  exists v,
    clause_value Statewide.requirements (field_names scenario_parcels)
      (OrGroup ["3.1"; "8.1"])
      (mkCursor [VInt 1; VStr "06113_A"; VStr "Yolo"; VInt 1; VNone; VInt 0; VInt 7] [])
    = (mkCursor [VInt 1; VStr "06113_A"; VStr "Yolo"; VInt 1; VNone; VInt 0; VInt 7] [],
       inr v) /\
    (VInt 1 ∈ [VNone; VInt 0] -> v = VInt 1) /\
    (VInt 1 ∉ [VNone; VInt 0] -> VNone ∈ [VNone; VInt 0] -> v = VNone) /\
    (VInt 1 ∉ [VNone; VInt 0] -> VNone ∉ [VNone; VInt 0] ->
     Forall (fun v => v = VInt 0) [VNone; VInt 0] /\ v = VInt 0).
Proof.
  apply (or_group_clause_value Statewide.requirements (field_names scenario_parcels)
           ["3.1"; "8.1"] [VNone; VInt 0]
           (mkCursor [VInt 1; VStr "06113_A"; VStr "Yolo"; VInt 1; VNone; VInt 0; VInt 7] [])).
  - apply List.Forall2_cons; [eexists; split; reflexivity|].
    apply List.Forall2_cons; [eexists; split; reflexivity|].
    apply List.Forall2_nil.
  - apply List.Forall_cons; [right; right; reflexivity|].
    apply List.Forall_cons; [left; reflexivity|].
    apply List.Forall_nil.
Defined.

(** ** A requirement without a method *)




(** ** The county a feature class is looked up under *)

Lemma county_name_of_output_path input_parcels_fc_name :
  has_sep input_parcels_fc_name = false ->
  county_name_of
    (output_gdb_data_basin +:+ os_sep +:+ lower input_parcels_fc_name +:+ "_"
     +:+ "requirements_and_exemptions")
  = lower (first_token "_" input_parcels_fc_name).
Proof.
  intros Hname. unfold county_name_of.
  change (os_sep +:+ ?x) with (String "\" x).
  rewrite basename_app.
  - change ("_" +:+ "requirements_and_exemptions")
      with (String "_" "requirements_and_exemptions").
    rewrite first_token_app, first_token_lower. apply lower_idemp.
  - rewrite has_sep_app, has_sep_lower, Hname. reflexivity.
Qed.

Lemma prepare_parcels_path parcel_count count input_parcels_fc_name w w' :
  prepare_parcels parcel_count count input_parcels_fc_name w = (w', inr tt) ->
  output_parcels_fc w'
  = output_gdb_data_basin +:+ os_sep +:+ lower input_parcels_fc_name +:+ "_"
    +:+ "requirements_and_exemptions".
Proof.
  unfold prepare_parcels. intros H.
  rewrite (bind_ok _ _ _ _ _ (print_run _ _)) in H.
  rewrite (bind_ok (modify _) _ _ _ tt eq_refl) in H.
  set (fc := output_gdb_data_basin +:+ os_sep +:+ lower input_parcels_fc_name +:+ "_"
             +:+ "requirements_and_exemptions") in *.
  set (w0 := set_output_parcels_fc fc _) in H.
  rewrite (bind_ok _ _ _ _ _ (Exists_run _ _)) in H.
  apply bind_inv_ok in H as (w1 & [] & Hcopy1 & H).
  apply copy_if_absent in Hcopy1 as (_ & Hfc_exists & Hfc1 & _).
  rewrite (bind_ok _ _ _ _ _ (Exists_run _ _)) in H.
  apply bind_inv_ok in H as (w2 & [] & Hcopy2 & H).
  apply copy_if_absent in Hcopy2 as (Hkeep2 & _ & Hfc2 & _).
  destruct Hfc_exists as [t Ht]. apply Hkeep2 in Ht.
  rewrite (bind_ok _ _ _ _ _ (ListFields_run _ _ _ Ht)) in H.
  injection H as <-. cbn [output_parcels_fc set_existing_output_fields].
  by rewrite Hfc2, Hfc1.
Qed.

(** The county under which the requirement pass of the main loop looks a
    feature class up.  For a feature class name without a path separator,
    made of ASCII characters (on these [lower] is Python's [str.lower]):
    once [prepare_parcels] has set the paths for it, the county name that
    [calculate_requirements] derives from the global [output_parcels_fc]
    (line 463) is the lower-case text of the feature class name before its
    first underscore; when the no-data dictionary has no entry under that
    key the pass raises [KeyError] with it and changes nothing, and a pass
    that completes has found entries under that key and under
    ["ALL_COUNTIES"]. *)
Theorem county_key_of_feature_class (requirements : dict string)
    (requirements_with_no_data : dict (list string))
    (collaborator : string -> string -> nat -> value)
    (requirements_to_process : list string)
    (parcel_count : string) (count : nat) (input_parcels_fc_name : string)
    (w w' : world) :
  let key := lower (first_token "_" input_parcels_fc_name) in
  has_sep input_parcels_fc_name = false ->
  Forall (fun c => (N_of_ascii c < 128)%N) (list_ascii_of_string input_parcels_fc_name) ->
  prepare_parcels parcel_count count input_parcels_fc_name w = (w', inr tt) ->
  county_name_of (output_parcels_fc w') = key /\
  (dict_lookup requirements_with_no_data key = None ->
   calculate_requirements requirements requirements_with_no_data collaborator
     requirements_to_process w' = (w', inl (KeyError key))) /\
  (forall w2,
     calculate_requirements requirements requirements_with_no_data collaborator
       requirements_to_process w' = (w2, inr tt) ->
     is_Some (dict_lookup requirements_with_no_data key) /\
     is_Some (dict_lookup requirements_with_no_data "ALL_COUNTIES")).
Proof.
  intros key Hname _ Hprep.
  assert (Hkey : county_name_of (output_parcels_fc w') = key).
  { rewrite (prepare_parcels_path _ _ _ _ _ Hprep).
    by apply county_name_of_output_path. }
  split; [exact Hkey|]. split.
  - intros Hnone. unfold calculate_requirements.
    rewrite (bind_ok get _ _ _ _ eq_refl). apply bind_err.
    rewrite Hkey. by apply dict_get_None.
  - intros w2 Hrun. unfold calculate_requirements in Hrun.
    rewrite (bind_ok get _ _ _ _ eq_refl) in Hrun. rewrite Hkey in Hrun.
    apply bind_inv_ok in Hrun as (w1 & this_county & Hget & Hrun).
    unfold dict_get in Hget.
    destruct (dict_lookup requirements_with_no_data key) eqn:Hk; [|done].
    injection Hget as <- <-. split; [by eexists|].
    apply bind_inv_ok in Hrun as (w1 & all_counties & Hget & _).
    unfold dict_get in Hget.
    destruct (dict_lookup requirements_with_no_data "ALL_COUNTIES"); [by eexists|done].
Qed.

Lemma county_key_of_feature_class_witness :
  county_name_of (output_parcels_fc yolo_prepared) = lower (first_token "_" "Yolo_Parcels") /\
  (dict_lookup [("ALL_COUNTIES", ["3.10"])] (lower (first_token "_" "Yolo_Parcels")) = None ->
   calculate_requirements Statewide.requirements [("ALL_COUNTIES", ["3.10"])]
     sample_collaborator ["2.1"] yolo_prepared
   = (yolo_prepared, inl (KeyError (lower (first_token "_" "Yolo_Parcels"))))) /\
  (forall w2,
     calculate_requirements Statewide.requirements [("ALL_COUNTIES", ["3.10"])]
       sample_collaborator ["2.1"] yolo_prepared = (w2, inr tt) ->
     is_Some (dict_lookup [("ALL_COUNTIES", ["3.10"])]
                (lower (first_token "_" "Yolo_Parcels"))) /\
     is_Some (dict_lookup [("ALL_COUNTIES", ["3.10"])] "ALL_COUNTIES")).
Proof.
  apply (county_key_of_feature_class Statewide.requirements [("ALL_COUNTIES", ["3.10"])]
           sample_collaborator ["2.1"] "2" 1%nat "Yolo_Parcels" yolo_start yolo_prepared).
  - reflexivity.
  - repeat (apply List.Forall_cons; [reflexivity|]). apply List.Forall_nil.
  - unfold yolo_prepared. refine (run_eta _ tt _). vm_compute. reflexivity.
Defined.

(** ** Both tables, as the main loop materialises them *)

(** C8 (schema reconciliation on append).  The two materialisations of the
    main loop (lines 1290-1291), [create_requirements_table_dev_team] and
    then [create_exemptions_table_dev_team], run on a parcel table [src]
    when both destination tables exist already: both run to their end, and
    each destination table is reconciled with the parcel table.  Every
    requirement field (resp. exemption field) of the parcel table is a
    column of the requirements (resp. exemptions) table afterwards; a column
    the table did not have is SHORT and holds <null> on the rows that were
    there; these rows come first and keep the values of all their other
    columns; one row per parcel follows with the parcel's values of the
    requirement (resp. exemption) fields. *)
Theorem schema_reconciliation_on_append requirements exemptions w src dstR dstE :
  gdb w !! output_parcels_fc w = Some src ->
  parcel_id_field ∈ field_names src ->
  county_name_field ∈ field_names src ->
  "exemptions_count" ∈ field_names src ->
  gdb w !! output_requirements_table = Some dstR ->
  table_wf dstR ->
  gdb w !! output_exemptions_table = Some dstE ->
  table_wf dstE ->
  output_parcels_fc w ≠ output_requirements_table ->
  output_parcels_fc w ≠ output_exemptions_table ->
  output_parcels_fc w ≠ scratch_ws +:+ os_sep +:+ "tmp_table_requirements" ->
  exists w' dstR' dstE',
    (create_requirements_table_dev_team requirements ;;;
     create_exemptions_table_dev_team exemptions) w = (w', inr tt) /\
    gdb w' !! output_requirements_table = Some dstR' /\
    gdb w' !! output_exemptions_table = Some dstE' /\
    reconciled (values requirements) src dstR dstR' /\
    reconciled (exemption_field_name <$> keys exemptions) src dstE dstE'.
Proof.
  intros Hsrc Hpid Hcounty Hcount HdstR HwfR HdstE HwfE HneR HneE Hnetmp.
  destruct (create_requirements_table_append requirements w src dstR
              Hsrc Hpid Hcounty HdstR HneR) as (w1 & Hrun1 & Hgdb1 & Hfc1 & _).
  assert (Hsrc1 : gdb w1 !! output_parcels_fc w1 = Some src).
  { rewrite Hfc1, Hgdb1. by rewrite !lookup_insert_ne. }
  assert (HdstE1 : gdb w1 !! output_exemptions_table = Some dstE).
  { rewrite Hgdb1. rewrite !lookup_insert_ne; [done|solve_elem..]. }
  destruct (create_exemptions_table_append exemptions w1 src dstE
              Hsrc1 Hpid Hcounty Hcount HdstE1) as (w2 & Hrun2 & Hgdb2 & _).
  { by rewrite Hfc1. }
  exists w2. eexists _, _. split.
  { by rewrite (bind_ok _ _ _ _ _ Hrun1). }
  split.
  { rewrite Hgdb2. rewrite !lookup_insert_ne; [|solve_elem..].
    rewrite Hgdb1. by rewrite lookup_insert_eq. }
  split.
  { rewrite Hgdb2. by rewrite lookup_insert_eq. }
  split.
  - apply reconciled_intro; [done|]. intros f Hf Hw. unfold kept_fields.
    apply elem_of_app. right. by apply list_elem_of_filter.
  - apply reconciled_intro; [done|]. intros f Hf Hw. unfold kept_fields.
    apply elem_of_app. left. apply elem_of_app. right. by apply list_elem_of_filter.
Qed.

Lemma schema_reconciliation_on_append_witness :
  exists w' dstR' dstE',
    (create_requirements_table_dev_team Statewide.requirements ;;;
     create_exemptions_table_dev_team scenario_exemptions) later_run_world = (w', inr tt) /\
    gdb w' !! output_requirements_table = Some dstR' /\
    gdb w' !! output_exemptions_table = Some dstE' /\
    reconciled (values Statewide.requirements) scenario_evaluated
      earlier_requirements_table dstR' /\
    reconciled (exemption_field_name <$> keys scenario_exemptions) scenario_evaluated
      earlier_exemptions_table dstE'.
Proof.
  apply (schema_reconciliation_on_append Statewide.requirements scenario_exemptions
           later_run_world scenario_evaluated earlier_requirements_table
           earlier_exemptions_table).
  - vm_compute. reflexivity.
  - solve_elem.
  - solve_elem.
  - solve_elem.
  - vm_compute. reflexivity.
  - solve_wf.
  - vm_compute. reflexivity.
  - solve_wf.
  - solve_elem.
  - solve_elem.
  - solve_elem.
Defined.

(** ** The dev-team tables after two runs on a county *)






